(** * A shallow embedding of the football scouting pipeline

    The repository holds two runnable variants of the same three-stage
    prompt chain:

    - [football_system.py], which talks to the generation backend through
      [client.models.generate_content] (module [Genai] below), and
    - [football_system_adk.py], which drives ADK agents through a [Runner]
      (module [Adk] below).

    Both are embedded as programs of a small state/exception monad over a
    [world] that holds the lines still waiting on standard input, the heap
    of dict objects, the behaviour of the generation backend and the trace
    of observable actions (prompts, prints, sleeps, backend requests).

    Strings are sequences of 8-bit code points (the Latin-1 block), with
    Python's classification of those code points.  What the scripts do
    when they are imported (reading the API key, creating the client) is
    embedded apart, in module [Startup], as a function of the environment. *)

From Stdlib Require Import ZArith Lia Ascii String List Bool.
From stdpp Require Import base list strings pretty gmap.

Open Scope string_scope.
Open Scope Z_scope.

(** ** Python builtins used by the scripts *)

Module Py.

Definition chr (n : nat) : string := String (ascii_of_nat n) "".

Definition nl : string := chr 10.
Definition tab : string := chr 9.
Definition squote : ascii := ascii_of_nat 39.
Definition dquote : ascii := ascii_of_nat 34.
Definition backslash : ascii := ascii_of_nat 92.

(** [str.isspace] on one code point below 256. *)
Definition isspace (c : ascii) : bool :=
  let n := nat_of_ascii c in
  ((9 <=? n) && (n <=? 13) || (28 <=? n) && (n <=? 32)
   || (n =? 133) || (n =? 160))%nat.

Fixpoint lstrip (s : string) : string :=
  match s with
  | "" => ""
  | String c r => if isspace c then lstrip r else s
  end.

Fixpoint rstrip (s : string) : string :=
  match s with
  | "" => ""
  | String c r =>
      match rstrip r with
      | "" => if isspace c then "" else String c ""
      | r' => String c r'
      end
  end.

(** [s.strip()] *)
Definition strip (s : string) : string := rstrip (lstrip s).

Definition lower_char (c : ascii) : ascii :=
  let n := nat_of_ascii c in
  if ((65 <=? n) && (n <=? 90)
      || (192 <=? n) && (n <=? 222) && negb (n =? 215))%nat
  then ascii_of_nat (n + 32) else c.

(** The capitals of code points 181, 223 and 255 lie outside the 8-bit
    block; [upper_char] is applied to dict keys only, which are ASCII
    literals of the scripts. *)
Definition upper_char (c : ascii) : ascii :=
  let n := nat_of_ascii c in
  if ((97 <=? n) && (n <=? 122)
      || (224 <=? n) && (n <=? 254) && negb (n =? 247))%nat
  then ascii_of_nat (n - 32) else c.

Fixpoint map_chars (f : ascii -> ascii) (s : string) : string :=
  match s with
  | "" => ""
  | String c r => String (f c) (map_chars f r)
  end.

(** [s.lower()] *)
Definition lower (s : string) : string := map_chars lower_char s.

(** [s.capitalize()] *)
Definition capitalize (s : string) : string :=
  match s with
  | "" => ""
  | String c r => String (upper_char c) (lower r)
  end.

(** [sub in s] *)
Fixpoint contains (sub s : string) : bool :=
  String.prefix sub s
  || match s with
     | "" => false
     | String _ r => contains sub r
     end.

(** [s in options] for a list of strings. *)
Definition member (s : string) (options : list string) : bool :=
  existsb (String.eqb s) options.

(** [s * n] *)
Fixpoint repeat_str (s : string) (n : nat) : string :=
  match n with
  | O => ""
  | S k => s ++ repeat_str s k
  end.

(** [sep.join(parts)] *)
Definition join (sep : string) (parts : list string) : string :=
  String.concat sep parts.

(** The format spec [:<width]: pad with spaces on the right. *)
Definition ljust (width : nat) (s : string) : string :=
  s ++ repeat_str " " (width - String.length s).

(** Truth value of a [str]. *)
Definition truthy (s : string) : bool := negb (String.eqb s "").

(** Truth value of an [Optional[str]]. *)
Definition truthy_opt (o : option string) : bool :=
  match o with
  | Some s => truthy s
  | None => false
  end.

(** [str(n)] for an int. *)
Definition str_int (n : Z) : string := pretty n.

Definition hex_digit (n : nat) : ascii :=
  if (n <? 10)%nat then ascii_of_nat (48 + n) else ascii_of_nat (87 + n).

Definition hex_escape (c : ascii) : string :=
  let n := nat_of_ascii c in
  String backslash
    (String "x" (String (hex_digit (n / 16)) (String (hex_digit (n mod 16)) ""))).

Definition printable (c : ascii) : bool :=
  let n := nat_of_ascii c in
  ((32 <=? n) && (n <? 127) || (161 <=? n) && negb (n =? 173))%nat.

Definition repr_char (quote c : ascii) : string :=
  if Ascii.eqb c backslash then String backslash (String backslash "")
  else if Ascii.eqb c quote then String backslash (String quote "")
  else if Ascii.eqb c (ascii_of_nat 9) then String backslash "t"
  else if Ascii.eqb c (ascii_of_nat 10) then String backslash "n"
  else if Ascii.eqb c (ascii_of_nat 13) then String backslash "r"
  else if printable c then String c ""
  else hex_escape c.

Fixpoint repr_chars (quote : ascii) (s : string) : string :=
  match s with
  | "" => ""
  | String c r => repr_char quote c ++ repr_chars quote r
  end.

(** [repr(s)] for a [str]: single quotes unless the text holds a single
    quote and no double quote. *)
Definition repr (s : string) : string :=
  let quote :=
    if contains (String squote "") s && negb (contains (String dquote "") s)
    then dquote else squote in
  String quote (repr_chars quote s ++ String quote "").

(** *** Dicts

    A dict of strings keeps its items in insertion order; assigning to a
    key that is present replaces the value in place. *)

Definition dict : Type := list (string * string).

Fixpoint dict_get (k : string) (d : dict) : option string :=
  match d with
  | [] => None
  | (k', v) :: rest => if String.eqb k k' then Some v else dict_get k rest
  end.

Fixpoint dict_set (k v : string) (d : dict) : dict :=
  match d with
  | [] => [(k, v)]
  | (k', v') :: rest =>
      if String.eqb k k' then (k, v) :: rest else (k', v') :: dict_set k v rest
  end.

Definition dict_keys (d : dict) : list string := map fst d.

(** [repr(d)], which is also what an f-string renders for [{d}]. *)
Definition repr_dict (d : dict) : string :=
  "{" ++ join ", " (map (fun kv => repr (fst kv) ++ ": " ++ repr (snd kv)) d) ++ "}".

End Py.

(** ** The runtime: standard input, dict heap, backend, trace *)

Module Rt.

(** Exceptions the scripts can meet.  [BackendError] carries the text
    that [str(e)] gives for an error raised by the generation backend. *)
Inductive exn : Type :=
| EOFError
| KeyError (key : string)
| AttributeError (msg : string)
| BackendError (msg : string).

(** [str(e)] *)
Definition str_exn (e : exn) : string :=
  match e with
  | EOFError => ""
  | KeyError key => Py.repr key
  | AttributeError msg => msg
  | BackendError msg => msg
  end.

(** How a computation ends: with a value, with an exception on its way
    up, or with [sys.exit(code)].  [OutOfFuel] marks a [while True] loop
    cut off by its iteration budget; the budgets handed out below are
    proved sufficient. *)
Inductive outcome (A : Type) : Type :=
| Done (a : A)
| Raised (e : exn)
| Exited (code : Z)
| OutOfFuel.
Arguments Done {A} a.
Arguments Raised {A} e.
Arguments Exited {A} code.
Arguments OutOfFuel {A}.

Section Machine.

(** The request a script sends to its backend and the response it gets
    back differ between the two scripts. *)
Context {Rq Resp : Type}.

Inductive action : Type :=
| Prompt (text : string)
| Print (text : string)
| Flush
| Sleep (secs : Z)
| Request (rq : Rq).

(** [backend n rq] is what the [n]-th request of the run meets when it
    carries [rq]: a response, or the text of the error raised. *)
Record world : Type := World {
  stdin : list string;
  heap : list Py.dict;
  backend : nat -> Rq -> Resp + string;
  served : nat;
  trace : list action
}.

Definition prog (A : Type) : Type := world -> outcome A * world.

Definition ret {A} (a : A) : prog A := fun w => (Done a, w).

Definition bind {A B} (m : prog A) (k : A -> prog B) : prog B :=
  fun w =>
    match m w with
    | (Done a, w') => k a w'
    | (Raised e, w') => (Raised e, w')
    | (Exited c, w') => (Exited c, w')
    | (OutOfFuel, w') => (OutOfFuel, w')
    end.

Definition raise {A} (e : exn) : prog A := fun w => (Raised e, w).

Definition out_of_fuel {A} : prog A := fun w => (OutOfFuel, w).

(** [sys.exit(code)]; no handler of the scripts catches it. *)
Definition sys_exit {A} (code : Z) : prog A := fun w => (Exited code, w).

(** [try: m  except ...: h e]; a handler that does not cover [e]
    raises it again. *)
Definition try_except {A} (m : prog A) (h : exn -> prog A) : prog A :=
  fun w =>
    match m w with
    | (Raised e, w') => h e w'
    | r => r
    end.

Definition emit (a : action) : prog unit :=
  fun w => (Done tt, World (stdin w) (heap w) (backend w) (served w) (trace w ++ [a])%list).

Definition print (text : string) : prog unit := emit (Print text).
Definition flush : prog unit := emit Flush.
Definition sleep (secs : Z) : prog unit := emit (Sleep secs).

(** [input(text)]: shows the prompt, then takes the next line, or
    raises [EOFError] when none is left. *)
Definition input (text : string) : prog string :=
  fun w =>
    let tr := (trace w ++ [Prompt text])%list in
    match stdin w with
    | [] => (Raised EOFError, World [] (heap w) (backend w) (served w) tr)
    | line :: rest => (Done line, World rest (heap w) (backend w) (served w) tr)
    end.

(** One round trip to the generation backend. *)
Definition send (rq : Rq) : prog Resp :=
  fun w =>
    let w' := World (stdin w) (heap w) (backend w) (S (served w)) (trace w ++ [Request rq])%list in
    match backend w (served w) rq with
    | inl resp => (Done resp, w')
    | inr msg => (Raised (BackendError msg), w')
    end.

(** A dict display [{k: v}] makes a new object; the value of the
    expression is the reference to it. *)
Definition new_dict (d : Py.dict) : prog nat :=
  fun w =>
    (Done (length (heap w)),
     World (stdin w) (heap w ++ [d])%list (backend w) (served w) (trace w)).

(** The object behind a reference.  The scripts hold no reference but
    the one [new_dict] gave them, so the [None] case is never met. *)
Definition deref (r : nat) : prog Py.dict :=
  fun w =>
    match heap w !! r with
    | Some d => (Done d, w)
    | None => (Raised (AttributeError "dangling reference"), w)
    end.

(** [r[k] = v] *)
Definition setitem (r : nat) (k v : string) : prog unit :=
  fun w =>
    match heap w !! r with
    | Some d =>
        (Done tt,
         World (stdin w) (<[r := Py.dict_set k v d]> (heap w)) (backend w) (served w) (trace w))
    | None => (Raised (AttributeError "dangling reference"), w)
    end.

(** [r[k]] *)
Definition getitem (r : nat) (k : string) : prog string :=
  bind (deref r) (fun d =>
    match Py.dict_get k d with
    | Some v => ret v
    | None => raise (KeyError k)
    end).

End Machine.

Arguments action : clear implicits.
Arguments world : clear implicits.
Arguments prog : clear implicits.

End Rt.

Declare Scope prog_scope.
Delimit Scope prog_scope with prog.
Notation "x <- m ;; k" := (Rt.bind m (fun x => k))
  (at level 100, m at next level, right associativity) : prog_scope.
Notation "m ;;; k" := (Rt.bind m (fun _ => k))
  (at level 100, right associativity) : prog_scope.

Local Open Scope prog_scope.

(** ** football_system.py *)

Module Genai.

(** The parts of [google.genai.types] the script touches. *)
Inductive tool : Type := GoogleSearch.

Record config : Type := GenerateContentConfig {
  tools : list tool;
  response_modalities : list string
}.

Record request : Type := GenerateContent {
  model : string;
  contents : string;
  request_config : option config
}.

(** A response as [run_step] reads it.  [text] is a property the library
    computes; the script reads it like a field, and a field it is here,
    with no tie to [candidates] assumed. *)
Record part : Type := Part { part_text : option string }.
Record content : Type := Content { parts : option (list part) }.
Record candidate : Type := Candidate { candidate_content : option content }.
Record response : Type := Response {
  text : option string;
  candidates : option (list candidate)
}.

Abbreviation prog := (Rt.prog request response).

Definition max_retries : nat := 5.
Definition base_delay : Z := 10.

(** [range(n)] *)
Definition range (n : nat) : list Z := map Z.of_nat (seq 0 n).

(** A rate-limit signal, as the handler of [run_step] recognises it. *)
Definition rate_limited (error_str : string) : bool :=
  Py.contains "429" error_str || Py.contains "RESOURCE_EXHAUSTED" error_str.

(** The statements of [run_step] after the response has arrived
    (lines 69-75). *)
Definition response_result (r : response) : prog string :=
  if Py.truthy_opt (text r) then Rt.ret (default "" (text r))
  else
    match candidates r with
    | Some (first :: _) =>
        match candidate_content first with
        | None => Rt.raise (Rt.AttributeError "'NoneType' object has no attribute 'parts'")
        | Some c =>
            match parts c with
            | Some (p :: ps) =>
                Rt.ret (Py.join ""
                  (omap (fun q => if Py.truthy_opt (part_text q) then part_text q else None)
                        (p :: ps)))
            | _ => Rt.ret "No text response generated."
            end
        end
    | _ => Rt.ret "No text response generated."
    end.

(** The [for attempt in range(max_retries)] loop of [run_step] with the
    two statements that follow it. *)
Fixpoint attempts (step_name prompt model_name : string) (tools : option (list tool))
    (todo : list Z) : prog string :=
  match todo with
  | [] =>
      Rt.print ("Error: Failed " ++ step_name ++ " after "
                ++ Py.str_int (Z.of_nat max_retries) ++ " retries due to rate limits.") ;;;
      Rt.ret ""
  | attempt :: rest =>
      Rt.try_except
        (response <-
           match tools with
           | Some (t :: ts) =>
               Rt.send (GenerateContent model_name prompt
                          (Some (GenerateContentConfig (t :: ts) ["TEXT"])))
           | _ => Rt.send (GenerateContent model_name prompt None)
           end ;;
         response_result response)
        (fun e =>
           let error_str := Rt.str_exn e in
           if rate_limited error_str then
             let wait_time := base_delay * 2 ^ attempt in
             Rt.print ("Warning: Rate limit hit (429). Waiting " ++ Py.str_int wait_time
                       ++ " seconds before retry " ++ Py.str_int (attempt + 1) ++ "/"
                       ++ Py.str_int (Z.of_nat max_retries) ++ "...") ;;;
             Rt.sleep wait_time ;;;
             attempts step_name prompt model_name tools rest
           else
             Rt.print ("Error during " ++ step_name ++ ": " ++ Rt.str_exn e) ;;;
             Rt.ret "")
  end.

Definition default_model : string := "gemini-2.0-flash-lite-001".

Definition run_step (step_name prompt model_name : string) (tools : option (list tool))
    : prog string :=
  Rt.print (Py.nl ++ "--- " ++ step_name ++ " ---") ;;;
  attempts step_name prompt model_name tools (range max_retries).

(** The [while True] loop of [collect_user_requirements]. *)
Fixpoint ask_choice (fuel : nat) : prog string :=
  match fuel with
  | O => Rt.out_of_fuel
  | S fuel' =>
      choice <-
        Rt.try_except
          (line <- Rt.input "Do you need a player or a coach? (player/coach): " ;;
           Rt.ret (Py.lower (Py.strip line)))
          (fun e => match e with Rt.EOFError => Rt.ret "" | _ => Rt.raise e end) ;;
      if Py.member choice ["player"; "coach"] then Rt.ret choice
      else if String.eqb choice "" then
        Rt.print "Exiting due to empty input (EOF)." ;;; Rt.sys_exit 1
      else
        Rt.print "Invalid choice. Please enter 'player' or 'coach'." ;;;
        ask_choice fuel'
  end.

(** [requirements[key] = input(text).strip()] *)
Definition ask_field (requirements : nat) (key text : string) : prog unit :=
  line <- Rt.input text ;;
  Rt.setitem requirements key (Py.strip line).

(** [collect_user_requirements] from line 110 on: the dict is made and
    filled; the value is the reference to it. *)
Definition fill_requirements (choice : string) : prog nat :=
  requirements <- Rt.new_dict [("type", choice)] ;;
  Rt.try_except
    (if String.eqb choice "player" then
       ask_field requirements "position"
         "Playing position (Goalkeeper, Defender, Midfielder, Forward): " ;;;
       ask_field requirements "age_range" "Preferred age range (e.g., 20-25): " ;;;
       ask_field requirements "experience" "Years of experience (e.g., 3+ years): " ;;;
       ask_field requirements "style"
         "Playing style or strengths (e.g., defensive, attacking, playmaker): "
     else
       ask_field requirements "style" "Coaching style (offensive, defensive, balanced): " ;;;
       ask_field requirements "experience"
         "Experience level (e.g., 5+ years, former player): " ;;;
       ask_field requirements "age_range" "Preferred age range (e.g., 40-50): " ;;;
       ask_field requirements "focus"
         "Team development focus (youth development, professional level, etc.): ")
    (fun e =>
       match e with
       | Rt.EOFError => Rt.print "Input interrupted." ;;; Rt.sys_exit 1
       | _ => Rt.raise e
       end) ;;;
  Rt.ret requirements.

(** The loop gets one iteration more than there are lines waiting: every
    iteration takes a line or leaves the loop. *)
Definition collect_user_requirements : prog nat :=
  Rt.print (Py.nl ++ "--- Football Player & Coach Recommendation System ---" ++ Py.nl) ;;;
  choice <- (fun w => ask_choice (S (length (Rt.stdin w))) w) ;;
  fill_requirements choice.

Definition google_search_tool : list tool := [GoogleSearch].

Definition player_search_prompt (position age_range experience style : string) : string :=
  Py.join Py.nl
    [ "";
      "        Act as a Data Retrieval Agent. Find currently active football players who match these criteria:";
      "        - Position: " ++ position;
      "        - Age: " ++ age_range;
      "        - Experience: " ++ experience;
      "        - Style: " ++ style;
      "        ";
      "        Use Google Search to find REAL, CURRENT data. ";
      "        List at least 5-7 potential candidates with their current team, key stats from the last season, and market value.";
      "        " ].

Definition coach_search_prompt (style experience age_range focus : string) : string :=
  Py.join Py.nl
    [ "";
      "        Act as a Data Retrieval Agent. Find football coaches matching these criteria:";
      "        - Style: " ++ style;
      "        - Experience: " ++ experience;
      "        - Age: " ++ age_range;
      "        - Focus: " ++ focus;
      "        ";
      "        Use Google Search to find REAL, CURRENT data.";
      "        List at least 5-7 potential candidates with their current status, recent achievements, and tactical preferences.";
      "        " ].

Definition scoring_prompt_text (user_reqs : Py.dict) (data_output : string) : string :=
  Py.join Py.nl
    [ "";
      "    Act as a Football Scout/Coach (Scoring Agent).";
      "    Analyze these candidates based on the user requirements: " ++ Py.repr_dict user_reqs;
      "    ";
      "    Candidate Data:";
      "    " ++ data_output;
      "    ";
      "    Task:";
      "    Assign a score (0-100) to each candidate based on:";
      "    1. Performance Consistency";
      "    2. Skill/Tactical Fit";
      "    3. Experience";
      "    ";
      "    Provide the list with scores and a brief 1-sentence justification for the score.";
      "    " ].

Definition ranking_prompt_text (scored_output : string) : string :=
  Py.join Py.nl
    [ "";
      "    Act as a Recommendation Agent.";
      "    Based on these scored candidates:";
      "    " ++ scored_output;
      "    ";
      "    Task:";
      "    1. Select the Top 5.";
      "    2. Format the output nicely for the user. ";
      "    3. For each recommendation include: Name, Current Team, key reason for recommendation, and final score.";
      "    " ].

(** [main] from line 132 to the end of Stage 1 (line 161); [user_reqs] is
    the reference that [collect_user_requirements] returned.  The value
    is [data_output]. *)
Definition retrieve (user_reqs : nat) : prog string :=
  shown <- Rt.deref user_reqs ;;
  Rt.print (Py.nl ++ "Collected Requirements: " ++ Py.repr_dict shown) ;;;
  type <- Rt.getitem user_reqs "type" ;;
  search_prompt <-
    (if String.eqb type "player" then
       position <- Rt.getitem user_reqs "position" ;;
       age_range <- Rt.getitem user_reqs "age_range" ;;
       experience <- Rt.getitem user_reqs "experience" ;;
       style <- Rt.getitem user_reqs "style" ;;
       Rt.ret (player_search_prompt position age_range experience style)
     else
       style <- Rt.getitem user_reqs "style" ;;
       experience <- Rt.getitem user_reqs "experience" ;;
       age_range <- Rt.getitem user_reqs "age_range" ;;
       focus <- Rt.getitem user_reqs "focus" ;;
       Rt.ret (coach_search_prompt style experience age_range focus)) ;;
  run_step "Step 2: Retrieving Data" search_prompt default_model (Some google_search_tool).

(** The rest of [main] (lines 162-203). *)
Definition score_and_rank (user_reqs : nat) (data_output : string) : prog unit :=
  Rt.print "search result received" ;;;
  (if negb (Py.truthy data_output) || Py.contains "No text response" data_output then
     Rt.print "Warning: Search failed to return useful text. The system might hallucinate or fail."
   else Rt.ret tt) ;;;
  reqs_now <- Rt.deref user_reqs ;;
  scored_output <-
    run_step "Step 3: Scoring Candidates" (scoring_prompt_text reqs_now data_output)
      default_model None ;;
  Rt.print scored_output ;;;
  final_output <-
    run_step "Step 4: Final Recommendations" (ranking_prompt_text scored_output)
      default_model None ;;
  Rt.print (Py.nl ++ Py.repeat_str "=" 30) ;;;
  Rt.print "FINAL RECOMMENDATIONS" ;;;
  Rt.print (Py.repeat_str "=" 30) ;;;
  Rt.print final_output.

Definition main : prog unit :=
  user_reqs <- collect_user_requirements ;;
  data_output <- retrieve user_reqs ;;
  score_and_rank user_reqs data_output.

End Genai.

(** ** football_system_adk.py *)

Module Adk.

Inductive tool : Type := google_search.

Record agent : Type := Agent {
  model : string;
  name : string;
  instruction : string;
  tools : list tool
}.

(** What [runner.run] is called with, together with the runner it is
    called on. *)
Record request : Type := RunnerRun {
  runner_agent : agent;
  app_name : string;
  user_id : string;
  session_id : string;
  new_message : string
}.

Record part : Type := Part { part_text : option string }.
Record content : Type := Content { parts : option (list part) }.
Record event : Type := Event { event_content : option content }.

(** A run of the runner yields its events, or raises. *)
Abbreviation prog := (Rt.prog request (list event)).

Definition MODEL_NAME : string := "gemini-2.5-flash".

(** The body of [for key, value in reqs.items()]. *)
Fixpoint print_items (items : list (string * string)) : prog unit :=
  match items with
  | [] => Rt.ret tt
  | (key, value) :: rest =>
      Rt.print (Py.ljust 15 (Py.capitalize key) ++ ": " ++ value) ;;;
      print_items rest
  end.

Definition print_structured_requirements (reqs : nat) : prog unit :=
  Rt.print (Py.nl ++ Py.repeat_str "=" 40) ;;;
  Rt.print " PLAYER / COACH REQUIREMENTS" ;;;
  Rt.print (Py.repeat_str "=" 40) ;;;
  items <- Rt.deref reqs ;;
  print_items items ;;;
  Rt.print (Py.repeat_str "=" 40 ++ Py.nl) ;;;
  Rt.flush.

Definition max_retries : nat := 5.
Definition base_delay : Z := 10.

(** [range(n)] *)
Definition range (n : nat) : list Z := map Z.of_nat (seq 0 n).

Definition rate_limited (error_str : string) : bool :=
  Py.contains "429" error_str || Py.contains "RESOURCE_EXHAUSTED" error_str.

(** What one event adds to [full_response]. *)
Definition event_texts (ev : event) : list string :=
  match event_content ev with
  | Some c =>
      match parts c with
      | Some (p :: ps) =>
          omap (fun q => if Py.truthy_opt (part_text q) then part_text q else None) (p :: ps)
      | _ => []
      end
  | None => []
  end.

(** [full_response] once the loop over the events is over. *)
Definition full_response (events : list event) : list string :=
  concat (map event_texts events).

(** The [for attempt in range(max_retries)] loop of [run_agent_safe] with
    the two statements that follow it. *)
Fixpoint attempts (runner : agent * string) (prompt step_name : string) (todo : list Z)
    : prog string :=
  match todo with
  | [] =>
      Rt.print ("Error: Failed " ++ step_name ++ " after "
                ++ Py.str_int (Z.of_nat max_retries) ++ " retries.") ;;;
      Rt.ret ""
  | attempt :: rest =>
      Rt.try_except
        (events <- Rt.send (RunnerRun (fst runner) (snd runner) "user" "session" prompt) ;;
         let result := Py.join "" (full_response events) in
         if negb (Py.truthy result) then Rt.ret "No response generated."
         else Rt.ret result)
        (fun e =>
           let error_str := Rt.str_exn e in
           if rate_limited error_str then
             let wait_time := base_delay * 2 ^ attempt in
             Rt.print ("Warning: Rate limit hit (429). Waiting " ++ Py.str_int wait_time
                       ++ " seconds before retry " ++ Py.str_int (attempt + 1) ++ "/"
                       ++ Py.str_int (Z.of_nat max_retries) ++ "...") ;;;
             Rt.sleep wait_time ;;;
             attempts runner prompt step_name rest
           else if Py.contains "404" error_str && Py.contains "not found" error_str then
             Rt.print ("Error: Model " ++ model (fst runner)
                       ++ " not found. Please check model availability.") ;;;
             Rt.ret ""
           else
             Rt.print ("Error during " ++ step_name ++ ": " ++ Rt.str_exn e) ;;;
             Rt.ret "")
  end.

Definition run_agent_safe (a : agent) (prompt step_name : string) : prog string :=
  Rt.print (Py.nl ++ "--- " ++ step_name ++ " ---") ;;;
  let runner := (a, "football_app_" ++ name a) in
  attempts runner prompt step_name (range max_retries).

(** The [while True] loop of [collect_user_requirements]. *)
Fixpoint ask_choice (fuel : nat) : prog string :=
  match fuel with
  | O => Rt.out_of_fuel
  | S fuel' =>
      choice <-
        Rt.try_except
          (line <- Rt.input "Do you need a player or a coach? (player/coach): " ;;
           Rt.ret (Py.lower (Py.strip line)))
          (fun e => match e with Rt.EOFError => Rt.sys_exit 1 | _ => Rt.raise e end) ;;
      if Py.member choice ["player"; "coach"] then Rt.ret choice
      else
        Rt.print "Invalid choice. Please enter 'player' or 'coach'." ;;;
        ask_choice fuel'
  end.

(** [requirements[key] = input(text).strip()] *)
Definition ask_field (requirements : nat) (key text : string) : prog unit :=
  line <- Rt.input text ;;
  Rt.setitem requirements key (Py.strip line).

(** [collect_user_requirements] from line 114 on: the dict is made and
    filled; the value is the reference to it. *)
Definition fill_requirements (choice : string) : prog nat :=
  requirements <- Rt.new_dict [("type", choice)] ;;
  Rt.try_except
    (if String.eqb choice "player" then
       ask_field requirements "position" "Playing position (e.g., Forward): " ;;;
       ask_field requirements "age_range" "Age range (e.g., 20-25): " ;;;
       ask_field requirements "experience" "Experience (e.g., 3+ years): " ;;;
       ask_field requirements "style" "Playing style (e.g., Attacking): "
     else
       ask_field requirements "style" "Coaching style (e.g., Defensive): " ;;;
       ask_field requirements "experience" "Experience (e.g., 5+ years): " ;;;
       ask_field requirements "age_range" "Age range (e.g., 40-50): " ;;;
       ask_field requirements "focus" "Focus (e.g., Youth Dev): ")
    (fun e => match e with Rt.EOFError => Rt.sys_exit 1 | _ => Rt.raise e end) ;;;
  Rt.ret requirements.

(** The loop gets one iteration more than there are lines waiting: every
    iteration takes a line or leaves the loop. *)
Definition collect_user_requirements : prog nat :=
  Rt.print (Py.nl ++ "--- Football Player & Coach Recommendation System (ADK) ---" ++ Py.nl) ;;;
  choice <- (fun w => ask_choice (S (length (Rt.stdin w))) w) ;;
  fill_requirements choice.

Definition DATA_RETRIEVAL_INSTRUCTIONS : string :=
  Py.join Py.nl
    [ "";
      "You are a Data Retrieval Agent. Search for REAL, ACTIVE football candidates matching the user's criteria.";
      "Output the data in this exact format for each candidate:";
      "- Name: [Name]";
      "- Team/Status: [Current Team or Status]";
      "- Age: [Age]";
      "- Key Stats/Achievements: [Stats]";
      "- Market Value: [Value/Salary]";
      "" ].

Definition SCORING_INSTRUCTIONS : string :=
  Py.join Py.nl
    [ "";
      "You are a Scout. Analyze the candidates provided.";
      "Assign a score (0-100) based on:";
      "1. Fit for requirements";
      "2. Recent form/performance";
      "3. Long-term potential";
      "";
      "Output:";
      "[Name] - Score: [Score]";
      "Justification: [Brief reason]";
      "" ].

Definition RANKING_INSTRUCTIONS : string :=
  Py.join Py.nl
    [ "";
      "You are a Head Scout. Select the TOP 5 candidates.";
      "Present them in a clear, text-based table structure.";
      "Columns: Rank | Name | Score | Key Strength | Current Team";
      "" ].

(** The three agents [main] sets up (lines 170-172). *)
Definition data_agent : agent :=
  Agent MODEL_NAME "data_agent" DATA_RETRIEVAL_INSTRUCTIONS [google_search].
Definition scoring_agent : agent :=
  Agent MODEL_NAME "scoring_agent" SCORING_INSTRUCTIONS [].
Definition ranking_agent : agent :=
  Agent MODEL_NAME "ranking_agent" RANKING_INSTRUCTIONS [].

(** [main] from line 167 to the end of Stage 1 (line 182); [user_reqs] is
    the reference that [collect_user_requirements] returned.  The value
    is [data_out]. *)
Definition retrieve (user_reqs : nat) : prog string :=
  print_structured_requirements user_reqs ;;;
  type <- Rt.getitem user_reqs "type" ;;
  search_prompt <-
    (if String.eqb type "player" then
       position <- Rt.getitem user_reqs "position" ;;
       age_range <- Rt.getitem user_reqs "age_range" ;;
       experience <- Rt.getitem user_reqs "experience" ;;
       style <- Rt.getitem user_reqs "style" ;;
       Rt.ret ("Find 5-7 active football players: Position " ++ position ++ ", Age "
               ++ age_range ++ ", Experience " ++ experience ++ ", Style " ++ style ++ ".")
     else
       style <- Rt.getitem user_reqs "style" ;;
       experience <- Rt.getitem user_reqs "experience" ;;
       age_range <- Rt.getitem user_reqs "age_range" ;;
       focus <- Rt.getitem user_reqs "focus" ;;
       Rt.ret ("Find 5-7 football coaches: Style " ++ style ++ ", Experience " ++ experience
               ++ ", Age " ++ age_range ++ ", Focus " ++ focus ++ ".")) ;;
  run_agent_safe data_agent search_prompt "Retrieving Data".

(** The rest of [main] (lines 183-197). *)
Definition score_and_rank (user_reqs : nat) (data_out : string) : prog unit :=
  if negb (Py.truthy data_out) then Rt.ret tt
  else
    reqs_now <- Rt.deref user_reqs ;;
    let scoring_prompt :=
      "User Requirements: " ++ Py.repr_dict reqs_now ++ Py.nl ++ "Candidates:" ++ Py.nl
      ++ data_out in
    score_out <- run_agent_safe scoring_agent scoring_prompt "Scoring Candidates" ;;
    if negb (Py.truthy score_out) then Rt.ret tt
    else
      let ranking_prompt := "Rank these candidates:" ++ Py.nl ++ score_out in
      final_out <- run_agent_safe ranking_agent ranking_prompt "Ranking & Recommendations" ;;
      Rt.print (Py.nl ++ Py.repeat_str "=" 40) ;;;
      Rt.print " FINAL RECOMMENDATIONS" ;;;
      Rt.print (Py.repeat_str "=" 40) ;;;
      Rt.print final_out.

Definition main : prog unit :=
  user_reqs <- collect_user_requirements ;;
  data_out <- retrieve user_reqs ;;
  score_and_rank user_reqs data_out.

End Adk.

(** ** Reading a run *)

Module Obs.

Section Trace.

Context {Rq Resp : Type}.

(** The backend requests of a trace, oldest first. *)
Definition requests (tr : list (Rt.action Rq)) : list Rq :=
  omap (fun a => match a with Rt.Request rq => Some rq | _ => None end) tr.

(** The seconds slept, oldest first. *)
Definition sleeps (tr : list (Rt.action Rq)) : list Z :=
  omap (fun a => match a with Rt.Sleep secs => Some secs | _ => None end) tr.

(** The questions put to the operator, oldest first. *)
Definition prompts (tr : list (Rt.action Rq)) : list string :=
  omap (fun a => match a with Rt.Prompt text => Some text | _ => None end) tr.

(** The lines printed, oldest first. *)
Definition prints (tr : list (Rt.action Rq)) : list string :=
  omap (fun a => match a with Rt.Print text => Some text | _ => None end) tr.

(** The world after [n] more requests and the actions [tr], with [lines]
    left on standard input; heap and backend as before. *)
Definition advance (w : Rt.world Rq Resp) (lines : list string) (n : nat)
    (tr : list (Rt.action Rq)) : Rt.world Rq Resp :=
  Rt.World lines (Rt.heap w) (Rt.backend w) (Rt.served w + n) (Rt.trace w ++ tr)%list.

(** The [i]-th request from [w] on, carrying [rq], meets a rate-limit
    error. *)
Definition throttled (w : Rt.world Rq Resp) (rq : Rq) (i : nat) : bool :=
  match Rt.backend w (Rt.served w + i) rq with
  | inr msg => Py.contains "429" msg || Py.contains "RESOURCE_EXHAUSTED" msg
  | inl _ => false
  end.

(** How many requests in a row, from the [from]-th on and at most
    [budget], meet a rate-limit error. *)
Fixpoint streak (w : Rt.world Rq Resp) (rq : Rq) (from budget : nat) : nat :=
  match budget with
  | O => O
  | S b => if throttled w rq from then S (streak w rq (S from) b) else O
  end.

End Trace.

(** The request [Genai.run_step] sends on every attempt. *)
Definition genai_request (prompt model_name : string) (tools : option (list Genai.tool))
    : Genai.request :=
  match tools with
  | Some (t :: ts) =>
      Genai.GenerateContent model_name prompt
        (Some (Genai.GenerateContentConfig (t :: ts) ["TEXT"]))
  | _ => Genai.GenerateContent model_name prompt None
  end.

(** The request [Adk.run_agent_safe] sends on every attempt. *)
Definition adk_request (a : Adk.agent) (prompt : string) : Adk.request :=
  Adk.RunnerRun a ("football_app_" ++ Adk.name a) "user" "session" prompt.

(** The discriminant as the collectors compare it. *)
Definition normalize (line : string) : string := Py.lower (Py.strip line).

Definition accepted (line : string) : bool :=
  Py.member (normalize line) ["player"; "coach"].

Definition blank (line : string) : bool := String.eqb (normalize line) "".

(** A line the Genai loop answers with "Invalid choice" and a new
    prompt: neither accepted nor blank. *)
Definition rejected (line : string) : bool := negb (accepted line) && negb (blank line).

(** The dict a collector has built once the choice [choice] and the four
    answers are in. *)
Definition requirements_of (choice a1 a2 a3 a4 : string) : Py.dict :=
  if String.eqb choice "player" then
    [("type", choice); ("position", Py.strip a1); ("age_range", Py.strip a2);
     ("experience", Py.strip a3); ("style", Py.strip a4)]
  else
    [("type", choice); ("style", Py.strip a1); ("experience", Py.strip a2);
     ("age_range", Py.strip a3); ("focus", Py.strip a4)].

(** The keys that go with a value of [type]. *)
Definition keys_for (type : string) : list string :=
  if String.eqb type "player" then ["type"; "position"; "age_range"; "experience"; "style"]
  else ["type"; "style"; "experience"; "age_range"; "focus"].

Definition invalid_choice : string := "Invalid choice. Please enter 'player' or 'coach'.".

(** A program that leaves every dict object as it found it. *)
Definition keeps_heap {Rq Resp A : Type} (p : Rt.prog Rq Resp A) : Prop :=
  forall w, Rt.heap (snd (p w)) = Rt.heap w.

(** The waits of the retry loop for attempts 0 to 4. *)
Definition schedule : list Z := [10; 20; 40; 80; 160].

(** What the retry loops print before they sleep. *)
Definition retry_warning (attempt : Z) : string :=
  "Warning: Rate limit hit (429). Waiting " ++ Py.str_int (10 * 2 ^ attempt)
  ++ " seconds before retry " ++ Py.str_int (attempt + 1) ++ "/"
  ++ Py.str_int 5 ++ "...".

(** The actions of one attempt that met a rate-limit error. *)
Definition throttled_attempt {Rq : Type} (rq : Rq) (attempt : Z) : list (Rt.action Rq) :=
  [Rt.Request rq; Rt.Print (retry_warning attempt); Rt.Sleep (10 * 2 ^ attempt)].

Definition choice_prompt : string := "Do you need a player or a coach? (player/coach): ".

End Obs.

(** ** Sample runs *)

Module Samples.

Definition genai_world (lines : list string)
    (b : nat -> Genai.request -> Genai.response + string)
    : Rt.world Genai.request Genai.response :=
  Rt.World lines [] b 0 [].

Definition adk_world (lines : list string)
    (b : nat -> Adk.request -> list Adk.event + string)
    : Rt.world Adk.request (list Adk.event) :=
  Rt.World lines [] b 0 [].

Definition busy : string := "429 RESOURCE_EXHAUSTED. Quota exceeded.".
Definition broken : string := "500 INTERNAL. Backend error.".

(** Backends that turn every request down with a rate-limit error. *)
Definition genai_always_busy (n : nat) (rq : Genai.request) : Genai.response + string :=
  inr busy.
Definition adk_always_busy (n : nat) (rq : Adk.request) : list Adk.event + string :=
  inr busy.

Definition genai_says (s : string) : Genai.response :=
  Genai.Response (Some s) None.
Definition adk_says (s : string) : list Adk.event :=
  [Adk.Event (Some (Adk.Content (Some [Adk.Part (Some s)])))].

(** Backends that are busy once and answer from then on. *)
Definition genai_busy_once (n : nat) (rq : Genai.request) : Genai.response + string :=
  match n with
  | O => inr busy
  | _ => inl (genai_says "Candidates: A, B, C")
  end.
Definition adk_busy_once (n : nat) (rq : Adk.request) : list Adk.event + string :=
  match n with
  | O => inr busy
  | _ => inl (adk_says "Candidates: A, B, C")
  end.

(** Backends whose first request fails for good and that answer from then
    on. *)
Definition genai_broken_once (n : nat) (rq : Genai.request) : Genai.response + string :=
  match n with
  | O => inr broken
  | _ => inl (genai_says "Nothing to go on")
  end.
Definition adk_broken_once (n : nat) (rq : Adk.request) : list Adk.event + string :=
  match n with
  | O => inr broken
  | _ => inl (adk_says "Nothing to go on")
  end.

(** Backends that fail for good on every request. *)
Definition genai_always_broken (n : nat) (rq : Genai.request) : Genai.response + string :=
  inr broken.
Definition adk_always_broken (n : nat) (rq : Adk.request) : list Adk.event + string :=
  inr broken.

(** A response with one candidate whose only part carries no text (a
    function call, say), and so with no [text] either; and the same part
    in an ADK event. *)
Definition genai_textless : Genai.response :=
  Genai.Response None
    (Some [Genai.Candidate (Some (Genai.Content (Some [Genai.Part None])))]).
Definition adk_textless : list Adk.event :=
  [Adk.Event (Some (Adk.Content (Some [Adk.Part None])))].

(** Backends that answer every request with the textless response. *)
Definition genai_answers_textless (n : nat) (rq : Genai.request) : Genai.response + string :=
  inl genai_textless.
Definition adk_answers_textless (n : nat) (rq : Adk.request) : list Adk.event + string :=
  inl adk_textless.

Definition player_lines : list string :=
  ["player"; "Forward"; "20-25"; "3+ years"; "Attacking, fast"].
Definition padded_player_lines : list string :=
  ["  PLAYER "; " Forward "; "20-25"; "3+ years"; "Attacking, fast"].
Definition padded_answer_lines : list string :=
  ["player"; " Forward "; "20-25"; "3+ years"; "Attacking, fast"].
Definition coach_lines : list string :=
  ["coach"; "Defensive"; "5+ years"; "40-50"; "Youth Dev"].
Definition blank_then_coach_lines : list string :=
  [""; "coach"; "Defensive"; "5+ years"; "40-50"; "Youth Dev"].

End Samples.



(** ** What the scripts do when they are loaded *)

Module Startup.

(** How the module-level code of a script ends: the script goes on to
    its functions, or the process has exited.  Either way [environ] is
    [os.environ] at that point and [out] the lines printed. *)
Inductive ending : Type :=
| Ready (environ : gmap string string) (out : list string)
| Stopped (code : Z) (environ : gmap string string) (out : list string).

(** The key the scripts settle on: [GOOGLE_API_KEY], or [GEMINI_API_KEY]
    when the former is unset or empty (lines 11-14 of football_system.py,
    12-15 of football_system_adk.py). *)
Definition find_api_key (environ : gmap string string) : option string :=
  let api_key := environ !! "GOOGLE_API_KEY" in
  if negb (Py.truthy_opt api_key) then environ !! "GEMINI_API_KEY" else api_key.

(** [if "GEMINI_API_KEY" in os.environ: del os.environ["GEMINI_API_KEY"]] *)
Definition drop_gemini (environ : gmap string string) : gmap string string :=
  match environ !! "GEMINI_API_KEY" with
  | Some _ => delete "GEMINI_API_KEY" environ
  | None => environ
  end.

(** Lines 11-36 of football_system.py.  [environ] is [os.environ] once
    [load_dotenv] has run; [new_client key] is what [genai.Client] does
    with the key: [None] when the client is made, the text of the
    exception otherwise. *)
Definition football_system (environ : gmap string string)
    (new_client : string -> option string) : ending :=
  let api_key := find_api_key environ in
  if negb (Py.truthy_opt api_key) then
    Stopped 1 environ ["ERROR: GOOGLE_API_KEY not found. Please check your .env file."]
  else
    let api_key := Py.strip (default "" api_key) in
    let environ := drop_gemini (<["GOOGLE_API_KEY" := api_key]> environ) in
    let out :=
      ["DEBUG: Using API Key: " ++ Py.repr api_key;
       "DEBUG: Key length: " ++ Py.str_int (Z.of_nat (String.length api_key))] in
    match new_client api_key with
    | None => Ready environ out
    | Some e =>
        let report := "Error initializing Google GenAI Client: " ++ e in
        Stopped 1 environ (out ++ [report])%list
    end.

(** Lines 12-33 of football_system_adk.py.  [adk_installed] tells whether
    the imports of [google.adk] go through. *)
Definition football_system_adk (environ : gmap string string) (adk_installed : bool)
    : ending :=
  let api_key := find_api_key environ in
  if negb (Py.truthy_opt api_key) then
    Stopped 1 environ ["ERROR: GOOGLE_API_KEY not found. Please check your .env file."]
  else
    let environ :=
      drop_gemini (<["GOOGLE_API_KEY" := Py.strip (default "" api_key)]> environ) in
    if adk_installed then Ready environ []
    else
      Stopped 1 environ
        ["Error: google.adk modules not found. Please ensure the ADK is installed."].

(** The environment an ending leaves. *)
Definition environ_of (e : ending) : gmap string string :=
  match e with
  | Ready environ _ => environ
  | Stopped _ environ _ => environ
  end.

(** The lines an ending has printed. *)
Definition printed (e : ending) : list string :=
  match e with
  | Ready _ out => out
  | Stopped _ _ out => out
  end.

End Startup.

(** ** verify_football_system.py *)

Module Verify.

Abbreviation prog := (Rt.prog Genai.request Genai.response).

(** The answers the script feeds to the system. *)
Definition inputs : list string :=
  ["player"; "Forward"; "20-25"; "3+ years"; "Attacking, fast"].

(** [mock_input], which stands in for [input] while [run_test] runs.
    Nothing reads standard input then, and the field [stdin] of the world
    holds the list [inputs], from which [pop(0)] takes the head. *)
Definition mock_input (text : string) : prog string :=
  Rt.print ("[MOCK INPUT] Prompt: " ++ text) ;;;
  (fun w =>
     match Rt.stdin w with
     | [] => (Rt.Raised Rt.EOFError, w)
     | val :: rest =>
         (Rt.Done val,
          let entering := Rt.Print ("[MOCK INPUT] Entering: " ++ val) in
          Rt.World rest (Rt.heap w) (Rt.backend w) (Rt.served w)
            (Rt.trace w ++ [entering])%list)
     end).

Section Patched.

(** football_system.py with [builtins.input] replaced by [input]. *)
Variable input : string -> prog string.

Fixpoint ask_choice (fuel : nat) : prog string :=
  match fuel with
  | O => Rt.out_of_fuel
  | S fuel' =>
      choice <-
        Rt.try_except
          (line <- input "Do you need a player or a coach? (player/coach): " ;;
           Rt.ret (Py.lower (Py.strip line)))
          (fun e => match e with Rt.EOFError => Rt.ret "" | _ => Rt.raise e end) ;;
      if Py.member choice ["player"; "coach"] then Rt.ret choice
      else if String.eqb choice "" then
        Rt.print "Exiting due to empty input (EOF)." ;;; Rt.sys_exit 1
      else
        Rt.print "Invalid choice. Please enter 'player' or 'coach'." ;;;
        ask_choice fuel'
  end.

Definition ask_field (requirements : nat) (key text : string) : prog unit :=
  line <- input text ;;
  Rt.setitem requirements key (Py.strip line).

Definition fill_requirements (choice : string) : prog nat :=
  requirements <- Rt.new_dict [("type", choice)] ;;
  Rt.try_except
    (if String.eqb choice "player" then
       ask_field requirements "position"
         "Playing position (Goalkeeper, Defender, Midfielder, Forward): " ;;;
       ask_field requirements "age_range" "Preferred age range (e.g., 20-25): " ;;;
       ask_field requirements "experience" "Years of experience (e.g., 3+ years): " ;;;
       ask_field requirements "style"
         "Playing style or strengths (e.g., defensive, attacking, playmaker): "
     else
       ask_field requirements "style" "Coaching style (offensive, defensive, balanced): " ;;;
       ask_field requirements "experience"
         "Experience level (e.g., 5+ years, former player): " ;;;
       ask_field requirements "age_range" "Preferred age range (e.g., 40-50): " ;;;
       ask_field requirements "focus"
         "Team development focus (youth development, professional level, etc.): ")
    (fun e =>
       match e with
       | Rt.EOFError => Rt.print "Input interrupted." ;;; Rt.sys_exit 1
       | _ => Rt.raise e
       end) ;;;
  Rt.ret requirements.

Definition collect_user_requirements : prog nat :=
  Rt.print (Py.nl ++ "--- Football Player & Coach Recommendation System ---" ++ Py.nl) ;;;
  choice <- (fun w => ask_choice (S (length (Rt.stdin w))) w) ;;
  fill_requirements choice.

(** [football_system.main]; below the collector nothing calls [input]. *)
Definition main : prog unit :=
  user_reqs <- collect_user_requirements ;;
  data_output <- Genai.retrieve user_reqs ;;
  Genai.score_and_rank user_reqs data_output.

End Patched.

(** [run_test]: an exception out of [main] leaves the [with] block and
    the function, so the last line is printed only when [main] returns. *)
Definition run_test : prog unit :=
  Rt.print "Starting Verification Test..." ;;;
  main mock_input ;;;
  Rt.print "Verification Test Completed Successfully.".

End Verify.

(** ** More ways to read a run *)

Module Flow.

(** The Stage 1 prompt of football_system.py for a choice and the four
    answers that followed it. *)
Definition genai_search_prompt (choice a1 a2 a3 a4 : string) : string :=
  if String.eqb choice "player" then
    Genai.player_search_prompt (Py.strip a1) (Py.strip a2) (Py.strip a3) (Py.strip a4)
  else
    Genai.coach_search_prompt (Py.strip a1) (Py.strip a2) (Py.strip a3) (Py.strip a4).

(** The same for football_system_adk.py. *)
Definition adk_search_prompt (choice a1 a2 a3 a4 : string) : string :=
  if String.eqb choice "player" then
    "Find 5-7 active football players: Position " ++ Py.strip a1 ++ ", Age "
    ++ Py.strip a2 ++ ", Experience " ++ Py.strip a3 ++ ", Style " ++ Py.strip a4 ++ "."
  else
    "Find 5-7 football coaches: Style " ++ Py.strip a1 ++ ", Experience " ++ Py.strip a2
    ++ ", Age " ++ Py.strip a3 ++ ", Focus " ++ Py.strip a4 ++ ".".

Definition adk_scoring_prompt (d : Py.dict) (data_out : string) : string :=
  "User Requirements: " ++ Py.repr_dict d ++ Py.nl ++ "Candidates:" ++ Py.nl ++ data_out.

Definition adk_ranking_prompt (score_out : string) : string :=
  "Rank these candidates:" ++ Py.nl ++ score_out.

(** A program that sends nothing to the backend and does not sleep. *)
Definition offline {Rq Resp A : Type} (p : Rt.prog Rq Resp A) : Prop :=
  forall w, exists tr,
    Rt.trace (snd (p w)) = (Rt.trace w ++ tr)%list
    /\ Obs.requests tr = [] /\ Obs.sleeps tr = [].

(** Two worlds that differ at most in what has been shown to the
    operator: the same lines wait to be read, the objects, the backend
    and the number of requests served are the same, and so are the
    requests sent and the waits so far. *)
Definition alike {Rq Resp : Type} (w1 w2 : Rt.world Rq Resp) : Prop :=
  Rt.stdin w1 = Rt.stdin w2
  /\ Rt.heap w1 = Rt.heap w2
  /\ Rt.backend w1 = Rt.backend w2
  /\ Rt.served w1 = Rt.served w2
  /\ Obs.requests (Rt.trace w1) = Obs.requests (Rt.trace w2)
  /\ Obs.sleeps (Rt.trace w1) = Obs.sleeps (Rt.trace w2).

(** [q] does what [p] does, up to what is shown to the operator. *)
Definition mirrors {Rq Resp A : Type} (p q : Rt.prog Rq Resp A) : Prop :=
  forall w1 w2, alike w1 w2 ->
    fst (p w1) = fst (q w2) /\ alike (snd (p w1)) (snd (q w2)).

(** [k] is the key an environment offers: the value of [GOOGLE_API_KEY]
    when it is set and not empty, the value of [GEMINI_API_KEY] when
    only that one is. *)
Definition usable (environ : gmap string string) (k : string) : Prop :=
  k <> ""
  /\ (environ !! "GOOGLE_API_KEY" = Some k
      \/ ((environ !! "GOOGLE_API_KEY" = None \/ environ !! "GOOGLE_API_KEY" = Some "")
          /\ environ !! "GEMINI_API_KEY" = Some k)).

(** Seconds slept in all. *)
Definition total (secs : list Z) : Z := foldr Z.add 0 secs.

(** The line [print_structured_requirements] prints for one item. *)
Definition item_line (kv : string * string) : string :=
  Py.ljust 15 (Py.capitalize (fst kv)) ++ ": " ++ snd kv.

(** Sample environments. *)
Definition both_keys : gmap string string :=
  <["GOOGLE_API_KEY" := "  g-key "]> (<["GEMINI_API_KEY" := "m-key"]> (<["HOME" := "/root"]> ∅)).
Definition gemini_only : gmap string string :=
  <["GOOGLE_API_KEY" := ""]> (<["GEMINI_API_KEY" := "m-key"]> ∅).
Definition blank_key : gmap string string :=
  <["GOOGLE_API_KEY" := "   "]> ∅.
Definition no_key : gmap string string :=
  <["HOME" := "/root"]> ∅.

(** Backends that are busy twice and answer from then on. *)
Definition genai_busy_twice (n : nat) (rq : Genai.request) : Genai.response + string :=
  match n with
  | O | S O => inr Samples.busy
  | _ => inl (Samples.genai_says "Candidates: A, B, C")
  end.
Definition adk_busy_twice (n : nat) (rq : Adk.request) : list Adk.event + string :=
  match n with
  | O | S O => inr Samples.busy
  | _ => inl (Samples.adk_says "Candidates: A, B, C")
  end.

(** A backend that answers every request with the response [r]. *)
Definition genai_answers (r : Genai.response) (n : nat) (rq : Genai.request)
    : Genai.response + string :=
  inl r.

(** Responses without a usable [text]. *)
Definition no_candidates : Genai.response := Genai.Response None None.
Definition text_in_second_candidate : Genai.response :=
  Genai.Response (Some "")
    (Some [Genai.Candidate (Some (Genai.Content (Some [])));
           Genai.Candidate (Some (Genai.Content (Some [Genai.Part (Some "B")])))]).
Definition mixed_parts : Genai.response :=
  Genai.Response None
    (Some [Genai.Candidate
             (Some (Genai.Content
                (Some [Genai.Part (Some "A"); Genai.Part None; Genai.Part (Some "C")])))]).
Definition no_content : Genai.response :=
  Genai.Response None (Some [Genai.Candidate None]).

End Flow.

(** ** Worlds, traces and the retry loops *)

(** Closes a goal between two worlds that differ in how the request count
    and the trace are written. *)
Ltac same_world :=
  unfold Obs.advance; cbn;
  repeat (f_equal; try lia; rewrite <- ?app_assoc; try reflexivity).

Section World.
Context {Rq Resp : Type}.
Implicit Types (w : Rt.world Rq Resp) (tr : list (Rt.action Rq)).

Lemma advance_advance w l n tr l' m tr' :
  Obs.advance (Obs.advance w l n tr) l' m tr' = Obs.advance w l' (n + m) (tr ++ tr')%list.
Proof.
  unfold Obs.advance; cbn. f_equal; [lia | now rewrite <- app_assoc].
Qed.

Lemma advance_id w : Obs.advance w (Rt.stdin w) 0 [] = w.
Proof.
  destruct w; unfold Obs.advance; cbn. f_equal; [lia | apply app_nil_r].
Qed.

Lemma requests_app tr tr' :
  Obs.requests (tr ++ tr')%list = (Obs.requests tr ++ Obs.requests tr')%list.
Proof. apply omap_app. Qed.

Lemma sleeps_app tr tr' :
  Obs.sleeps (tr ++ tr')%list = (Obs.sleeps tr ++ Obs.sleeps tr')%list.
Proof. apply omap_app. Qed.

Lemma prompts_app tr tr' :
  Obs.prompts (tr ++ tr')%list = (Obs.prompts tr ++ Obs.prompts tr')%list.
Proof. apply omap_app. Qed.

Lemma prints_app tr tr' :
  Obs.prints (tr ++ tr')%list = (Obs.prints tr ++ Obs.prints tr')%list.
Proof. apply omap_app. Qed.

Lemma streak_le w (rq : Rq) budget : forall from,
  (Obs.streak w rq from budget <= budget)%nat.
Proof.
  induction budget as [|b IH]; intros from; cbn; [lia|].
  destruct (Obs.throttled w rq from); [specialize (IH (S from))|]; lia.
Qed.

Lemma streak_throttled w (rq : Rq) budget : forall from i,
  (i < Obs.streak w rq from budget)%nat -> Obs.throttled w rq (from + i) = true.
Proof.
  induction budget as [|b IH]; intros from i; cbn; [lia|].
  destruct (Obs.throttled w rq from) eqn:E; [|lia].
  destruct i as [|i]; intros Hi.
  - now rewrite Nat.add_0_r.
  - replace (from + S i)%nat with (S from + i)%nat by lia. apply IH. lia.
Qed.

Lemma streak_stops w (rq : Rq) budget : forall from,
  (Obs.streak w rq from budget < budget)%nat ->
  Obs.throttled w rq (from + Obs.streak w rq from budget) = false.
Proof.
  induction budget as [|b IH]; intros from; cbn; [lia|].
  destruct (Obs.throttled w rq from) eqn:E; intros Hlt.
  - replace (from + S (Obs.streak w rq (S from) b))%nat
      with (S from + Obs.streak w rq (S from) b)%nat by lia.
    apply IH. lia.
  - now rewrite Nat.add_0_r.
Qed.

Lemma throttled_advance w l n tr (rq : Rq) i :
  Obs.throttled (Obs.advance w l n tr) rq i = Obs.throttled w rq (n + i).
Proof.
  unfold Obs.throttled, Obs.advance; cbn. now rewrite Nat.add_assoc.
Qed.

Lemma streak_advance w l tr (rq : Rq) budget : forall from,
  Obs.streak (Obs.advance w l 0 tr) rq from budget = Obs.streak w rq from budget.
Proof.
  induction budget as [|b IH]; intros from; cbn; [reflexivity|].
  rewrite throttled_advance, IH. reflexivity.
Qed.

(** The waits of [k] throttled attempts in a row are the first [k]
    entries of the schedule. *)
Lemma throttled_sleeps (rq : Rq) k :
  (k <= 5)%nat ->
  Obs.sleeps (concat (map (Obs.throttled_attempt rq) (take k (map Z.of_nat (seq 0 5)))))
  = take k Obs.schedule.
Proof.
  intros Hk. do 6 (destruct k as [|k]; [reflexivity|]). lia.
Qed.

Lemma throttled_requests (rq : Rq) k :
  (k <= 5)%nat ->
  Obs.requests (concat (map (Obs.throttled_attempt rq) (take k (map Z.of_nat (seq 0 5)))))
  = replicate k rq.
Proof.
  intros Hk. do 6 (destruct k as [|k]; [reflexivity|]). lia.
Qed.

Lemma throttled_prompts (rq : Rq) k :
  Obs.prompts (concat (map (Obs.throttled_attempt rq) (take k (map Z.of_nat (seq 0 5))))) = [].
Proof.
  do 6 (destruct k as [|k]; [reflexivity|]). reflexivity.
Qed.

End World.

Section AdkRetry.
Variables (a : Adk.agent) (prompt step_name : string).
Local Abbreviation runner := (a, "football_app_" ++ Adk.name a).
Local Abbreviation rq := (Obs.adk_request a prompt).
Implicit Types (w : Rt.world Adk.request (list Adk.event)).

Lemma adk_attempt_throttled attempt rest w :
  Obs.throttled w rq 0 = true ->
  Adk.attempts runner prompt step_name (attempt :: rest) w
  = Adk.attempts runner prompt step_name rest
      (Obs.advance w (Rt.stdin w) 1 (Obs.throttled_attempt rq attempt)).
Proof.
  unfold Obs.throttled. rewrite Nat.add_0_r. intros H.
  cbn [Adk.attempts]. unfold Rt.try_except at 1, Rt.bind at 1, Rt.send.
  change (Adk.RunnerRun _ _ _ _ _) with rq. destruct (Rt.backend w (Rt.served w) rq) as [evs|msg]; [discriminate|].
  cbn [Rt.str_exn]. unfold Adk.rate_limited. rewrite H.
  unfold Rt.bind, Rt.print, Rt.sleep, Rt.emit; cbn.
  f_equal. unfold Obs.advance, Obs.throttled_attempt, Obs.retry_warning, Adk.base_delay, Adk.max_retries; cbn.
  f_equal. lia. rewrite <- !app_assoc. reflexivity.
Qed.

Lemma adk_attempts_nil w :
  Adk.attempts runner prompt step_name [] w
  = (Rt.Done "", Obs.advance w (Rt.stdin w) 0
       [Rt.Print ("Error: Failed " ++ step_name ++ " after 5 retries.")]).
Proof.
  cbn. unfold Obs.advance. do 2 f_equal. lia.
Qed.

Lemma adk_attempt_ok attempt rest w events :
  Rt.backend w (Rt.served w) rq = inl events ->
  Adk.attempts runner prompt step_name (attempt :: rest) w
  = (Rt.Done (if Py.truthy (Py.join "" (Adk.full_response events))
              then Py.join "" (Adk.full_response events)
              else "No response generated."),
     Obs.advance w (Rt.stdin w) 1 [Rt.Request rq]).
Proof.
  intros H. cbn [Adk.attempts]. unfold Rt.try_except at 1, Rt.bind at 1, Rt.send.
  change (Adk.RunnerRun _ _ _ _ _) with rq. rewrite H.
  destruct (Py.truthy (Py.join "" (Adk.full_response events))); cbn; f_equal; same_world.
Qed.

Lemma adk_attempt_fatal attempt rest w msg :
  Rt.backend w (Rt.served w) rq = inr msg ->
  Adk.rate_limited msg = false ->
  Adk.attempts runner prompt step_name (attempt :: rest) w
  = (Rt.Done "",
     Obs.advance w (Rt.stdin w) 1
       [Rt.Request rq;
        Rt.Print (if Py.contains "404" msg && Py.contains "not found" msg
                  then "Error: Model " ++ Adk.model a
                       ++ " not found. Please check model availability."
                  else "Error during " ++ step_name ++ ": " ++ msg)]).
Proof.
  intros H Hrl. cbn [Adk.attempts]. unfold Rt.try_except at 1, Rt.bind at 1, Rt.send.
  change (Adk.RunnerRun _ _ _ _ _) with rq. rewrite H.
  cbn [Rt.str_exn]. rewrite Hrl.
  destruct (Py.contains "404" msg && Py.contains "not found" msg);
    unfold Rt.bind, Rt.print, Rt.emit; cbn; f_equal; same_world.
Qed.

(** An attempt that is not throttled ends the loop: it returns, after its
    one request and at most one more printed line. *)
Lemma adk_attempt_settles attempt rest w :
  Obs.throttled w rq 0 = false ->
  exists s extra,
    Adk.attempts runner prompt step_name (attempt :: rest) w
    = (Rt.Done s, Obs.advance w (Rt.stdin w) 1 (Rt.Request rq :: extra))
    /\ Obs.requests extra = [] /\ Obs.sleeps extra = [] /\ Obs.prompts extra = [].
Proof.
  unfold Obs.throttled. rewrite Nat.add_0_r. intros H.
  destruct (Rt.backend w (Rt.served w) rq) as [evs|msg] eqn:E.
  - rewrite (adk_attempt_ok _ _ _ _ E). eexists _, []. done.
  - rewrite (adk_attempt_fatal _ _ _ _ E H). eexists _, [_]. done.
Qed.

Lemma adk_attempts_skip k : forall todo w,
  (k <= length todo)%nat ->
  (forall i, (i < k)%nat -> Obs.throttled w rq i = true) ->
  Adk.attempts runner prompt step_name todo w
  = Adk.attempts runner prompt step_name (drop k todo)
      (Obs.advance w (Rt.stdin w) k (concat (map (Obs.throttled_attempt rq) (take k todo)))).
Proof.
  induction k as [|k IH]; intros todo w Hk Hthr.
  - rewrite drop_0, take_0. cbn. now rewrite advance_id.
  - destruct todo as [|attempt rest]; [cbn in Hk; lia|].
    rewrite adk_attempt_throttled by (apply Hthr; lia).
    rewrite IH.
    + cbn [drop take map concat]. rewrite advance_advance. reflexivity.
    + cbn in Hk. lia.
    + intros i Hi. specialize (Hthr (S i) ltac:(lia)).
      unfold Obs.throttled in *. cbn [Obs.advance Rt.backend Rt.served].
      now replace (Rt.served w + 1 + i)%nat with (Rt.served w + S i)%nat by lia.
Qed.

(** The whole of [run_agent_safe], by the number [k] of throttled attempts
    it starts with. *)
Lemma adk_run_agent_safe_run w :
  let k := Obs.streak w rq 0 5 in
  exists s tr,
    Adk.run_agent_safe a prompt step_name w
    = (Rt.Done s, Obs.advance w (Rt.stdin w) (Nat.min (S k) 5) tr)
    /\ Obs.requests tr = replicate (Nat.min (S k) 5) rq
    /\ Obs.sleeps tr = take k Obs.schedule
    /\ Obs.prompts tr = []
    /\ (k = 5%nat ->
        s = "" /\ last tr = Some (Rt.Print ("Error: Failed " ++ step_name ++ " after 5 retries."))).
Proof.
  intros k.
  assert (Hk : (k <= 5)%nat) by apply streak_le.
  assert (Hthr : forall i, (i < k)%nat -> Obs.throttled w rq i = true)
    by (intros i Hi; apply (streak_throttled w rq 5 0 i Hi)).
  assert (Hstop : (k < 5)%nat -> Obs.throttled w rq k = false)
    by (intros Hlt; apply (streak_stops w rq 5 0 Hlt)).
  clearbody k.
  unfold Adk.run_agent_safe, Rt.bind at 1, Rt.print, Rt.emit.
  set (banner := Rt.Print _).
  replace (Rt.World _ _ _ _ _) with (Obs.advance w (Rt.stdin w) 0 [banner]) by same_world.
  change (Adk.attempts _) with (Adk.attempts runner).
  rewrite (adk_attempts_skip k); [| cbn; lia |].
  2:{ intros i Hi. rewrite throttled_advance. now apply Hthr. }
  cbn [Obs.advance Rt.stdin]. rewrite advance_advance. cbn [Nat.add].
  change (Adk.range Adk.max_retries) with (map Z.of_nat (seq 0 5)).
  destruct (decide (k = 5%nat)) as [E|NE].
  - subst k. cbn [drop seq map].
    rewrite adk_attempts_nil. cbn [Obs.advance Rt.stdin]. rewrite advance_advance.
    eexists _, _. split; [f_equal; f_equal; lia|].
    rewrite !requests_app, !sleeps_app, !prompts_app.
    rewrite throttled_requests, throttled_sleeps, throttled_prompts by lia.
    cbn. repeat split.
  - assert (Hlt : (k < 5)%nat) by lia.
    destruct (drop k (map Z.of_nat (seq 0 5))) as [|attempt rest] eqn:Ed.
    { apply (f_equal length) in Ed. rewrite length_drop in Ed. cbn in Ed. lia. }
    edestruct (adk_attempt_settles attempt rest) as (s & extra & -> & Hr & Hs & Hp).
    { rewrite throttled_advance, Nat.add_0_r. apply Hstop, Hlt. }
    cbn [Obs.advance Rt.stdin]. rewrite advance_advance.
    exists s. eexists. split; [f_equal; f_equal; lia|].
    change (Rt.Request rq :: extra) with ([Rt.Request rq] ++ extra)%list.
    rewrite !requests_app, !sleeps_app, !prompts_app.
    rewrite throttled_requests, throttled_sleeps, throttled_prompts by lia.
    rewrite Hr, Hs, Hp. cbn [Obs.requests Obs.sleeps Obs.prompts omap list_omap].
    rewrite !app_nil_r. cbn [app].
    repeat split; try lia.
    replace (Nat.min (S k) 5) with (S k) by lia.
    now rewrite replicate_S_end.
Qed.
End AdkRetry.

Section GenaiRetry.
Variables (step_name prompt model_name : string) (tools : option (list Genai.tool)).
Local Abbreviation rq := (Obs.genai_request prompt model_name tools).
Implicit Types (w : Rt.world Genai.request Genai.response).

(** Both branches of [if tools:] send the request [rq]. *)
Lemma genai_attempt_unfold attempt rest :
  Genai.attempts step_name prompt model_name tools (attempt :: rest)
  = Rt.try_except
      (Rt.bind (Rt.send rq) Genai.response_result)
      (fun e =>
         if Genai.rate_limited (Rt.str_exn e) then
           Rt.bind (Rt.print (Obs.retry_warning attempt)) (fun _ =>
           Rt.bind (Rt.sleep (10 * 2 ^ attempt)) (fun _ =>
           Genai.attempts step_name prompt model_name tools rest))
         else
           Rt.bind (Rt.print ("Error during " ++ step_name ++ ": " ++ Rt.str_exn e))
                   (fun _ => Rt.ret "")).
Proof.
  unfold Obs.genai_request. cbn [Genai.attempts].
  destruct tools as [[|t ts]|]; reflexivity.
Qed.

Lemma genai_attempt_throttled attempt rest w :
  Obs.throttled w rq 0 = true ->
  Genai.attempts step_name prompt model_name tools (attempt :: rest) w
  = Genai.attempts step_name prompt model_name tools rest
      (Obs.advance w (Rt.stdin w) 1 (Obs.throttled_attempt rq attempt)).
Proof.
  unfold Obs.throttled. rewrite Nat.add_0_r. intros H.
  rewrite genai_attempt_unfold. unfold Rt.try_except at 1, Rt.bind at 1, Rt.send.
  destruct (Rt.backend w (Rt.served w) rq) as [r|msg]; [discriminate|].
  cbn [Rt.str_exn]. unfold Genai.rate_limited. rewrite H.
  unfold Rt.bind, Rt.print, Rt.sleep, Rt.emit; cbn.
  f_equal. same_world.
Qed.

Lemma genai_attempt_fatal attempt rest w msg :
  Rt.backend w (Rt.served w) rq = inr msg ->
  Genai.rate_limited msg = false ->
  Genai.attempts step_name prompt model_name tools (attempt :: rest) w
  = (Rt.Done "",
     Obs.advance w (Rt.stdin w) 1
       [Rt.Request rq; Rt.Print ("Error during " ++ step_name ++ ": " ++ msg)]).
Proof.
  intros H Hrl. rewrite genai_attempt_unfold.
  unfold Rt.try_except at 1, Rt.bind at 1, Rt.send. rewrite H.
  cbn [Rt.str_exn]. rewrite Hrl.
  unfold Rt.bind, Rt.print, Rt.emit; cbn; f_equal; same_world.
Qed.

(** A response whose [text] is non-empty is returned as it is. *)
Lemma genai_attempt_text attempt rest w r :
  Rt.backend w (Rt.served w) rq = inl r ->
  Py.truthy_opt (Genai.text r) = true ->
  Genai.attempts step_name prompt model_name tools (attempt :: rest) w
  = (Rt.Done (default "" (Genai.text r)), Obs.advance w (Rt.stdin w) 1 [Rt.Request rq]).
Proof.
  intros H Ht. rewrite genai_attempt_unfold.
  unfold Rt.try_except at 1, Rt.bind at 1, Rt.send. rewrite H.
  unfold Genai.response_result. rewrite Ht. cbn. f_equal. same_world.
Qed.

(** What [response_result] does depends on the response alone, and it
    touches nothing. *)
Lemma genai_response_result_pure r w :
  (exists s, Genai.response_result r w = (Rt.Done s, w))
  \/ Genai.response_result r w
     = (Rt.Raised (Rt.AttributeError "'NoneType' object has no attribute 'parts'"), w).
Proof.
  unfold Genai.response_result.
  destruct (Py.truthy_opt (Genai.text r)); [left; eexists; reflexivity|].
  destruct (Genai.candidates r) as [[|first others]|]; try (left; eexists; reflexivity).
  destruct (Genai.candidate_content first) as [c|]; [|right; reflexivity].
  destruct (Genai.parts c) as [[|p ps]|]; left; eexists; reflexivity.
Qed.

Lemma genai_attempt_settles attempt rest w :
  Obs.throttled w rq 0 = false ->
  exists s extra,
    Genai.attempts step_name prompt model_name tools (attempt :: rest) w
    = (Rt.Done s, Obs.advance w (Rt.stdin w) 1 (Rt.Request rq :: extra))
    /\ Obs.requests extra = [] /\ Obs.sleeps extra = [] /\ Obs.prompts extra = [].
Proof.
  unfold Obs.throttled. rewrite Nat.add_0_r. intros H.
  destruct (Rt.backend w (Rt.served w) rq) as [r|msg] eqn:E.
  - rewrite genai_attempt_unfold.
    unfold Rt.try_except at 1, Rt.bind at 1, Rt.send. rewrite E.
    match goal with |- context [Genai.response_result r ?w'] =>
      destruct (genai_response_result_pure r w') as [[s ->] | ->] end.
    + exists s, []. split; [f_equal; same_world | done].
    + eexists _, [_].
      split; [cbn; unfold Rt.bind, Rt.print, Rt.emit; cbn; f_equal; same_world | done].
  - rewrite (genai_attempt_fatal _ _ _ _ E H). eexists _, [_]. done.
Qed.

Lemma genai_attempts_nil w :
  Genai.attempts step_name prompt model_name tools [] w
  = (Rt.Done "", Obs.advance w (Rt.stdin w) 0
       [Rt.Print ("Error: Failed " ++ step_name ++ " after 5 retries due to rate limits.")]).
Proof.
  cbn. unfold Obs.advance. do 2 f_equal. lia.
Qed.

Lemma genai_attempts_skip k : forall todo w,
  (k <= length todo)%nat ->
  (forall i, (i < k)%nat -> Obs.throttled w rq i = true) ->
  Genai.attempts step_name prompt model_name tools todo w
  = Genai.attempts step_name prompt model_name tools (drop k todo)
      (Obs.advance w (Rt.stdin w) k (concat (map (Obs.throttled_attempt rq) (take k todo)))).
Proof.
  induction k as [|k IH]; intros todo w Hk Hthr.
  - rewrite drop_0, take_0. cbn. now rewrite advance_id.
  - destruct todo as [|attempt rest]; [cbn in Hk; lia|].
    rewrite genai_attempt_throttled by (apply Hthr; lia).
    rewrite IH.
    + cbn [drop take map concat]. rewrite advance_advance. reflexivity.
    + cbn in Hk. lia.
    + intros i Hi. rewrite throttled_advance. apply Hthr. lia.
Qed.

(** The whole of [run_step], by the number [k] of throttled attempts it
    starts with. *)
Lemma genai_run_step_run w :
  let k := Obs.streak w rq 0 5 in
  exists s tr,
    Genai.run_step step_name prompt model_name tools w
    = (Rt.Done s, Obs.advance w (Rt.stdin w) (Nat.min (S k) 5) tr)
    /\ Obs.requests tr = replicate (Nat.min (S k) 5) rq
    /\ Obs.sleeps tr = take k Obs.schedule
    /\ Obs.prompts tr = []
    /\ (k = 5%nat ->
        s = "" /\ last tr = Some (Rt.Print ("Error: Failed " ++ step_name
                                            ++ " after 5 retries due to rate limits."))).
Proof.
  intros k.
  assert (Hk : (k <= 5)%nat) by apply streak_le.
  assert (Hthr : forall i, (i < k)%nat -> Obs.throttled w rq i = true)
    by (intros i Hi; apply (streak_throttled w rq 5 0 i Hi)).
  assert (Hstop : (k < 5)%nat -> Obs.throttled w rq k = false)
    by (intros Hlt; apply (streak_stops w rq 5 0 Hlt)).
  clearbody k.
  unfold Genai.run_step, Rt.bind at 1, Rt.print, Rt.emit.
  set (banner := Rt.Print _).
  replace (Rt.World _ _ _ _ _) with (Obs.advance w (Rt.stdin w) 0 [banner]) by same_world.
  rewrite (genai_attempts_skip k); [| cbn; lia |].
  2:{ intros i Hi. rewrite throttled_advance. now apply Hthr. }
  cbn [Obs.advance Rt.stdin]. rewrite advance_advance. cbn [Nat.add].
  change (Genai.range Genai.max_retries) with (map Z.of_nat (seq 0 5)).
  destruct (decide (k = 5%nat)) as [E|NE].
  - subst k. cbn [drop seq map].
    rewrite genai_attempts_nil. cbn [Obs.advance Rt.stdin]. rewrite advance_advance.
    eexists _, _. split; [f_equal; f_equal; lia|].
    rewrite !requests_app, !sleeps_app, !prompts_app.
    rewrite throttled_requests, throttled_sleeps, throttled_prompts by lia.
    cbn. repeat split.
  - assert (Hlt : (k < 5)%nat) by lia.
    destruct (drop k (map Z.of_nat (seq 0 5))) as [|attempt rest] eqn:Ed.
    { apply (f_equal length) in Ed. rewrite length_drop in Ed. cbn in Ed. lia. }
    edestruct (genai_attempt_settles attempt rest) as (s & extra & -> & Hr & Hs & Hp).
    { rewrite throttled_advance, Nat.add_0_r. apply Hstop, Hlt. }
    cbn [Obs.advance Rt.stdin]. rewrite advance_advance.
    exists s. eexists. split; [f_equal; f_equal; lia|].
    change (Rt.Request rq :: extra) with ([Rt.Request rq] ++ extra)%list.
    rewrite !requests_app, !sleeps_app, !prompts_app.
    rewrite throttled_requests, throttled_sleeps, throttled_prompts by lia.
    rewrite Hr, Hs, Hp. cbn [Obs.requests Obs.sleeps Obs.prompts omap list_omap].
    rewrite !app_nil_r. cbn [app].
    repeat split; try lia.
    replace (Nat.min (S k) 5) with (S k) by lia.
    now rewrite replicate_S_end.
Qed.
End GenaiRetry.

(** ** The requirement collectors *)

Section Fields.
Context {Rq Resp : Type}.
Implicit Types (w : Rt.world Rq Resp) (tr : list (Rt.action Rq)).

(** [requirements[key] = input(text).strip()] on the newest dict, with a
    line waiting. *)
Lemma ask_field_line h d key text line rest b n tr :
  Rt.bind (Rt.input text) (fun l => Rt.setitem (length h) key (Py.strip l))
    (Rt.World (line :: rest) (h ++ [d])%list b n tr : Rt.world Rq Resp)
  = (Rt.Done tt,
     Rt.World rest (h ++ [Py.dict_set key (Py.strip line) d])%list b n
       (tr ++ [Rt.Prompt text])%list).
Proof.
  unfold Rt.bind, Rt.input, Rt.setitem; cbn.
  rewrite list_lookup_middle by reflexivity.
  do 2 f_equal.
  replace (length h) with (length h + 0)%nat by lia.
  now rewrite insert_app_r.
Qed.

Lemma ask_field_eof r key text hp b n tr :
  Rt.bind (Rt.input text) (fun l => Rt.setitem r key (Py.strip l))
    (Rt.World [] hp b n tr : Rt.world Rq Resp)
  = (Rt.Raised Rt.EOFError, Rt.World [] hp b n (tr ++ [Rt.Prompt text])%list).
Proof. reflexivity. Qed.

End Fields.

Section GenaiCollect.
Implicit Types (w : Rt.world Genai.request Genai.response).

Lemma genai_ask_choice_eof fuel w :
  Rt.stdin w = [] ->
  Genai.ask_choice (S fuel) w
  = (Rt.Exited 1,
     Obs.advance w [] 0
       [Rt.Prompt Obs.choice_prompt; Rt.Print "Exiting due to empty input (EOF)."]).
Proof.
  intros H. cbn [Genai.ask_choice].
  unfold Rt.bind at 1, Rt.try_except, Rt.bind at 1, Rt.input. rewrite H. cbn.
  f_equal. same_world.
Qed.

Lemma genai_ask_choice_accept fuel w line rest :
  Rt.stdin w = line :: rest ->
  Obs.accepted line = true ->
  Genai.ask_choice (S fuel) w
  = (Rt.Done (Obs.normalize line), Obs.advance w rest 0 [Rt.Prompt Obs.choice_prompt]).
Proof.
  intros H Ha. cbn [Genai.ask_choice].
  unfold Rt.bind at 1, Rt.try_except, Rt.bind at 1, Rt.input. rewrite H.
  cbn [Rt.ret]. unfold Obs.accepted, Obs.normalize in Ha. rewrite Ha.
  unfold Rt.ret. f_equal. same_world.
Qed.

Lemma blank_not_accepted line : Obs.blank line = true -> Obs.accepted line = false.
Proof.
  unfold Obs.blank, Obs.accepted. intros H. apply String.eqb_eq in H. now rewrite H.
Qed.

Lemma genai_ask_choice_blank fuel w line rest :
  Rt.stdin w = line :: rest ->
  Obs.blank line = true ->
  Genai.ask_choice (S fuel) w
  = (Rt.Exited 1,
     Obs.advance w rest 0
       [Rt.Prompt Obs.choice_prompt; Rt.Print "Exiting due to empty input (EOF)."]).
Proof.
  intros H Hb. pose proof (blank_not_accepted _ Hb) as Ha. cbn [Genai.ask_choice].
  unfold Rt.bind at 1, Rt.try_except, Rt.bind at 1, Rt.input. rewrite H.
  cbn [Rt.ret]. unfold Obs.accepted, Obs.blank, Obs.normalize in Ha, Hb. rewrite Ha, Hb.
  unfold Rt.bind, Rt.print, Rt.emit, Rt.sys_exit; cbn. f_equal. same_world.
Qed.

Lemma genai_ask_choice_reject fuel w line rest :
  Rt.stdin w = line :: rest ->
  Obs.rejected line = true ->
  Genai.ask_choice (S fuel) w
  = Genai.ask_choice fuel
      (Obs.advance w rest 0 [Rt.Prompt Obs.choice_prompt; Rt.Print Obs.invalid_choice]).
Proof.
  intros H Hr. apply andb_true_iff in Hr as [Ha Hb].
  apply negb_true_iff in Ha, Hb. cbn [Genai.ask_choice].
  unfold Rt.bind at 1, Rt.try_except, Rt.bind at 1, Rt.input. rewrite H.
  cbn [Rt.ret]. unfold Obs.accepted, Obs.blank, Obs.normalize in Ha, Hb. rewrite Ha, Hb.
  unfold Rt.bind at 1, Rt.print, Rt.emit; cbn. f_equal. same_world.
Qed.


Lemma genai_ask_choice_skip bad : forall w rest fuel,
  Rt.stdin w = (bad ++ rest)%list ->
  Forall (fun line => Obs.rejected line = true) bad ->
  Genai.ask_choice (length bad + fuel) w
  = Genai.ask_choice fuel
      (Obs.advance w rest 0
         (concat (map (fun _ => [Rt.Prompt Obs.choice_prompt; Rt.Print Obs.invalid_choice]) bad))).
Proof.
  induction bad as [|line bad IH]; intros w rest fuel Hin Hbad.
  - cbn in *. rewrite <- Hin. now rewrite advance_id.
  - inversion Hbad as [|? ? Hline Hrest]; subst.
    cbn [length Nat.add]. rewrite (genai_ask_choice_reject _ _ line (bad ++ rest)) by easy.
    rewrite (IH _ rest) by easy.
    cbn [map concat]. now rewrite advance_advance.
Qed.

(** Whatever is on standard input, the loop ends within its budget, and
    it ends in one of two ways: with an accepted choice, or with exit
    status 1. *)
Lemma genai_ask_choice_ends fuel : forall w,
  (length (Rt.stdin w) < fuel)%nat ->
  exists lines tr,
    (exists line, Obs.accepted line = true
       /\ Genai.ask_choice fuel w = (Rt.Done (Obs.normalize line), Obs.advance w lines 0 tr))
    \/ Genai.ask_choice fuel w = (Rt.Exited 1, Obs.advance w lines 0 tr).
Proof.
  induction fuel as [|fuel IH]; intros w Hlen; [lia|].
  destruct (Rt.stdin w) as [|line rest] eqn:Hin.
  - eexists _, _. right. now apply genai_ask_choice_eof.
  - destruct (Obs.accepted line) eqn:Ha.
    + eexists _, _. left. exists line. split; [exact Ha|]. now apply (genai_ask_choice_accept _ _ line rest).
    + destruct (Obs.blank line) eqn:Hb.
      * eexists _, _. right. now apply (genai_ask_choice_blank _ _ line rest).
      * rewrite (genai_ask_choice_reject _ _ line rest)
          by (try easy; unfold Obs.rejected; now rewrite Ha, Hb).
        edestruct (IH (Obs.advance w rest 0
                    [Rt.Prompt Obs.choice_prompt; Rt.Print Obs.invalid_choice]))
          as (lines & tr & Hcase).
        { cbn in *. lia. }
        rewrite advance_advance in Hcase. eexists _, _. exact Hcase.
Qed.

(** With four lines waiting the dict is filled and returned. *)
Lemma genai_fill_requirements_lines choice a1 a2 a3 a4 rest h b n tr :
  exists tr',
    Genai.fill_requirements choice (Rt.World (a1 :: a2 :: a3 :: a4 :: rest) h b n tr)
    = (Rt.Done (length h),
       Rt.World rest (h ++ [Obs.requirements_of choice a1 a2 a3 a4])%list b n (tr ++ tr')%list)
    /\ length (Obs.prompts tr') = 4%nat.
Proof.
  unfold Genai.fill_requirements, Obs.requirements_of, Genai.ask_field.
  unfold Rt.bind at 1, Rt.new_dict. cbn [Rt.heap Rt.stdin Rt.backend Rt.served Rt.trace].
  unfold Rt.bind at 1, Rt.try_except.
  destruct (String.eqb choice "player").
  - unfold Rt.bind at 1. rewrite ask_field_line.
    unfold Rt.bind at 1. rewrite ask_field_line.
    unfold Rt.bind at 1. rewrite ask_field_line.
    rewrite ask_field_line. cbn. eexists [_; _; _; _].
    rewrite <- !app_assoc. cbn. split; reflexivity.
  - unfold Rt.bind at 1. rewrite ask_field_line.
    unfold Rt.bind at 1. rewrite ask_field_line.
    unfold Rt.bind at 1. rewrite ask_field_line.
    rewrite ask_field_line. cbn. eexists [_; _; _; _].
    rewrite <- !app_assoc. cbn. split; reflexivity.
Qed.

(** With fewer than four lines waiting the process exits with status 1. *)
Lemma genai_fill_requirements_short choice lines h b n tr :
  (length lines < 4)%nat ->
  fst (Genai.fill_requirements choice (Rt.World lines h b n tr)) = Rt.Exited 1.
Proof.
  intros Hlen.
  unfold Genai.fill_requirements, Genai.ask_field.
  unfold Rt.bind at 1, Rt.new_dict. cbn [Rt.heap Rt.stdin Rt.backend Rt.served Rt.trace].
  unfold Rt.bind at 1, Rt.try_except.
  destruct (String.eqb choice "player");
    do 4 (destruct lines as [|? lines];
          [ repeat (unfold Rt.bind at 1; rewrite ?ask_field_line, ?ask_field_eof);
            rewrite ?ask_field_eof; reflexivity | ]);
    cbn in Hlen; lia.
Qed.

End GenaiCollect.

Section AdkCollect.
Implicit Types (w : Rt.world Adk.request (list Adk.event)).

Lemma adk_ask_choice_eof fuel w :
  Rt.stdin w = [] ->
  Adk.ask_choice (S fuel) w
  = (Rt.Exited 1, Obs.advance w [] 0 [Rt.Prompt Obs.choice_prompt]).
Proof.
  intros H. cbn [Adk.ask_choice].
  unfold Rt.bind at 1, Rt.try_except, Rt.bind at 1, Rt.input. rewrite H. cbn.
  f_equal. same_world.
Qed.

Lemma adk_ask_choice_accept fuel w line rest :
  Rt.stdin w = line :: rest ->
  Obs.accepted line = true ->
  Adk.ask_choice (S fuel) w
  = (Rt.Done (Obs.normalize line), Obs.advance w rest 0 [Rt.Prompt Obs.choice_prompt]).
Proof.
  intros H Ha. cbn [Adk.ask_choice].
  unfold Rt.bind at 1, Rt.try_except, Rt.bind at 1, Rt.input. rewrite H.
  cbn [Rt.ret]. unfold Obs.accepted, Obs.normalize in Ha. rewrite Ha.
  unfold Rt.ret. f_equal. same_world.
Qed.

(** In this script a blank line is turned down like any other line that
    is not accepted. *)
Lemma adk_ask_choice_reject fuel w line rest :
  Rt.stdin w = line :: rest ->
  Obs.accepted line = false ->
  Adk.ask_choice (S fuel) w
  = Adk.ask_choice fuel
      (Obs.advance w rest 0 [Rt.Prompt Obs.choice_prompt; Rt.Print Obs.invalid_choice]).
Proof.
  intros H Ha. cbn [Adk.ask_choice].
  unfold Rt.bind at 1, Rt.try_except, Rt.bind at 1, Rt.input. rewrite H.
  cbn [Rt.ret]. unfold Obs.accepted, Obs.normalize in Ha. rewrite Ha.
  unfold Rt.bind at 1, Rt.print, Rt.emit; cbn. f_equal. same_world.
Qed.

Lemma adk_ask_choice_skip bad : forall w rest fuel,
  Rt.stdin w = (bad ++ rest)%list ->
  Forall (fun line => Obs.accepted line = false) bad ->
  Adk.ask_choice (length bad + fuel) w
  = Adk.ask_choice fuel
      (Obs.advance w rest 0
         (concat (map (fun _ => [Rt.Prompt Obs.choice_prompt; Rt.Print Obs.invalid_choice]) bad))).
Proof.
  induction bad as [|line bad IH]; intros w rest fuel Hin Hbad.
  - cbn in *. rewrite <- Hin. now rewrite advance_id.
  - inversion Hbad as [|? ? Hline Hrest]; subst.
    cbn [length Nat.add]. rewrite (adk_ask_choice_reject _ _ line (bad ++ rest)) by easy.
    rewrite (IH _ rest) by easy.
    cbn [map concat]. now rewrite advance_advance.
Qed.

Lemma adk_ask_choice_ends fuel : forall w,
  (length (Rt.stdin w) < fuel)%nat ->
  exists lines tr,
    (exists line, Obs.accepted line = true
       /\ Adk.ask_choice fuel w = (Rt.Done (Obs.normalize line), Obs.advance w lines 0 tr))
    \/ Adk.ask_choice fuel w = (Rt.Exited 1, Obs.advance w lines 0 tr).
Proof.
  induction fuel as [|fuel IH]; intros w Hlen; [lia|].
  destruct (Rt.stdin w) as [|line rest] eqn:Hin.
  - eexists _, _. right. now apply adk_ask_choice_eof.
  - destruct (Obs.accepted line) eqn:Ha.
    + eexists _, _. left. exists line. split; [exact Ha|].
      now apply (adk_ask_choice_accept _ _ line rest).
    + rewrite (adk_ask_choice_reject _ _ line rest) by easy.
      edestruct (IH (Obs.advance w rest 0
                  [Rt.Prompt Obs.choice_prompt; Rt.Print Obs.invalid_choice]))
        as (lines & tr & Hcase).
      { cbn in *. lia. }
      rewrite advance_advance in Hcase. eexists _, _. exact Hcase.
Qed.

Lemma adk_fill_requirements_lines choice a1 a2 a3 a4 rest h b n tr :
  exists tr',
    Adk.fill_requirements choice (Rt.World (a1 :: a2 :: a3 :: a4 :: rest) h b n tr)
    = (Rt.Done (length h),
       Rt.World rest (h ++ [Obs.requirements_of choice a1 a2 a3 a4])%list b n (tr ++ tr')%list)
    /\ length (Obs.prompts tr') = 4%nat.
Proof.
  unfold Adk.fill_requirements, Obs.requirements_of, Adk.ask_field.
  unfold Rt.bind at 1, Rt.new_dict. cbn [Rt.heap Rt.stdin Rt.backend Rt.served Rt.trace].
  unfold Rt.bind at 1, Rt.try_except.
  destruct (String.eqb choice "player").
  - unfold Rt.bind at 1. rewrite ask_field_line.
    unfold Rt.bind at 1. rewrite ask_field_line.
    unfold Rt.bind at 1. rewrite ask_field_line.
    rewrite ask_field_line. cbn. eexists [_; _; _; _].
    rewrite <- !app_assoc. cbn. split; reflexivity.
  - unfold Rt.bind at 1. rewrite ask_field_line.
    unfold Rt.bind at 1. rewrite ask_field_line.
    unfold Rt.bind at 1. rewrite ask_field_line.
    rewrite ask_field_line. cbn. eexists [_; _; _; _].
    rewrite <- !app_assoc. cbn. split; reflexivity.
Qed.

Lemma adk_fill_requirements_short choice lines h b n tr :
  (length lines < 4)%nat ->
  fst (Adk.fill_requirements choice (Rt.World lines h b n tr)) = Rt.Exited 1.
Proof.
  intros Hlen.
  unfold Adk.fill_requirements, Adk.ask_field.
  unfold Rt.bind at 1, Rt.new_dict. cbn [Rt.heap Rt.stdin Rt.backend Rt.served Rt.trace].
  unfold Rt.bind at 1, Rt.try_except.
  destruct (String.eqb choice "player");
    do 4 (destruct lines as [|? lines];
          [ repeat (unfold Rt.bind at 1; rewrite ?ask_field_line, ?ask_field_eof);
            rewrite ?ask_field_eof; reflexivity | ]);
    cbn in Hlen; lia.
Qed.

End AdkCollect.

(** *** The collectors as a whole *)

Lemma genai_collect_unfold (w : Rt.world Genai.request Genai.response) :
  Genai.collect_user_requirements w
  = Rt.bind (Genai.ask_choice (S (length (Rt.stdin w)))) Genai.fill_requirements
      (Obs.advance w (Rt.stdin w) 0
         [Rt.Print (Py.nl ++ "--- Football Player & Coach Recommendation System ---" ++ Py.nl)]).
Proof.
  unfold Genai.collect_user_requirements, Rt.bind at 1, Rt.print, Rt.emit.
  unfold Rt.bind at 1. cbn [Rt.stdin].
  replace (Obs.advance _ _ _ _) with
    (Rt.World (Rt.stdin w) (Rt.heap w) (Rt.backend w) (Rt.served w)
       (Rt.trace w ++ [Rt.Print (Py.nl ++ "--- Football Player & Coach Recommendation System ---" ++ Py.nl)]))
    by same_world.
  reflexivity.
Qed.

Lemma adk_collect_unfold (w : Rt.world Adk.request (list Adk.event)) :
  Adk.collect_user_requirements w
  = Rt.bind (Adk.ask_choice (S (length (Rt.stdin w)))) Adk.fill_requirements
      (Obs.advance w (Rt.stdin w) 0
         [Rt.Print (Py.nl ++ "--- Football Player & Coach Recommendation System (ADK) ---" ++ Py.nl)]).
Proof.
  unfold Adk.collect_user_requirements, Rt.bind at 1, Rt.print, Rt.emit.
  unfold Rt.bind at 1. cbn [Rt.stdin].
  replace (Obs.advance _ _ _ _) with
    (Rt.World (Rt.stdin w) (Rt.heap w) (Rt.backend w) (Rt.served w)
       (Rt.trace w ++ [Rt.Print (Py.nl ++ "--- Football Player & Coach Recommendation System (ADK) ---" ++ Py.nl)]))
    by same_world.
  reflexivity.
Qed.

(** A collector that returns has read an accepted discriminant and four
    answers, and hands back the one new dict built from them. *)
Lemma genai_collect_returns (w w' : Rt.world Genai.request Genai.response) r :
  Genai.collect_user_requirements w = (Rt.Done r, w') ->
  exists line a1 a2 a3 a4,
    Obs.accepted line = true /\ r = length (Rt.heap w)
    /\ Rt.heap w' = (Rt.heap w ++ [Obs.requirements_of (Obs.normalize line) a1 a2 a3 a4])%list.
Proof.
  rewrite genai_collect_unfold. unfold Rt.bind.
  edestruct (genai_ask_choice_ends (S (length (Rt.stdin w))))
    as (lines & tr & [(line & Ha & ->) | ->]); [cbn; lia | | discriminate].
  unfold Obs.advance at 1. cbn [Rt.stdin Rt.heap Rt.backend Rt.served Rt.trace].
  destruct lines as [|a1 [|a2 [|a3 [|a4 rest]]]];
    try (intros H; apply (f_equal fst) in H;
         rewrite genai_fill_requirements_short in H by (cbn; lia); discriminate).
  edestruct (genai_fill_requirements_lines (Obs.normalize line) a1 a2 a3 a4 rest)
    as (tr' & -> & _).
  intros H. injection H as <- <-. exists line, a1, a2, a3, a4. done.
Qed.

Lemma adk_collect_returns (w w' : Rt.world Adk.request (list Adk.event)) r :
  Adk.collect_user_requirements w = (Rt.Done r, w') ->
  exists line a1 a2 a3 a4,
    Obs.accepted line = true /\ r = length (Rt.heap w)
    /\ Rt.heap w' = (Rt.heap w ++ [Obs.requirements_of (Obs.normalize line) a1 a2 a3 a4])%list.
Proof.
  rewrite adk_collect_unfold. unfold Rt.bind.
  edestruct (adk_ask_choice_ends (S (length (Rt.stdin w))))
    as (lines & tr & [(line & Ha & ->) | ->]); [cbn; lia | | discriminate].
  unfold Obs.advance at 1. cbn [Rt.stdin Rt.heap Rt.backend Rt.served Rt.trace].
  destruct lines as [|a1 [|a2 [|a3 [|a4 rest]]]];
    try (intros H; apply (f_equal fst) in H;
         rewrite adk_fill_requirements_short in H by (cbn; lia); discriminate).
  edestruct (adk_fill_requirements_lines (Obs.normalize line) a1 a2 a3 a4 rest)
    as (tr' & -> & _).
  intros H. injection H as <- <-. exists line, a1, a2, a3, a4. done.
Qed.

(** The budget of the loop is never used up: on every input a collector
    either returns or exits with status 1. *)
Lemma genai_collect_ends (w : Rt.world Genai.request Genai.response) :
  (exists r w', Genai.collect_user_requirements w = (Rt.Done r, w'))
  \/ fst (Genai.collect_user_requirements w) = Rt.Exited 1.
Proof.
  rewrite genai_collect_unfold. unfold Rt.bind.
  edestruct (genai_ask_choice_ends (S (length (Rt.stdin w))))
    as (lines & tr & [(line & Ha & ->) | ->]); [cbn; lia | | right; reflexivity].
  unfold Obs.advance at 1. cbn [Rt.stdin Rt.heap Rt.backend Rt.served Rt.trace].
  destruct lines as [|a1 [|a2 [|a3 [|a4 rest]]]];
    try (right; apply genai_fill_requirements_short; cbn; lia).
  edestruct (genai_fill_requirements_lines (Obs.normalize line) a1 a2 a3 a4 rest)
    as (tr' & -> & _).
  left. eexists _, _. reflexivity.
Qed.

Lemma adk_collect_ends (w : Rt.world Adk.request (list Adk.event)) :
  (exists r w', Adk.collect_user_requirements w = (Rt.Done r, w'))
  \/ fst (Adk.collect_user_requirements w) = Rt.Exited 1.
Proof.
  rewrite adk_collect_unfold. unfold Rt.bind.
  edestruct (adk_ask_choice_ends (S (length (Rt.stdin w))))
    as (lines & tr & [(line & Ha & ->) | ->]); [cbn; lia | | right; reflexivity].
  unfold Obs.advance at 1. cbn [Rt.stdin Rt.heap Rt.backend Rt.served Rt.trace].
  destruct lines as [|a1 [|a2 [|a3 [|a4 rest]]]];
    try (right; apply adk_fill_requirements_short; cbn; lia).
  edestruct (adk_fill_requirements_lines (Obs.normalize line) a1 a2 a3 a4 rest)
    as (tr' & -> & _).
  left. eexists _, _. reflexivity.
Qed.

Lemma rejected_prompts {Rq : Type} (bad : list string) :
  Obs.prompts (Rq := Rq)
    (concat (map (fun _ => [Rt.Prompt Obs.choice_prompt; Rt.Print Obs.invalid_choice]) bad))
  = replicate (length bad) Obs.choice_prompt.
Proof.
  induction bad as [|line bad IH]; [reflexivity|].
  cbn [map concat length replicate]. rewrite prompts_app, IH. reflexivity.
Qed.

Lemma prompts_print {Rq : Type} text (tr : list (Rt.action Rq)) :
  Obs.prompts (Rt.Print text :: tr) = Obs.prompts tr.
Proof. reflexivity. Qed.

Lemma fuel_split (bad rest : list string) :
  S (length (bad ++ rest)) = (length bad + S (length rest))%nat.
Proof. rewrite length_app. lia. Qed.

(** Lines turned down, then an accepted line and four answers. *)
Lemma genai_collect_accepts (w : Rt.world Genai.request Genai.response)
    bad line a1 a2 a3 a4 rest :
  Rt.stdin w = (bad ++ line :: a1 :: a2 :: a3 :: a4 :: rest)%list ->
  Forall (fun l => Obs.rejected l = true) bad ->
  Obs.accepted line = true ->
  exists tr,
    Genai.collect_user_requirements w
    = (Rt.Done (length (Rt.heap w)),
       Rt.World rest (Rt.heap w ++ [Obs.requirements_of (Obs.normalize line) a1 a2 a3 a4])%list
         (Rt.backend w) (Rt.served w) (Rt.trace w ++ tr)%list)
    /\ length (Obs.prompts tr) = (length bad + 5)%nat.
Proof.
  intros Hin Hbad Ha. rewrite genai_collect_unfold, Hin, fuel_split. unfold Rt.bind.
  rewrite (genai_ask_choice_skip bad _ (line :: a1 :: a2 :: a3 :: a4 :: rest)) by easy.
  rewrite (genai_ask_choice_accept _ _ line (a1 :: a2 :: a3 :: a4 :: rest)) by easy.
  rewrite !advance_advance. unfold Obs.advance.
  edestruct (genai_fill_requirements_lines (Obs.normalize line) a1 a2 a3 a4 rest)
    as (tr' & -> & Hp).
  eexists. split.
  - f_equal. cbn. f_equal; [lia | rewrite <- app_assoc; reflexivity].
  - rewrite !prompts_app, prompts_print, prompts_app, rejected_prompts.
    rewrite !length_app, Hp, length_replicate. cbn. lia.
Qed.

(** Lines turned down, then end of input. *)
Lemma genai_collect_eof (w : Rt.world Genai.request Genai.response) bad :
  Rt.stdin w = bad ->
  Forall (fun l => Obs.rejected l = true) bad ->
  exists tr,
    Genai.collect_user_requirements w = (Rt.Exited 1, Obs.advance w [] 0 tr)
    /\ Obs.prompts tr = replicate (S (length bad)) Obs.choice_prompt.
Proof.
  intros Hin Hbad. rewrite genai_collect_unfold, Hin.
  rewrite <- Nat.add_1_r. unfold Rt.bind.
  rewrite (genai_ask_choice_skip bad _ []) by (cbn; rewrite ?app_nil_r; easy).
  rewrite genai_ask_choice_eof by reflexivity.
  rewrite !advance_advance.
  eexists. split; [reflexivity|].
  rewrite ?Nat.add_1_r, ?prompts_print, !prompts_app, rejected_prompts. cbn.
  now rewrite <- replicate_S_end.
Qed.

(** Lines turned down, then a blank line. *)
Lemma genai_collect_blank (w : Rt.world Genai.request Genai.response) bad line rest :
  Rt.stdin w = (bad ++ line :: rest)%list ->
  Forall (fun l => Obs.rejected l = true) bad ->
  Obs.blank line = true ->
  exists tr,
    Genai.collect_user_requirements w = (Rt.Exited 1, Obs.advance w rest 0 tr)
    /\ Obs.prompts tr = replicate (S (length bad)) Obs.choice_prompt.
Proof.
  intros Hin Hbad Hb. rewrite genai_collect_unfold, Hin, fuel_split. unfold Rt.bind.
  rewrite (genai_ask_choice_skip bad _ (line :: rest)) by easy.
  rewrite (genai_ask_choice_blank _ _ line rest) by easy.
  rewrite !advance_advance.
  eexists. split; [reflexivity|].
  rewrite ?Nat.add_1_r, ?prompts_print, !prompts_app, rejected_prompts. cbn.
  now rewrite <- replicate_S_end.
Qed.

Lemma adk_collect_accepts (w : Rt.world Adk.request (list Adk.event))
    bad line a1 a2 a3 a4 rest :
  Rt.stdin w = (bad ++ line :: a1 :: a2 :: a3 :: a4 :: rest)%list ->
  Forall (fun l => Obs.accepted l = false) bad ->
  Obs.accepted line = true ->
  exists tr,
    Adk.collect_user_requirements w
    = (Rt.Done (length (Rt.heap w)),
       Rt.World rest (Rt.heap w ++ [Obs.requirements_of (Obs.normalize line) a1 a2 a3 a4])%list
         (Rt.backend w) (Rt.served w) (Rt.trace w ++ tr)%list)
    /\ length (Obs.prompts tr) = (length bad + 5)%nat.
Proof.
  intros Hin Hbad Ha. rewrite adk_collect_unfold, Hin, fuel_split. unfold Rt.bind.
  rewrite (adk_ask_choice_skip bad _ (line :: a1 :: a2 :: a3 :: a4 :: rest)) by easy.
  rewrite (adk_ask_choice_accept _ _ line (a1 :: a2 :: a3 :: a4 :: rest)) by easy.
  rewrite !advance_advance. unfold Obs.advance.
  edestruct (adk_fill_requirements_lines (Obs.normalize line) a1 a2 a3 a4 rest)
    as (tr' & -> & Hp).
  eexists. split.
  - f_equal. cbn. f_equal; [lia | rewrite <- app_assoc; reflexivity].
  - rewrite !prompts_app, prompts_print, prompts_app, rejected_prompts.
    rewrite !length_app, Hp, length_replicate. cbn. lia.
Qed.

Lemma adk_collect_eof (w : Rt.world Adk.request (list Adk.event)) bad :
  Rt.stdin w = bad ->
  Forall (fun l => Obs.accepted l = false) bad ->
  exists tr,
    Adk.collect_user_requirements w = (Rt.Exited 1, Obs.advance w [] 0 tr)
    /\ Obs.prompts tr = replicate (S (length bad)) Obs.choice_prompt.
Proof.
  intros Hin Hbad. rewrite adk_collect_unfold, Hin.
  rewrite <- Nat.add_1_r. unfold Rt.bind.
  rewrite (adk_ask_choice_skip bad _ []) by (cbn; rewrite ?app_nil_r; easy).
  rewrite adk_ask_choice_eof by reflexivity.
  rewrite !advance_advance.
  eexists. split; [reflexivity|].
  rewrite ?Nat.add_1_r, ?prompts_print, !prompts_app, rejected_prompts. cbn.
  now rewrite <- replicate_S_end.
Qed.

(** *** Programs that leave the heap alone *)

Create HintDb frame.

Section Frame.
Context {Rq Resp : Type}.
Local Abbreviation prog := (Rt.prog Rq Resp).

Lemma bind_done {A B} (m : prog A) (k : A -> prog B) w a w' :
  m w = (Rt.Done a, w') -> Rt.bind m k w = k a w'.
Proof. unfold Rt.bind. now intros ->. Qed.

Lemma keeps_heap_ret {A} (a : A) : Obs.keeps_heap (Rt.ret a : prog A).
Proof. intros w. reflexivity. Qed.

Lemma keeps_heap_raise {A} e : Obs.keeps_heap (Rt.raise e : prog A).
Proof. intros w. reflexivity. Qed.

Lemma keeps_heap_sys_exit {A} code : Obs.keeps_heap (Rt.sys_exit code : prog A).
Proof. intros w. reflexivity. Qed.

Lemma keeps_heap_out_of_fuel {A} : Obs.keeps_heap (Rt.out_of_fuel : prog A).
Proof. intros w. reflexivity. Qed.

Lemma keeps_heap_bind {A B} (m : prog A) (k : A -> prog B) :
  Obs.keeps_heap m -> (forall a, Obs.keeps_heap (k a)) -> Obs.keeps_heap (Rt.bind m k).
Proof.
  intros Hm Hk w. unfold Rt.bind. specialize (Hm w).
  destruct (m w) as [[a| | |] w']; cbn in *; try assumption.
  now rewrite Hk.
Qed.

Lemma keeps_heap_try_except {A} (m : prog A) (h : Rt.exn -> prog A) :
  Obs.keeps_heap m -> (forall e, Obs.keeps_heap (h e)) -> Obs.keeps_heap (Rt.try_except m h).
Proof.
  intros Hm Hh w. unfold Rt.try_except. specialize (Hm w).
  destruct (m w) as [[a| | |] w']; cbn in *; try assumption.
  now rewrite Hh.
Qed.

Lemma keeps_heap_emit a : Obs.keeps_heap (Rt.emit a : prog unit).
Proof. intros w. reflexivity. Qed.

Lemma keeps_heap_print text : Obs.keeps_heap (Rt.print text : prog unit).
Proof. intros w. reflexivity. Qed.

Lemma keeps_heap_sleep secs : Obs.keeps_heap (Rt.sleep secs : prog unit).
Proof. intros w. reflexivity. Qed.

Lemma keeps_heap_flush : Obs.keeps_heap (Rt.flush : prog unit).
Proof. intros w. reflexivity. Qed.

Lemma keeps_heap_input text : Obs.keeps_heap (Rt.input text : prog string).
Proof. intros w. unfold Rt.input. now destruct (Rt.stdin w). Qed.

Lemma keeps_heap_send rq : Obs.keeps_heap (Rt.send rq : prog Resp).
Proof. intros w. unfold Rt.send. now destruct (Rt.backend w (Rt.served w) rq). Qed.

Lemma keeps_heap_deref r : Obs.keeps_heap (Rt.deref r : prog Py.dict).
Proof. intros w. unfold Rt.deref. now destruct (Rt.heap w !! r). Qed.

Lemma keeps_heap_getitem r k : Obs.keeps_heap (Rt.getitem r k : prog string).
Proof.
  apply keeps_heap_bind; [apply keeps_heap_deref|].
  intros d. destruct (Py.dict_get k d); [apply keeps_heap_ret | apply keeps_heap_raise].
Qed.

End Frame.

#[export] Hint Resolve keeps_heap_ret keeps_heap_raise keeps_heap_sys_exit
  keeps_heap_out_of_fuel keeps_heap_emit keeps_heap_print keeps_heap_sleep
  keeps_heap_flush keeps_heap_input keeps_heap_send keeps_heap_deref
  keeps_heap_getitem : frame.

(** Walks down a program built from the combinators above. *)
Ltac frame :=
  repeat first
    [ progress auto with frame
    | apply keeps_heap_bind; [| intros ?]
    | apply keeps_heap_try_except; [| intros ?]
    | match goal with
      | |- Obs.keeps_heap (if ?c then _ else _) => destruct c
      | |- Obs.keeps_heap (match ?x with _ => _ end) => destruct x
      end ].

Lemma genai_response_result_keeps_heap r : Obs.keeps_heap (Genai.response_result r).
Proof. unfold Genai.response_result. frame. Qed.

Lemma genai_attempts_keeps_heap step_name prompt model_name tools todo :
  Obs.keeps_heap (Genai.attempts step_name prompt model_name tools todo).
Proof.
  induction todo as [|attempt rest IH]; cbn [Genai.attempts]; [frame|].
  apply keeps_heap_try_except; [|intros e].
  - apply keeps_heap_bind; [frame | intros r; apply genai_response_result_keeps_heap].
  - cbn zeta. destruct (Genai.rate_limited (Rt.str_exn e)); [|frame].
    apply keeps_heap_bind; [frame|intros _].
    apply keeps_heap_bind; [frame|intros _]. exact IH.
Qed.

Lemma genai_run_step_keeps_heap step_name prompt model_name tools :
  Obs.keeps_heap (Genai.run_step step_name prompt model_name tools).
Proof.
  unfold Genai.run_step. apply keeps_heap_bind; [frame|intros _].
  apply genai_attempts_keeps_heap.
Qed.

#[export] Hint Resolve genai_run_step_keeps_heap : frame.

Lemma genai_retrieve_keeps_heap user_reqs : Obs.keeps_heap (Genai.retrieve user_reqs).
Proof. unfold Genai.retrieve. frame. Qed.

Lemma genai_score_and_rank_keeps_heap user_reqs data_output :
  Obs.keeps_heap (Genai.score_and_rank user_reqs data_output).
Proof. unfold Genai.score_and_rank. frame. Qed.

Lemma adk_print_items_keeps_heap items : Obs.keeps_heap (Adk.print_items items).
Proof.
  induction items as [|[key value] rest IH]; cbn [Adk.print_items]; [frame|].
  apply keeps_heap_bind; [frame | intros _; exact IH].
Qed.

#[export] Hint Resolve adk_print_items_keeps_heap : frame.

Lemma adk_print_structured_requirements_keeps_heap reqs :
  Obs.keeps_heap (Adk.print_structured_requirements reqs).
Proof. unfold Adk.print_structured_requirements. frame. Qed.

Lemma adk_attempts_keeps_heap runner prompt step_name todo :
  Obs.keeps_heap (Adk.attempts runner prompt step_name todo).
Proof.
  induction todo as [|attempt rest IH]; cbn [Adk.attempts]; [frame|].
  apply keeps_heap_try_except; [frame|intros e].
  cbn zeta. destruct (Adk.rate_limited (Rt.str_exn e)); [|frame].
  apply keeps_heap_bind; [frame|intros _].
  apply keeps_heap_bind; [frame|intros _]. exact IH.
Qed.

Lemma adk_run_agent_safe_keeps_heap a prompt step_name :
  Obs.keeps_heap (Adk.run_agent_safe a prompt step_name).
Proof.
  unfold Adk.run_agent_safe. apply keeps_heap_bind; [frame|intros _].
  apply adk_attempts_keeps_heap.
Qed.

#[export] Hint Resolve adk_run_agent_safe_keeps_heap
  adk_print_structured_requirements_keeps_heap : frame.

Lemma adk_retrieve_keeps_heap user_reqs : Obs.keeps_heap (Adk.retrieve user_reqs).
Proof. unfold Adk.retrieve. frame. Qed.

Lemma adk_score_and_rank_keeps_heap user_reqs data_out :
  Obs.keeps_heap (Adk.score_and_rank user_reqs data_out).
Proof. unfold Adk.score_and_rank. frame. Qed.

(** *** The retry loops after [k] throttled attempts *)

Lemma streak_full {Rq Resp} (w : Rt.world Rq Resp) rq budget : forall from,
  (forall i, (i < budget)%nat -> Obs.throttled w rq (from + i) = true) ->
  Obs.streak w rq from budget = budget.
Proof.
  induction budget as [|b IH]; intros from H; cbn; [reflexivity|].
  rewrite <- (Nat.add_0_r from) at 1. rewrite H by lia.
  f_equal. apply IH. intros i Hi.
  replace (S from + i)%nat with (from + S i)%nat by lia. apply H. lia.
Qed.

Lemma drop_range k :
  (k < 5)%nat ->
  drop k (map Z.of_nat (seq 0 5)) = Z.of_nat k :: drop (S k) (map Z.of_nat (seq 0 5)).
Proof.
  intros Hk. do 5 (destruct k as [|k]; [reflexivity|]). lia.
Qed.

Lemma genai_run_step_after step_name prompt model_name tools
    (w : Rt.world Genai.request Genai.response) k :
  let rq := Obs.genai_request prompt model_name tools in
  (k <= 5)%nat ->
  (forall i, (i < k)%nat -> Obs.throttled w rq i = true) ->
  Genai.run_step step_name prompt model_name tools w
  = Genai.attempts step_name prompt model_name tools (drop k (map Z.of_nat (seq 0 5)))
      (Obs.advance w (Rt.stdin w) k
         (Rt.Print (Py.nl ++ "--- " ++ step_name ++ " ---")
          :: concat (map (Obs.throttled_attempt rq) (take k (map Z.of_nat (seq 0 5)))))).
Proof.
  intros rq Hk Hthr.
  unfold Genai.run_step, Rt.bind at 1, Rt.print, Rt.emit.
  set (banner := Rt.Print _).
  replace (Rt.World _ _ _ _ _) with (Obs.advance w (Rt.stdin w) 0 [banner]) by same_world.
  rewrite (genai_attempts_skip _ _ _ _ k); [| cbn; lia |].
  2:{ intros i Hi. rewrite throttled_advance. now apply Hthr. }
  cbn [Obs.advance Rt.stdin]. rewrite advance_advance. reflexivity.
Qed.

Lemma adk_run_agent_safe_after a prompt step_name
    (w : Rt.world Adk.request (list Adk.event)) k :
  let rq := Obs.adk_request a prompt in
  (k <= 5)%nat ->
  (forall i, (i < k)%nat -> Obs.throttled w rq i = true) ->
  Adk.run_agent_safe a prompt step_name w
  = Adk.attempts (a, "football_app_" ++ Adk.name a) prompt step_name
      (drop k (map Z.of_nat (seq 0 5)))
      (Obs.advance w (Rt.stdin w) k
         (Rt.Print (Py.nl ++ "--- " ++ step_name ++ " ---")
          :: concat (map (Obs.throttled_attempt rq) (take k (map Z.of_nat (seq 0 5)))))).
Proof.
  intros rq Hk Hthr.
  unfold Adk.run_agent_safe, Rt.bind at 1, Rt.print, Rt.emit.
  set (banner := Rt.Print _).
  replace (Rt.World _ _ _ _ _) with (Obs.advance w (Rt.stdin w) 0 [banner]) by same_world.
  rewrite (adk_attempts_skip _ _ _ k); [| cbn; lia |].
  2:{ intros i Hi. rewrite throttled_advance. now apply Hthr. }
  cbn [Obs.advance Rt.stdin]. rewrite advance_advance. reflexivity.
Qed.

(** The entries of a prefix of the schedule are [10 * 2 ^ i]. *)
Lemma schedule_entries k i secs :
  take k Obs.schedule !! i = Some secs -> secs = 10 * 2 ^ Z.of_nat i.
Proof.
  intros H. apply lookup_take_Some in H as [H _].
  do 5 (destruct i as [|i]; [cbn in H; injection H as <-; reflexivity|]).
  discriminate.
Qed.

(** ** The claims *)

(** C1.  Both stage executors make at most 5 attempts; the wait after the
    throttled attempt [i] is [base_delay * 2 ^ i] seconds with
    [base_delay = 10], so that the waits of a run are an initial stretch
    of 10, 20, 40, 80, 160; and when all five attempts are throttled the
    stage has slept all five waits, says that it failed and returns the
    empty string.  [k] is the number of throttled attempts the run starts
    with. *)
Theorem retry_backoff_schedule :
  (forall step_name prompt model_name tools (w : Rt.world Genai.request Genai.response),
     let rq := Obs.genai_request prompt model_name tools in
     let k := Obs.streak w rq 0 5 in
     exists s tr,
       Genai.run_step step_name prompt model_name tools w
       = (Rt.Done s, Obs.advance w (Rt.stdin w) (length (Obs.requests tr)) tr)
       /\ (length (Obs.requests tr) <= Genai.max_retries)%nat
       /\ length (Obs.requests tr) = Nat.min (S k) 5
       /\ Obs.sleeps tr = take k [10; 20; 40; 80; 160]
       /\ (forall i secs, Obs.sleeps tr !! i = Some secs ->
             secs = Genai.base_delay * 2 ^ Z.of_nat i)
       /\ (k = 5%nat ->
           s = "" /\ Obs.sleeps tr = [10; 20; 40; 80; 160]
           /\ last tr = Some (Rt.Print ("Error: Failed " ++ step_name
                                        ++ " after 5 retries due to rate limits."))))
  /\ (forall a prompt step_name (w : Rt.world Adk.request (list Adk.event)),
     let rq := Obs.adk_request a prompt in
     let k := Obs.streak w rq 0 5 in
     exists s tr,
       Adk.run_agent_safe a prompt step_name w
       = (Rt.Done s, Obs.advance w (Rt.stdin w) (length (Obs.requests tr)) tr)
       /\ (length (Obs.requests tr) <= Adk.max_retries)%nat
       /\ length (Obs.requests tr) = Nat.min (S k) 5
       /\ Obs.sleeps tr = take k [10; 20; 40; 80; 160]
       /\ (forall i secs, Obs.sleeps tr !! i = Some secs ->
             secs = Adk.base_delay * 2 ^ Z.of_nat i)
       /\ (k = 5%nat ->
           s = "" /\ Obs.sleeps tr = [10; 20; 40; 80; 160]
           /\ last tr = Some (Rt.Print ("Error: Failed " ++ step_name
                                        ++ " after 5 retries.")))).
Proof.
  split.
  - intros step_name prompt model_name tools w rq k.
    destruct (genai_run_step_run step_name prompt model_name tools w)
      as (s & tr & Hrun & Hreq & Hsl & _ & Hfail).
    fold rq in Hreq, Hsl, Hfail. fold k in Hrun, Hreq, Hsl, Hfail.
    exists s, tr. rewrite Hreq, length_replicate.
    split; [exact Hrun|]. split; [unfold Genai.max_retries; lia|].
    split; [reflexivity|]. split; [exact Hsl|].
    split; [intros i secs; rewrite Hsl; apply schedule_entries|].
    intros E. destruct (Hfail E) as [-> Hlast].
    rewrite Hsl, E. auto.
  - intros a prompt step_name w rq k.
    destruct (adk_run_agent_safe_run a prompt step_name w)
      as (s & tr & Hrun & Hreq & Hsl & _ & Hfail).
    fold rq in Hreq, Hsl, Hfail. fold k in Hrun, Hreq, Hsl, Hfail.
    exists s, tr. rewrite Hreq, length_replicate.
    split; [exact Hrun|]. split; [unfold Adk.max_retries; lia|].
    split; [reflexivity|]. split; [exact Hsl|].
    split; [intros i secs; rewrite Hsl; apply schedule_entries|].
    intros E. destruct (Hfail E) as [-> Hlast].
    rewrite Hsl, E. auto.
Qed.

(** A backend that is always busy: five requests, all five waits, and the
    empty string, in both scripts. *)
Lemma retry_backoff_schedule_witness :
  (exists tr,
     Genai.run_step "Step 2: Retrieving Data" "Find players" Genai.default_model None
       (Samples.genai_world [] Samples.genai_always_busy)
     = (Rt.Done "",
        Obs.advance (Samples.genai_world [] Samples.genai_always_busy) [] 5 tr)
     /\ Obs.sleeps tr = [10; 20; 40; 80; 160])
  /\ (exists tr,
     Adk.run_agent_safe Adk.data_agent "Find players" "Retrieving Data"
       (Samples.adk_world [] Samples.adk_always_busy)
     = (Rt.Done "",
        Obs.advance (Samples.adk_world [] Samples.adk_always_busy) [] 5 tr)
     /\ Obs.sleeps tr = [10; 20; 40; 80; 160]).
Proof.
  split.
  - destruct (proj1 retry_backoff_schedule "Step 2: Retrieving Data" "Find players"
                Genai.default_model None (Samples.genai_world [] Samples.genai_always_busy))
      as (s & tr & Hrun & _ & Hn & _ & _ & Hfail).
    destruct (Hfail eq_refl) as (-> & Hsl & _).
    exists tr. rewrite Hn in Hrun. split; [exact Hrun | exact Hsl].
  - destruct (proj2 retry_backoff_schedule Adk.data_agent "Find players" "Retrieving Data"
                (Samples.adk_world [] Samples.adk_always_busy))
      as (s & tr & Hrun & _ & Hn & _ & _ & Hfail).
    destruct (Hfail eq_refl) as (-> & Hsl & _).
    exists tr. rewrite Hn in Hrun. split; [exact Hrun | exact Hsl].
Defined.

(** C6.  A backend error that is not a rate-limit signal, on any attempt
    the loop reaches, and five throttled attempts in a row both end the
    stage with the empty string as its value: the run is [Done], neither
    an exit nor an exception, and the last line printed reports the
    condition. *)
Theorem stage_failure_returns_empty :
  (forall step_name prompt model_name tools (w : Rt.world Genai.request Genai.response),
     let rq := Obs.genai_request prompt model_name tools in
     (forall k msg,
        (k < 5)%nat ->
        (forall i, (i < k)%nat -> Obs.throttled w rq i = true) ->
        Rt.backend w (Rt.served w + k) rq = inr msg ->
        Genai.rate_limited msg = false ->
        exists tr,
          Genai.run_step step_name prompt model_name tools w
          = (Rt.Done "", Obs.advance w (Rt.stdin w) (S k) tr)
          /\ last tr = Some (Rt.Print ("Error during " ++ step_name ++ ": " ++ msg)))
     /\ ((forall i, (i < 5)%nat -> Obs.throttled w rq i = true) ->
         exists tr,
           Genai.run_step step_name prompt model_name tools w
           = (Rt.Done "", Obs.advance w (Rt.stdin w) 5 tr)
           /\ last tr = Some (Rt.Print ("Error: Failed " ++ step_name
                                        ++ " after 5 retries due to rate limits."))))
  /\ (forall a prompt step_name (w : Rt.world Adk.request (list Adk.event)),
     let rq := Obs.adk_request a prompt in
     (forall k msg,
        (k < 5)%nat ->
        (forall i, (i < k)%nat -> Obs.throttled w rq i = true) ->
        Rt.backend w (Rt.served w + k) rq = inr msg ->
        Adk.rate_limited msg = false ->
        exists tr,
          Adk.run_agent_safe a prompt step_name w
          = (Rt.Done "", Obs.advance w (Rt.stdin w) (S k) tr)
          /\ last tr
             = Some (Rt.Print
                 (if Py.contains "404" msg && Py.contains "not found" msg
                  then "Error: Model " ++ Adk.model a
                       ++ " not found. Please check model availability."
                  else "Error during " ++ step_name ++ ": " ++ msg)))
     /\ ((forall i, (i < 5)%nat -> Obs.throttled w rq i = true) ->
         exists tr,
           Adk.run_agent_safe a prompt step_name w
           = (Rt.Done "", Obs.advance w (Rt.stdin w) 5 tr)
           /\ last tr = Some (Rt.Print ("Error: Failed " ++ step_name
                                        ++ " after 5 retries.")))).
Proof.
  split.
  - intros step_name prompt model_name tools w rq. split.
    + intros k msg Hk Hthr Hmsg Hrl.
      rewrite (genai_run_step_after _ _ _ _ w k) by (try lia; exact Hthr).
      rewrite drop_range by exact Hk.
      rewrite (genai_attempt_fatal _ _ _ _ _ _ _ msg) by (cbn; assumption).
      cbn [Obs.advance Rt.stdin]. rewrite advance_advance.
      eexists. split; [f_equal; f_equal; lia|].
      rewrite last_app. reflexivity.
    + intros Hthr.
      rewrite (genai_run_step_after _ _ _ _ w 5) by (try lia; exact Hthr).
      cbn [drop seq map]. rewrite genai_attempts_nil.
      cbn [Obs.advance Rt.stdin]. rewrite advance_advance.
      eexists. split; [f_equal|]. reflexivity.
  - intros a prompt step_name w rq. split.
    + intros k msg Hk Hthr Hmsg Hrl.
      rewrite (adk_run_agent_safe_after _ _ _ w k) by (try lia; exact Hthr).
      rewrite drop_range by exact Hk.
      rewrite (adk_attempt_fatal _ _ _ _ _ _ msg) by (cbn; assumption).
      cbn [Obs.advance Rt.stdin]. rewrite advance_advance.
      eexists. split; [f_equal; f_equal; lia|].
      rewrite last_app. reflexivity.
    + intros Hthr.
      rewrite (adk_run_agent_safe_after _ _ _ w 5) by (try lia; exact Hthr).
      cbn [drop seq map]. rewrite adk_attempts_nil.
      cbn [Obs.advance Rt.stdin]. rewrite advance_advance.
      eexists. split; [f_equal|]. reflexivity.
Qed.

(** A backend that fails for good at once, and one that is always busy, in
    both scripts. *)
Lemma stage_failure_returns_empty_witness :
  (fst (Genai.run_step "Step 3: Scoring Candidates" "Score them" Genai.default_model None
          (Samples.genai_world [] Samples.genai_always_broken)) = Rt.Done ""
   /\ fst (Genai.run_step "Step 3: Scoring Candidates" "Score them" Genai.default_model None
          (Samples.genai_world [] Samples.genai_always_busy)) = Rt.Done "")
  /\ (fst (Adk.run_agent_safe Adk.scoring_agent "Score them" "Scoring Candidates"
          (Samples.adk_world [] Samples.adk_always_broken)) = Rt.Done ""
   /\ fst (Adk.run_agent_safe Adk.scoring_agent "Score them" "Scoring Candidates"
          (Samples.adk_world [] Samples.adk_always_busy)) = Rt.Done "").
Proof.
  split; split.
  - destruct (proj1 (proj1 stage_failure_returns_empty
                       "Step 3: Scoring Candidates" "Score them" Genai.default_model None
                       (Samples.genai_world [] Samples.genai_always_broken))
                0%nat Samples.broken) as (tr & -> & _);
      [lia | intros i Hi; lia | reflexivity | reflexivity | reflexivity].
  - destruct (proj2 (proj1 stage_failure_returns_empty
                       "Step 3: Scoring Candidates" "Score them" Genai.default_model None
                       (Samples.genai_world [] Samples.genai_always_busy)))
      as (tr & -> & _); [intros i Hi; reflexivity | reflexivity].
  - destruct (proj1 (proj2 stage_failure_returns_empty
                       Adk.scoring_agent "Score them" "Scoring Candidates"
                       (Samples.adk_world [] Samples.adk_always_broken))
                0%nat Samples.broken) as (tr & -> & _);
      [lia | intros i Hi; lia | reflexivity | reflexivity | reflexivity].
  - destruct (proj2 (proj2 stage_failure_returns_empty
                       Adk.scoring_agent "Score them" "Scoring Candidates"
                       (Samples.adk_world [] Samples.adk_always_busy)))
      as (tr & -> & _); [intros i Hi; reflexivity | reflexivity].
Defined.

(** C8.  One throttled attempt followed by a response with the text [T]
    gives [T] as the value of the stage, after two requests and one wait
    of 10 seconds.  In [football_system.py] the text of a response is its
    [text]; in the ADK script it is what the text-bearing parts of the
    events add up to. *)
Theorem retry_is_transparent :
  (forall step_name prompt model_name tools (w : Rt.world Genai.request Genai.response)
          msg r T,
     let rq := Obs.genai_request prompt model_name tools in
     Rt.backend w (Rt.served w) rq = inr msg ->
     Genai.rate_limited msg = true ->
     Rt.backend w (Rt.served w + 1) rq = inl r ->
     Genai.text r = Some T ->
     T <> "" ->
     exists tr,
       Genai.run_step step_name prompt model_name tools w
       = (Rt.Done T, Obs.advance w (Rt.stdin w) 2 tr)
       /\ Obs.requests tr = [rq; rq] /\ Obs.sleeps tr = [10])
  /\ (forall a prompt step_name (w : Rt.world Adk.request (list Adk.event)) msg events T,
     let rq := Obs.adk_request a prompt in
     Rt.backend w (Rt.served w) rq = inr msg ->
     Adk.rate_limited msg = true ->
     Rt.backend w (Rt.served w + 1) rq = inl events ->
     Py.join "" (Adk.full_response events) = T ->
     T <> "" ->
     exists tr,
       Adk.run_agent_safe a prompt step_name w
       = (Rt.Done T, Obs.advance w (Rt.stdin w) 2 tr)
       /\ Obs.requests tr = [rq; rq] /\ Obs.sleeps tr = [10]).
Proof.
  assert (Htruthy : forall T, T <> "" -> Py.truthy T = true).
  { intros T HT. unfold Py.truthy. apply negb_true_iff, String.eqb_neq, HT. }
  split.
  - intros step_name prompt model_name tools w msg r T rq H0 Hrl H1 Ht HT.
    rewrite (genai_run_step_after _ _ _ _ w 1); [| lia |].
    2:{ intros i Hi. assert (i = 0%nat) as -> by lia.
        unfold Obs.throttled. rewrite Nat.add_0_r. fold rq. rewrite H0. exact Hrl. }
    rewrite drop_range by lia.
    rewrite (genai_attempt_text _ _ _ _ _ _ _ r).
    + rewrite Ht. cbn [default option.default Obs.advance Rt.stdin]. rewrite advance_advance.
      eexists. split; [reflexivity|]. split; reflexivity.
    + cbn. exact H1.
    + rewrite Ht. cbn. now apply Htruthy.
  - intros a prompt step_name w msg events T rq H0 Hrl H1 Ht HT.
    rewrite (adk_run_agent_safe_after _ _ _ w 1); [| lia |].
    2:{ intros i Hi. assert (i = 0%nat) as -> by lia.
        unfold Obs.throttled. rewrite Nat.add_0_r. fold rq. rewrite H0. exact Hrl. }
    rewrite drop_range by lia.
    rewrite (adk_attempt_ok _ _ _ _ _ _ events) by (cbn; exact H1).
    rewrite Ht, (Htruthy T HT). cbn [Obs.advance Rt.stdin]. rewrite advance_advance.
    eexists. split; [reflexivity|]. split; reflexivity.
Qed.

(** Backends that are busy once and then answer. *)
Lemma retry_is_transparent_witness :
  fst (Genai.run_step "Step 2: Retrieving Data" "Find players" Genai.default_model
         (Some Genai.google_search_tool)
         (Samples.genai_world [] Samples.genai_busy_once))
  = Rt.Done "Candidates: A, B, C"
  /\ fst (Adk.run_agent_safe Adk.data_agent "Find players" "Retrieving Data"
            (Samples.adk_world [] Samples.adk_busy_once))
     = Rt.Done "Candidates: A, B, C".
Proof.
  split.
  - destruct (proj1 retry_is_transparent "Step 2: Retrieving Data" "Find players"
                Genai.default_model (Some Genai.google_search_tool)
                (Samples.genai_world [] Samples.genai_busy_once)
                Samples.busy (Samples.genai_says "Candidates: A, B, C")
                "Candidates: A, B, C") as (tr & -> & _);
      [reflexivity | reflexivity | reflexivity | reflexivity | discriminate | reflexivity].
  - destruct (proj2 retry_is_transparent Adk.data_agent "Find players" "Retrieving Data"
                (Samples.adk_world [] Samples.adk_busy_once)
                Samples.busy (Samples.adk_says "Candidates: A, B, C")
                "Candidates: A, B, C") as (tr & -> & _);
      [reflexivity | reflexivity | reflexivity | reflexivity | discriminate | reflexivity].
Defined.

(** C7.  [run_step] of [football_system.py] on a response whose only part
    carries no text: the join over the parts is empty and the empty string
    is returned, the value that stands for a failed stage, where the
    sentinel was due; [run_agent_safe] returns its sentinel on the same
    part. *)
Theorem genai_textless_parts_return_empty :
  fst (Genai.run_step "Step 2: Retrieving Data" "Find players" Genai.default_model
         (Some Genai.google_search_tool)
         (Samples.genai_world [] Samples.genai_answers_textless))
  = Rt.Done ""
  /\ fst (Adk.run_agent_safe Adk.data_agent "Find players" "Retrieving Data"
            (Samples.adk_world [] Samples.adk_answers_textless))
     = Rt.Done "No response generated.".
Proof. split; reflexivity. Qed.

(** What the ADK script does with the events of a first attempt that
    went through: the text-bearing parts of all events in order, or the
    sentinel when they add up to nothing. *)
Lemma adk_success_text a prompt step_name (w : Rt.world Adk.request (list Adk.event)) events :
  Rt.backend w (Rt.served w) (Obs.adk_request a prompt) = inl events ->
  fst (Adk.run_agent_safe a prompt step_name w)
  = Rt.Done (if Py.truthy (Py.join "" (Adk.full_response events))
             then Py.join "" (Adk.full_response events)
             else "No response generated.").
Proof.
  intros H.
  rewrite (adk_run_agent_safe_after _ _ _ w 0) by (try lia; intros i Hi; lia).
  rewrite drop_range by lia.
  rewrite (adk_attempt_ok _ _ _ _ _ _ events); [reflexivity|].
  cbn. rewrite Nat.add_0_r. exact H.
Qed.

(** Stage 1 of [football_system.py] can only return after it has read the
    requirements, which it leaves in place. *)
Lemma genai_retrieve_done user_reqs (w w1 : Rt.world Genai.request Genai.response) s :
  Genai.retrieve user_reqs w = (Rt.Done s, w1) ->
  exists d, Rt.heap w1 !! user_reqs = Some d.
Proof.
  intros H.
  pose proof (genai_retrieve_keeps_heap user_reqs w) as Hheap. rewrite H in Hheap.
  cbn in Hheap. rewrite Hheap.
  unfold Genai.retrieve, Rt.bind at 1, Rt.deref in H.
  destruct (Rt.heap w !! user_reqs) as [d|]; [now exists d | discriminate].
Qed.

Lemma print_run {Rq Resp} text (w : Rt.world Rq Resp) :
  Rt.print text w = (Rt.Done tt, Obs.advance w (Rt.stdin w) 0 [Rt.Print text]).
Proof. unfold Rt.print, Rt.emit. f_equal. same_world. Qed.

Lemma deref_run {Rq Resp} r (w : Rt.world Rq Resp) d :
  Rt.heap w !! r = Some d -> Rt.deref r w = (Rt.Done d, w).
Proof. unfold Rt.deref. now intros ->. Qed.

(** Picks the branch of a conditional whose test computes to [true]. *)
Ltac take_branch :=
  match goal with
  | |- context [if ?c then ?a else ?b] =>
      let v := eval cbv in c in
      match v with
      | true => change (if c then a else b) with a
      | false => change (if c then a else b) with b
      end
  end.

(** [score_and_rank] is its two stages and the prints around them. *)
Lemma genai_score_and_rank_chain user_reqs d data
    (w1 w2 w3 : Rt.world Genai.request Genai.response) scored final :
  Rt.heap w1 !! user_reqs = Some d ->
  Genai.run_step "Step 3: Scoring Candidates" (Genai.scoring_prompt_text d data)
    Genai.default_model None
    (Obs.advance w1 (Rt.stdin w1) 0
       (Rt.Print "search result received"
        :: (if negb (Py.truthy data) || Py.contains "No text response" data
            then [Rt.Print "Warning: Search failed to return useful text. The system might hallucinate or fail."]
            else [])))
  = (Rt.Done scored, w2) ->
  Genai.run_step "Step 4: Final Recommendations" (Genai.ranking_prompt_text scored)
    Genai.default_model None (Obs.advance w2 (Rt.stdin w2) 0 [Rt.Print scored])
  = (Rt.Done final, w3) ->
  Genai.score_and_rank user_reqs data w1
  = (Rt.Done tt,
     Obs.advance w3 (Rt.stdin w3) 0
       [Rt.Print (Py.nl ++ Py.repeat_str "=" 30); Rt.Print "FINAL RECOMMENDATIONS";
        Rt.Print (Py.repeat_str "=" 30); Rt.Print final]).
Proof.
  intros Hd H2 H3. unfold Genai.score_and_rank.
  rewrite (bind_done _ _ _ _ _ (print_run _ _)).
  set (cond := negb (Py.truthy data) || Py.contains "No text response" data) in *.
  match goal with
  | |- Rt.bind (if cond then ?p else _) _ ?w = _ =>
      assert (Hw : (if cond then p else Rt.ret tt) w
                   = (Rt.Done tt,
                      Obs.advance w1 (Rt.stdin w1) 0
                        (Rt.Print "search result received"
                         :: (if cond
                             then [Rt.Print "Warning: Search failed to return useful text. The system might hallucinate or fail."]
                             else []))))
  end.
  { destruct cond; [|reflexivity].
    rewrite print_run. cbn [Obs.advance Rt.stdin]. now rewrite advance_advance. }
  rewrite (bind_done _ _ _ _ _ Hw).
  rewrite (bind_done _ _ _ _ _ (deref_run user_reqs (Obs.advance w1 _ _ _) d Hd)).
  rewrite (bind_done _ _ _ _ _ H2).
  rewrite (bind_done _ _ _ _ _ (print_run _ _)).
  rewrite (bind_done _ _ _ _ _ H3).
  rewrite (bind_done _ _ _ _ _ (print_run _ _)).
  rewrite (bind_done _ _ _ _ _ (print_run _ _)).
  rewrite (bind_done _ _ _ _ _ (print_run _ _)).
  rewrite print_run. cbn [Obs.advance Rt.stdin]. now rewrite !advance_advance.
Qed.

Lemma genai_score_and_rank_on_empty user_reqs d
    (w1 : Rt.world Genai.request Genai.response) :
  Rt.heap w1 !! user_reqs = Some d ->
  exists scored final n2 n3 tr,
    Genai.score_and_rank user_reqs "" w1
    = (Rt.Done tt, Obs.advance w1 (Rt.stdin w1) (n2 + n3) tr)
    /\ (1 <= n2)%nat /\ (1 <= n3)%nat
    /\ Obs.requests tr
       = (replicate n2 (Obs.genai_request (Genai.scoring_prompt_text d "")
                          Genai.default_model None)
          ++ replicate n3 (Obs.genai_request (Genai.ranking_prompt_text scored)
                             Genai.default_model None))%list
    /\ take 2 (Obs.prints tr)
       = ["search result received";
          "Warning: Search failed to return useful text. The system might hallucinate or fail."]
    /\ let wa := Obs.advance w1 (Rt.stdin w1) 0
                   [Rt.Print "search result received";
                    Rt.Print "Warning: Search failed to return useful text. The system might hallucinate or fail."] in
       let s2 := Genai.run_step "Step 3: Scoring Candidates" (Genai.scoring_prompt_text d "")
                   Genai.default_model None wa in
       let wb := Obs.advance (snd s2) (Rt.stdin (snd s2)) 0 [Rt.Print scored] in
       let s3 := Genai.run_step "Step 4: Final Recommendations"
                   (Genai.ranking_prompt_text scored) Genai.default_model None wb in
       fst s2 = Rt.Done scored /\ fst s3 = Rt.Done final
       /\ Genai.score_and_rank user_reqs "" w1
          = (Rt.Done tt,
             Obs.advance (snd s3) (Rt.stdin (snd s3)) 0
               [Rt.Print (Py.nl ++ Py.repeat_str "=" 30); Rt.Print "FINAL RECOMMENDATIONS";
                Rt.Print (Py.repeat_str "=" 30); Rt.Print final]).
Proof.
  intros Hd.
  set (rq2 := Genai.scoring_prompt_text d "").
  destruct (genai_run_step_run "Step 3: Scoring Candidates" rq2 Genai.default_model None
              (Obs.advance w1 (Rt.stdin w1) 0 [Rt.Print "search result received";
               Rt.Print "Warning: Search failed to return useful text. The system might hallucinate or fail."]))
    as (scored & tr2 & Hrun2 & Hreq2 & _ & _ & _).
  set (n2 := Nat.min _ 5) in Hrun2, Hreq2.
  assert (1 <= n2)%nat by (subst n2; lia). clearbody n2.
  set (rq3 := Genai.ranking_prompt_text scored).
  match type of Hrun2 with _ = (_, ?w2) =>
    destruct (genai_run_step_run "Step 4: Final Recommendations" rq3 Genai.default_model None
                (Obs.advance w2 (Rt.stdin w2) 0 [Rt.Print scored]))
      as (final & tr3 & Hrun3 & Hreq3 & _ & _ & _)
  end.
  set (n3 := Nat.min _ 5) in Hrun3, Hreq3.
  assert (1 <= n3)%nat by (subst n3; lia). clearbody n3.
  pose proof (genai_score_and_rank_chain user_reqs d "" _ _ _ scored final Hd Hrun2 Hrun3)
    as Hchain.
  exists scored, final, n2, n3. eexists.
  split; [|split; [assumption|]; split; [assumption|]; split; [|split]].
  - rewrite Hchain. cbn [Obs.advance Rt.stdin]. rewrite !advance_advance.
    f_equal. f_equal. lia.
  - rewrite !requests_app, Hreq2, Hreq3. cbn [Obs.requests omap list_omap app].
    rewrite !app_nil_r. reflexivity.
  - reflexivity.
  - cbn zeta. fold rq2. rewrite Hrun2. cbn [fst snd]. fold rq3. rewrite Hrun3. cbn [fst snd].
    split; [reflexivity|]. split; [reflexivity|]. exact Hchain.
Qed.

(** C2, as [football_system.py] runs.  The first request fails for good,
    Stage 1 returns the empty string after that one request, and the run
    goes on to announce and to query Stage 2 and Stage 3: three requests
    in all. *)
Lemma genai_scores_after_empty_retrieval :
  fst (Genai.collect_user_requirements
         (Samples.genai_world Samples.player_lines Samples.genai_broken_once)) = Rt.Done 0%nat
  /\ fst (Genai.retrieve 0
            (snd (Genai.collect_user_requirements
                    (Samples.genai_world Samples.player_lines Samples.genai_broken_once))))
     = Rt.Done ""
  /\ length (Obs.requests (Rt.trace
       (snd (Genai.retrieve 0
               (snd (Genai.collect_user_requirements
                       (Samples.genai_world Samples.player_lines Samples.genai_broken_once)))))))
     = 1%nat
  /\ length (Obs.requests (Rt.trace
       (snd (Genai.main (Samples.genai_world Samples.player_lines Samples.genai_broken_once)))))
     = 3%nat
  /\ Py.member (Py.nl ++ "--- Step 3: Scoring Candidates ---")
       (Obs.prints (Rt.trace
          (snd (Genai.main (Samples.genai_world Samples.player_lines Samples.genai_broken_once)))))
     = true
  /\ Py.member (Py.nl ++ "--- Step 4: Final Recommendations ---")
       (Obs.prints (Rt.trace
          (snd (Genai.main (Samples.genai_world Samples.player_lines Samples.genai_broken_once)))))
     = true.
Proof. vm_compute. repeat split; reflexivity. Qed.

(** C2, amended.  When Stage 1 has returned the empty string, the ADK
    script is over: [main] returns in the world Stage 1 left, with no
    further request and no further output.  [football_system.py] prints
    "search result received" and a warning, and then runs Stage 2 on the
    empty candidate data and Stage 3 on the very text that this run of
    Stage 2 returned, each with at least one request; it ends by printing
    what this run of Stage 3 returned. *)
Theorem empty_retrieval_by_script :
  (forall (w w0 w1 : Rt.world Adk.request (list Adk.event)) user_reqs,
     Adk.collect_user_requirements w = (Rt.Done user_reqs, w0) ->
     Adk.retrieve user_reqs w0 = (Rt.Done "", w1) ->
     Adk.score_and_rank user_reqs "" w1 = (Rt.Done tt, w1)
     /\ Adk.main w = (Rt.Done tt, w1))
  /\ (forall (w w0 w1 : Rt.world Genai.request Genai.response) user_reqs,
     Genai.collect_user_requirements w = (Rt.Done user_reqs, w0) ->
     Genai.retrieve user_reqs w0 = (Rt.Done "", w1) ->
     exists d scored final n2 n3 tr,
       Rt.heap w1 !! user_reqs = Some d
       /\ Genai.main w = (Rt.Done tt, Obs.advance w1 (Rt.stdin w1) (n2 + n3) tr)
       /\ (1 <= n2)%nat /\ (1 <= n3)%nat
       /\ Obs.requests tr
          = (replicate n2 (Obs.genai_request (Genai.scoring_prompt_text d "")
                             Genai.default_model None)
             ++ replicate n3 (Obs.genai_request (Genai.ranking_prompt_text scored)
                                Genai.default_model None))%list
       /\ take 2 (Obs.prints tr)
          = ["search result received";
             "Warning: Search failed to return useful text. The system might hallucinate or fail."]
       /\ let wa := Obs.advance w1 (Rt.stdin w1) 0
                      [Rt.Print "search result received";
                       Rt.Print "Warning: Search failed to return useful text. The system might hallucinate or fail."] in
          let s2 := Genai.run_step "Step 3: Scoring Candidates"
                      (Genai.scoring_prompt_text d "") Genai.default_model None wa in
          let wb := Obs.advance (snd s2) (Rt.stdin (snd s2)) 0 [Rt.Print scored] in
          let s3 := Genai.run_step "Step 4: Final Recommendations"
                      (Genai.ranking_prompt_text scored) Genai.default_model None wb in
          fst s2 = Rt.Done scored /\ fst s3 = Rt.Done final
          /\ Genai.main w
             = (Rt.Done tt,
                Obs.advance (snd s3) (Rt.stdin (snd s3)) 0
                  [Rt.Print (Py.nl ++ Py.repeat_str "=" 30); Rt.Print "FINAL RECOMMENDATIONS";
                   Rt.Print (Py.repeat_str "=" 30); Rt.Print final])).
Proof.
  split.
  - intros w w0 w1 user_reqs Hc Hr. split; [reflexivity|].
    unfold Adk.main. rewrite (bind_done _ _ _ _ _ Hc), (bind_done _ _ _ _ _ Hr).
    reflexivity.
  - intros w w0 w1 user_reqs Hc Hr.
    destruct (genai_retrieve_done _ _ _ _ Hr) as (d & Hd).
    destruct (genai_score_and_rank_on_empty user_reqs d w1 Hd)
      as (scored & final & n2 & n3 & tr & Hrun & H2 & H3 & Hreq & Hpr & Hstages).
    exists d, scored, final, n2, n3, tr.
    unfold Genai.main. rewrite (bind_done _ _ _ _ _ Hc), (bind_done _ _ _ _ _ Hr).
    repeat split; try assumption; apply Hstages.
Qed.

(** Coach requirements and a backend whose first request fails for good,
    in both scripts. *)
Lemma empty_retrieval_by_script_witness :
  fst (Adk.main (Samples.adk_world Samples.coach_lines Samples.adk_broken_once)) = Rt.Done tt
  /\ length (Obs.requests (Rt.trace
       (snd (Adk.main (Samples.adk_world Samples.coach_lines Samples.adk_broken_once)))))
     = 1%nat
  /\ exists n, (2 <= n)%nat
       /\ Rt.served (snd (Genai.main
            (Samples.genai_world Samples.coach_lines Samples.genai_broken_once))) = S n.
Proof.
  split; [|split].
  - destruct (proj1 empty_retrieval_by_script
                (Samples.adk_world Samples.coach_lines Samples.adk_broken_once)
                (snd (Adk.collect_user_requirements
                        (Samples.adk_world Samples.coach_lines Samples.adk_broken_once)))
                (snd (Adk.retrieve 0
                        (snd (Adk.collect_user_requirements
                                (Samples.adk_world Samples.coach_lines Samples.adk_broken_once)))))
                0%nat) as [_ ->]; vm_compute; reflexivity.
  - destruct (proj1 empty_retrieval_by_script
                (Samples.adk_world Samples.coach_lines Samples.adk_broken_once)
                (snd (Adk.collect_user_requirements
                        (Samples.adk_world Samples.coach_lines Samples.adk_broken_once)))
                (snd (Adk.retrieve 0
                        (snd (Adk.collect_user_requirements
                                (Samples.adk_world Samples.coach_lines Samples.adk_broken_once)))))
                0%nat) as [_ ->]; vm_compute; reflexivity.
  - destruct (proj2 empty_retrieval_by_script
                (Samples.genai_world Samples.coach_lines Samples.genai_broken_once)
                (snd (Genai.collect_user_requirements
                        (Samples.genai_world Samples.coach_lines Samples.genai_broken_once)))
                (snd (Genai.retrieve 0
                        (snd (Genai.collect_user_requirements
                                (Samples.genai_world Samples.coach_lines Samples.genai_broken_once)))))
                0%nat) as (d & scored & final & n2 & n3 & tr & _ & -> & H2 & H3 & _);
      [vm_compute; reflexivity | vm_compute; reflexivity |].
    exists (n2 + n3)%nat. split; [lia | reflexivity].
Defined.

Lemma member_choice c :
  Py.member c ["player"; "coach"] = true -> c = "player" \/ c = "coach".
Proof.
  unfold Py.member. cbn [existsb]. rewrite orb_false_r.
  intros H. apply orb_true_iff in H as [H|H]; apply String.eqb_eq in H; auto.
Qed.

(** The loops hand back nothing but the two tokens, whatever their
    budget. *)
Lemma genai_ask_choice_done fuel : forall (w w' : Rt.world Genai.request Genai.response) c,
  Genai.ask_choice fuel w = (Rt.Done c, w') -> c = "player" \/ c = "coach".
Proof.
  induction fuel as [|fuel IH]; intros w w' c; [discriminate|].
  destruct (Rt.stdin w) as [|line rest] eqn:Hin.
  - rewrite genai_ask_choice_eof by exact Hin. discriminate.
  - destruct (Obs.accepted line) eqn:Ha.
    + rewrite (genai_ask_choice_accept _ _ line rest) by easy.
      intros H. injection H as <- _. now apply member_choice.
    + destruct (Obs.blank line) eqn:Hb.
      * rewrite (genai_ask_choice_blank _ _ line rest) by easy. discriminate.
      * rewrite (genai_ask_choice_reject _ _ line rest)
          by (try easy; unfold Obs.rejected; now rewrite Ha, Hb).
        apply IH.
Qed.

Lemma adk_ask_choice_done fuel : forall (w w' : Rt.world Adk.request (list Adk.event)) c,
  Adk.ask_choice fuel w = (Rt.Done c, w') -> c = "player" \/ c = "coach".
Proof.
  induction fuel as [|fuel IH]; intros w w' c; [discriminate|].
  destruct (Rt.stdin w) as [|line rest] eqn:Hin.
  - rewrite adk_ask_choice_eof by exact Hin. discriminate.
  - destruct (Obs.accepted line) eqn:Ha.
    + rewrite (adk_ask_choice_accept _ _ line rest) by easy.
      intros H. injection H as <- _. now apply member_choice.
    + rewrite (adk_ask_choice_reject _ _ line rest) by easy. apply IH.
Qed.

(** A collector that exits takes [main] with it. *)
Lemma genai_main_exits (w w' : Rt.world Genai.request Genai.response) code :
  Genai.collect_user_requirements w = (Rt.Exited code, w') ->
  Genai.main w = (Rt.Exited code, w').
Proof. intros H. unfold Genai.main, Rt.bind at 1. now rewrite H. Qed.

Lemma adk_main_exits (w w' : Rt.world Adk.request (list Adk.event)) code :
  Adk.collect_user_requirements w = (Rt.Exited code, w') ->
  Adk.main w = (Rt.Exited code, w').
Proof. intros H. unfold Adk.main, Rt.bind at 1. now rewrite H. Qed.

(** C3, as the ADK script runs.  A blank first line does not end the
    process: the discriminant is asked for again, "coach" is accepted, the
    four fields are asked for and the collector returns. *)
Lemma adk_blank_choice_is_asked_again :
  Obs.blank "" = true
  /\ fst (Adk.collect_user_requirements
            (Samples.adk_world Samples.blank_then_coach_lines Samples.adk_always_busy))
     = Rt.Done 0%nat
  /\ Obs.prompts (Rt.trace
       (snd (Adk.collect_user_requirements
               (Samples.adk_world Samples.blank_then_coach_lines Samples.adk_always_busy))))
     = [Obs.choice_prompt; Obs.choice_prompt; "Coaching style (e.g., Defensive): ";
        "Experience (e.g., 5+ years): "; "Age range (e.g., 40-50): ";
        "Focus (e.g., Youth Dev): "].
Proof. repeat split; reflexivity. Qed.

(** C3, amended.  In both scripts the discriminant prompt turns down the
    lines [bad], asking again after each, and goes on to the fields only
    with a line that, stripped and lowercased, is "player" or "coach"; the
    loop never hands back anything else.  When the input ends at the
    prompt, [main] exits with status 1 and the only prompts issued are the
    discriminant prompts, one per line read and one that met the end of
    input.  A line that is blank once stripped ends [football_system.py]
    in the same way, while it is one of the lines the ADK script turns
    down. *)
Theorem choice_prompt_state_machine :
  (forall (w : Rt.world Genai.request Genai.response) bad,
     Forall (fun l => Obs.rejected l = true) bad ->
     (forall line a1 a2 a3 a4 rest,
        Rt.stdin w = (bad ++ line :: a1 :: a2 :: a3 :: a4 :: rest)%list ->
        Py.member (Py.lower (Py.strip line)) ["player"; "coach"] = true ->
        exists tr,
          Genai.collect_user_requirements w
          = (Rt.Done (length (Rt.heap w)),
             Rt.World rest
               (Rt.heap w ++ [Obs.requirements_of (Py.lower (Py.strip line)) a1 a2 a3 a4])%list
               (Rt.backend w) (Rt.served w) (Rt.trace w ++ tr)%list)
          /\ length (Obs.prompts tr) = (length bad + 5)%nat)
     /\ (Rt.stdin w = bad ->
         exists tr,
           Genai.main w = (Rt.Exited 1, Obs.advance w [] 0 tr)
           /\ Obs.prompts tr = replicate (S (length bad)) Obs.choice_prompt)
     /\ (forall line rest,
           Rt.stdin w = (bad ++ line :: rest)%list ->
           Py.lower (Py.strip line) = "" ->
           exists tr,
             Genai.main w = (Rt.Exited 1, Obs.advance w rest 0 tr)
             /\ Obs.prompts tr = replicate (S (length bad)) Obs.choice_prompt)
     /\ (forall fuel w' c,
           Genai.ask_choice fuel w = (Rt.Done c, w') -> c = "player" \/ c = "coach"))
  /\ (forall (w : Rt.world Adk.request (list Adk.event)) bad,
     Forall (fun l => Obs.accepted l = false) bad ->
     (forall line a1 a2 a3 a4 rest,
        Rt.stdin w = (bad ++ line :: a1 :: a2 :: a3 :: a4 :: rest)%list ->
        Py.member (Py.lower (Py.strip line)) ["player"; "coach"] = true ->
        exists tr,
          Adk.collect_user_requirements w
          = (Rt.Done (length (Rt.heap w)),
             Rt.World rest
               (Rt.heap w ++ [Obs.requirements_of (Py.lower (Py.strip line)) a1 a2 a3 a4])%list
               (Rt.backend w) (Rt.served w) (Rt.trace w ++ tr)%list)
          /\ length (Obs.prompts tr) = (length bad + 5)%nat)
     /\ (Rt.stdin w = bad ->
         exists tr,
           Adk.main w = (Rt.Exited 1, Obs.advance w [] 0 tr)
           /\ Obs.prompts tr = replicate (S (length bad)) Obs.choice_prompt)
     /\ (forall line, Py.lower (Py.strip line) = "" -> Obs.accepted line = false)
     /\ (forall fuel w' c,
           Adk.ask_choice fuel w = (Rt.Done c, w') -> c = "player" \/ c = "coach")).
Proof.
  split.
  - intros w bad Hbad. repeat split.
    + intros line a1 a2 a3 a4 rest Hin Ha.
      now apply (genai_collect_accepts w bad line a1 a2 a3 a4 rest).
    + intros Hin. destruct (genai_collect_eof w bad Hin Hbad) as (tr & Hrun & Hp).
      exists tr. split; [now apply genai_main_exits | exact Hp].
    + intros line rest Hin Hb.
      destruct (genai_collect_blank w bad line rest Hin Hbad) as (tr & Hrun & Hp).
      { unfold Obs.blank, Obs.normalize. now rewrite Hb. }
      exists tr. split; [now apply genai_main_exits | exact Hp].
    + intros fuel w' c. apply genai_ask_choice_done.
  - intros w bad Hbad. repeat split.
    + intros line a1 a2 a3 a4 rest Hin Ha.
      now apply (adk_collect_accepts w bad line a1 a2 a3 a4 rest).
    + intros Hin. destruct (adk_collect_eof w bad Hin Hbad) as (tr & Hrun & Hp).
      exists tr. split; [now apply adk_main_exits | exact Hp].
    + intros line Hb. unfold Obs.accepted, Obs.normalize. now rewrite Hb.
    + intros fuel w' c. apply adk_ask_choice_done.
Qed.

(** One line turned down and then the end of input, in both scripts; and
    one line turned down and then a blank line in [football_system.py]. *)
Lemma choice_prompt_state_machine_witness :
  (exists tr,
     Genai.main (Samples.genai_world ["manager"] Samples.genai_always_busy)
     = (Rt.Exited 1, Obs.advance (Samples.genai_world ["manager"] Samples.genai_always_busy) [] 0 tr)
     /\ Obs.prompts tr = [Obs.choice_prompt; Obs.choice_prompt])
  /\ (exists tr,
     Genai.main (Samples.genai_world ["manager"; "   "; "player"] Samples.genai_always_busy)
     = (Rt.Exited 1,
        Obs.advance (Samples.genai_world ["manager"; "   "; "player"] Samples.genai_always_busy)
          ["player"] 0 tr)
     /\ Obs.prompts tr = [Obs.choice_prompt; Obs.choice_prompt])
  /\ (exists tr,
     Adk.main (Samples.adk_world ["manager"] Samples.adk_always_busy)
     = (Rt.Exited 1, Obs.advance (Samples.adk_world ["manager"] Samples.adk_always_busy) [] 0 tr)
     /\ Obs.prompts tr = [Obs.choice_prompt; Obs.choice_prompt]).
Proof.
  assert (Hg : Forall (fun l => Obs.rejected l = true) ["manager"])
    by (repeat constructor).
  assert (Ha : Forall (fun l => Obs.accepted l = false) ["manager"])
    by (repeat constructor).
  split; [|split].
  - exact (proj1 (proj2 (proj1 choice_prompt_state_machine
                           (Samples.genai_world ["manager"] Samples.genai_always_busy)
                           ["manager"] Hg)) eq_refl).
  - exact (proj1 (proj2 (proj2 (proj1 choice_prompt_state_machine
                           (Samples.genai_world ["manager"; "   "; "player"]
                              Samples.genai_always_busy)
                           ["manager"] Hg))) "   " ["player"] eq_refl eq_refl).
  - exact (proj1 (proj2 (proj2 choice_prompt_state_machine
                           (Samples.adk_world ["manager"] Samples.adk_always_busy)
                           ["manager"] Ha)) eq_refl).
Defined.

(** A collector that meets an accepted line and four answers at once. *)
Lemma genai_collect_at_once line a1 a2 a3 a4 rest h b n tr :
  Obs.accepted line = true ->
  exists tr',
    Genai.collect_user_requirements (Rt.World (line :: a1 :: a2 :: a3 :: a4 :: rest) h b n tr)
    = (Rt.Done (length h),
       Rt.World rest (h ++ [Obs.requirements_of (Obs.normalize line) a1 a2 a3 a4])%list
         b n (tr ++ tr')%list).
Proof.
  intros Ha.
  destruct (genai_collect_accepts
              (Rt.World (line :: a1 :: a2 :: a3 :: a4 :: rest) h b n tr)
              [] line a1 a2 a3 a4 rest eq_refl (List.Forall_nil _) Ha) as (tr' & H & _).
  exists tr'. exact H.
Qed.

Lemma adk_collect_at_once line a1 a2 a3 a4 rest h b n tr :
  Obs.accepted line = true ->
  exists tr',
    Adk.collect_user_requirements (Rt.World (line :: a1 :: a2 :: a3 :: a4 :: rest) h b n tr)
    = (Rt.Done (length h),
       Rt.World rest (h ++ [Obs.requirements_of (Obs.normalize line) a1 a2 a3 a4])%list
         b n (tr ++ tr')%list).
Proof.
  intros Ha.
  destruct (adk_collect_accepts
              (Rt.World (line :: a1 :: a2 :: a3 :: a4 :: rest) h b n tr)
              [] line a1 a2 a3 a4 rest eq_refl (List.Forall_nil _) Ha) as (tr' & H & _).
  exists tr'. exact H.
Qed.

(** C4, as the scripts run.  The answer " Forward " is stored as
    "Forward": the dict does not hold the literal answer. *)
Lemma player_answer_is_stripped :
  Samples.padded_answer_lines !! 1%nat = Some " Forward "
  /\ Rt.heap (snd (Genai.collect_user_requirements
                     (Samples.genai_world Samples.padded_answer_lines Samples.genai_always_busy)))
     = [[("type", "player"); ("position", "Forward"); ("age_range", "20-25");
         ("experience", "3+ years"); ("style", "Attacking, fast")]]
  /\ Rt.heap (snd (Adk.collect_user_requirements
                     (Samples.adk_world Samples.padded_answer_lines Samples.adk_always_busy)))
     = [[("type", "player"); ("position", "Forward"); ("age_range", "20-25");
         ("experience", "3+ years"); ("style", "Attacking, fast")]]
  /\ "Forward" <> " Forward ".
Proof. repeat split; try reflexivity. discriminate. Qed.

(** C4, amended.  On "player" and four answers both collectors return the
    one new dict whose keys are type, position, age_range, experience and
    style, in this order, with "player" under type and under each other
    key its answer stripped of the whitespace around it. *)
Theorem player_requirements_mapping :
  forall a1 a2 a3 a4 rest h n,
    let d := [("type", "player"); ("position", Py.strip a1); ("age_range", Py.strip a2);
              ("experience", Py.strip a3); ("style", Py.strip a4)] in
    Py.dict_keys d = ["type"; "position"; "age_range"; "experience"; "style"]
    /\ list_to_set (Py.dict_keys d)
       = ({[ "type"; "position"; "age_range"; "experience"; "style" ]} : gset string)
    /\ (forall b tr, exists tr',
          Genai.collect_user_requirements
            (Rt.World ("player" :: a1 :: a2 :: a3 :: a4 :: rest) h b n tr)
          = (Rt.Done (length h), Rt.World rest (h ++ [d])%list b n (tr ++ tr')%list))
    /\ (forall b tr, exists tr',
          Adk.collect_user_requirements
            (Rt.World ("player" :: a1 :: a2 :: a3 :: a4 :: rest) h b n tr)
          = (Rt.Done (length h), Rt.World rest (h ++ [d])%list b n (tr ++ tr')%list)).
Proof.
  intros a1 a2 a3 a4 rest h n d. split; [reflexivity|]. split.
  - cbn. apply set_eq. intros k. set_solver.
  - split; intros b tr.
    + apply (genai_collect_at_once "player" a1 a2 a3 a4 rest h b n tr eq_refl).
    + apply (adk_collect_at_once "player" a1 a2 a3 a4 rest h b n tr eq_refl).
Qed.

(** The requirements a collector has returned, read back from the heap. *)
Lemma returned_requirements line a1 a2 a3 a4 :
  Obs.accepted line = true ->
  let d := Obs.requirements_of (Obs.normalize line) a1 a2 a3 a4 in
  Py.dict_get "type" d = Some (Obs.normalize line)
  /\ Py.dict_keys d = Obs.keys_for (Obs.normalize line).
Proof.
  intros Ha d. subst d. unfold Obs.requirements_of, Obs.keys_for.
  destruct (String.eqb (Obs.normalize line) "player"); split; reflexivity.
Qed.

(** C5.  On "coach" and four answers the ADK collector returns the one
    new dict whose keys are type, style, experience, age_range and focus,
    and so does the collector of [football_system.py]; and whenever a
    collector returns, the keys of its dict are those that go with the
    value under type. *)
Theorem coach_requirements_keys :
  (forall a1 a2 a3 a4 rest h b n tr,
     exists d w',
       Adk.collect_user_requirements
         (Rt.World ("coach" :: a1 :: a2 :: a3 :: a4 :: rest) h b n tr)
       = (Rt.Done (length h), w')
       /\ Rt.heap w' = (h ++ [d])%list
       /\ Py.dict_keys d = ["type"; "style"; "experience"; "age_range"; "focus"]
       /\ list_to_set (Py.dict_keys d)
          = ({[ "type"; "style"; "experience"; "age_range"; "focus" ]} : gset string))
  /\ (forall a1 a2 a3 a4 rest h b n tr,
     exists d w',
       Genai.collect_user_requirements
         (Rt.World ("coach" :: a1 :: a2 :: a3 :: a4 :: rest) h b n tr)
       = (Rt.Done (length h), w')
       /\ Rt.heap w' = (h ++ [d])%list
       /\ Py.dict_keys d = ["type"; "style"; "experience"; "age_range"; "focus"]
       /\ list_to_set (Py.dict_keys d)
          = ({[ "type"; "style"; "experience"; "age_range"; "focus" ]} : gset string))
  /\ (forall (w w' : Rt.world Adk.request (list Adk.event)) r,
     Adk.collect_user_requirements w = (Rt.Done r, w') ->
     exists d type,
       Rt.heap w' !! r = Some d /\ Py.dict_get "type" d = Some type
       /\ Py.dict_keys d = Obs.keys_for type)
  /\ (forall (w w' : Rt.world Genai.request Genai.response) r,
     Genai.collect_user_requirements w = (Rt.Done r, w') ->
     exists d type,
       Rt.heap w' !! r = Some d /\ Py.dict_get "type" d = Some type
       /\ Py.dict_keys d = Obs.keys_for type).
Proof.
  assert (Hset : list_to_set ["type"; "style"; "experience"; "age_range"; "focus"]
                 = ({[ "type"; "style"; "experience"; "age_range"; "focus" ]} : gset string))
    by (apply set_eq; intros k; set_solver).
  repeat split.
  - intros a1 a2 a3 a4 rest h b n tr.
    destruct (adk_collect_at_once "coach" a1 a2 a3 a4 rest h b n tr eq_refl) as (tr' & ->).
    eexists _, _. split; [reflexivity|]. split; [reflexivity|]. split; [reflexivity|exact Hset].
  - intros a1 a2 a3 a4 rest h b n tr.
    destruct (genai_collect_at_once "coach" a1 a2 a3 a4 rest h b n tr eq_refl) as (tr' & ->).
    eexists _, _. split; [reflexivity|]. split; [reflexivity|]. split; [reflexivity|exact Hset].
  - intros w w' r H.
    destruct (adk_collect_returns _ _ _ H) as (line & a1 & a2 & a3 & a4 & Ha & -> & ->).
    destruct (returned_requirements line a1 a2 a3 a4 Ha) as [Ht Hk].
    eexists _, _. split; [apply list_lookup_middle; reflexivity|]. split; eassumption.
  - intros w w' r H.
    destruct (genai_collect_returns _ _ _ H) as (line & a1 & a2 & a3 & a4 & Ha & -> & ->).
    destruct (returned_requirements line a1 a2 a3 a4 Ha) as [Ht Hk].
    eexists _, _. split; [apply list_lookup_middle; reflexivity|]. split; eassumption.
Qed.

(** The sample coach and player runs, read through the general half of
    the statement. *)
Lemma coach_requirements_keys_witness :
  (exists d,
     Rt.heap (snd (Adk.collect_user_requirements
                     (Samples.adk_world Samples.coach_lines Samples.adk_always_busy)))
       !! 0%nat = Some d
     /\ Py.dict_get "type" d = Some "coach"
     /\ Py.dict_keys d = ["type"; "style"; "experience"; "age_range"; "focus"])
  /\ (exists d,
     Rt.heap (snd (Genai.collect_user_requirements
                     (Samples.genai_world Samples.player_lines Samples.genai_always_busy)))
       !! 0%nat = Some d
     /\ Py.dict_get "type" d = Some "player"
     /\ Py.dict_keys d = ["type"; "position"; "age_range"; "experience"; "style"]).
Proof.
  split.
  - destruct (proj1 (proj2 (proj2 coach_requirements_keys))
                (Samples.adk_world Samples.coach_lines Samples.adk_always_busy)
                (snd (Adk.collect_user_requirements
                        (Samples.adk_world Samples.coach_lines Samples.adk_always_busy)))
                0%nat ltac:(vm_compute; reflexivity)) as (d & type & Hd & Ht & Hk).
    exists d. split; [exact Hd|].
    vm_compute in Hd. injection Hd as <-. vm_compute in Ht. injection Ht as <-.
    split; [reflexivity | exact Hk].
  - destruct (proj2 (proj2 (proj2 coach_requirements_keys))
                (Samples.genai_world Samples.player_lines Samples.genai_always_busy)
                (snd (Genai.collect_user_requirements
                        (Samples.genai_world Samples.player_lines Samples.genai_always_busy)))
                0%nat ltac:(vm_compute; reflexivity)) as (d & type & Hd & Ht & Hk).
    exists d. split; [exact Hd|].
    vm_compute in Hd. injection Hd as <-. vm_compute in Ht. injection Ht as <-.
    split; [reflexivity | exact Hk].
Defined.

(** C10.  Whenever a collector returns, the value under type in its dict
    is "player" or "coach"; and a first line that, stripped and
    lowercased, is one of the two is accepted, with the stripped and
    lowercased line as the value stored. *)
Theorem stored_type_is_normalized :
  (forall (w w' : Rt.world Genai.request Genai.response) r,
     Genai.collect_user_requirements w = (Rt.Done r, w') ->
     exists d, Rt.heap w' !! r = Some d
       /\ (Py.dict_get "type" d = Some "player" \/ Py.dict_get "type" d = Some "coach"))
  /\ (forall (w w' : Rt.world Adk.request (list Adk.event)) r,
     Adk.collect_user_requirements w = (Rt.Done r, w') ->
     exists d, Rt.heap w' !! r = Some d
       /\ (Py.dict_get "type" d = Some "player" \/ Py.dict_get "type" d = Some "coach"))
  /\ (forall line a1 a2 a3 a4 rest h b n tr,
     Py.member (Py.lower (Py.strip line)) ["player"; "coach"] = true ->
     exists d w',
       Genai.collect_user_requirements (Rt.World (line :: a1 :: a2 :: a3 :: a4 :: rest) h b n tr)
       = (Rt.Done (length h), w')
       /\ Rt.heap w' !! length h = Some d
       /\ Py.dict_get "type" d = Some (Py.lower (Py.strip line)))
  /\ (forall line a1 a2 a3 a4 rest h b n tr,
     Py.member (Py.lower (Py.strip line)) ["player"; "coach"] = true ->
     exists d w',
       Adk.collect_user_requirements (Rt.World (line :: a1 :: a2 :: a3 :: a4 :: rest) h b n tr)
       = (Rt.Done (length h), w')
       /\ Rt.heap w' !! length h = Some d
       /\ Py.dict_get "type" d = Some (Py.lower (Py.strip line))).
Proof.
  repeat split.
  - intros w w' r H.
    destruct (genai_collect_returns _ _ _ H) as (line & a1 & a2 & a3 & a4 & Ha & -> & ->).
    destruct (returned_requirements line a1 a2 a3 a4 Ha) as [Ht _].
    eexists. split; [apply list_lookup_middle; reflexivity|]. rewrite Ht.
    destruct (member_choice _ Ha) as [-> | ->]; auto.
  - intros w w' r H.
    destruct (adk_collect_returns _ _ _ H) as (line & a1 & a2 & a3 & a4 & Ha & -> & ->).
    destruct (returned_requirements line a1 a2 a3 a4 Ha) as [Ht _].
    eexists. split; [apply list_lookup_middle; reflexivity|]. rewrite Ht.
    destruct (member_choice _ Ha) as [-> | ->]; auto.
  - intros line a1 a2 a3 a4 rest h b n tr Ha.
    destruct (genai_collect_at_once line a1 a2 a3 a4 rest h b n tr Ha) as (tr' & ->).
    destruct (returned_requirements line a1 a2 a3 a4 Ha) as [Ht _].
    eexists _, _. split; [reflexivity|].
    split; [apply list_lookup_middle; reflexivity | exact Ht].
  - intros line a1 a2 a3 a4 rest h b n tr Ha.
    destruct (adk_collect_at_once line a1 a2 a3 a4 rest h b n tr Ha) as (tr' & ->).
    destruct (returned_requirements line a1 a2 a3 a4 Ha) as [Ht _].
    eexists _, _. split; [reflexivity|].
    split; [apply list_lookup_middle; reflexivity | exact Ht].
Qed.

(** The padded, upper-case line "  PLAYER " is accepted and stored as
    "player", in both scripts. *)
Lemma stored_type_is_normalized_witness :
  Py.lower (Py.strip "  PLAYER ") = "player"
  /\ (exists d w',
        Genai.collect_user_requirements
          (Samples.genai_world Samples.padded_player_lines Samples.genai_always_busy)
        = (Rt.Done 0%nat, w')
        /\ Rt.heap w' !! 0%nat = Some d /\ Py.dict_get "type" d = Some "player")
  /\ (exists d w',
        Adk.collect_user_requirements
          (Samples.adk_world Samples.padded_player_lines Samples.adk_always_busy)
        = (Rt.Done 0%nat, w')
        /\ Rt.heap w' !! 0%nat = Some d /\ Py.dict_get "type" d = Some "player").
Proof.
  split; [reflexivity|]. split.
  - exact (proj1 (proj2 (proj2 stored_type_is_normalized))
             "  PLAYER " " Forward " "20-25" "3+ years" "Attacking, fast" [] []
             Samples.genai_always_busy 0%nat [] eq_refl).
  - exact (proj2 (proj2 (proj2 stored_type_is_normalized))
             "  PLAYER " " Forward " "20-25" "3+ years" "Attacking, fast" [] []
             Samples.adk_always_busy 0%nat [] eq_refl).
Defined.

(** C9.  The requirements dict is the one object the collector adds to
    the heap, and nothing that runs afterwards writes to the heap: not a
    stage executor, not the printing of the requirements, not Stage 1 with
    its prompt building, not the two stages after it.  So the heap at the
    end of [main], and with it every key and value of the dict, is the
    heap the collector left. *)
Theorem requirements_read_only :
  ((forall step_name prompt model_name tools,
      Obs.keeps_heap (Genai.run_step step_name prompt model_name tools))
   /\ (forall user_reqs, Obs.keeps_heap (Genai.retrieve user_reqs))
   /\ (forall user_reqs data_output,
         Obs.keeps_heap (Genai.score_and_rank user_reqs data_output))
   /\ (forall (w w0 : Rt.world Genai.request Genai.response) user_reqs,
         Genai.collect_user_requirements w = (Rt.Done user_reqs, w0) ->
         (exists d, user_reqs = length (Rt.heap w) /\ Rt.heap w0 = (Rt.heap w ++ [d])%list)
         /\ Rt.heap (snd (Genai.main w)) = Rt.heap w0))
  /\ ((forall a prompt step_name, Obs.keeps_heap (Adk.run_agent_safe a prompt step_name))
   /\ (forall reqs, Obs.keeps_heap (Adk.print_structured_requirements reqs))
   /\ (forall user_reqs, Obs.keeps_heap (Adk.retrieve user_reqs))
   /\ (forall user_reqs data_out, Obs.keeps_heap (Adk.score_and_rank user_reqs data_out))
   /\ (forall (w w0 : Rt.world Adk.request (list Adk.event)) user_reqs,
         Adk.collect_user_requirements w = (Rt.Done user_reqs, w0) ->
         (exists d, user_reqs = length (Rt.heap w) /\ Rt.heap w0 = (Rt.heap w ++ [d])%list)
         /\ Rt.heap (snd (Adk.main w)) = Rt.heap w0)).
Proof.
  split.
  - split; [exact genai_run_step_keeps_heap|].
    split; [exact genai_retrieve_keeps_heap|].
    split; [exact genai_score_and_rank_keeps_heap|].
    intros w w0 user_reqs H. split.
    + destruct (genai_collect_returns _ _ _ H) as (line & a1 & a2 & a3 & a4 & _ & Hr & Hh).
      eexists. split; eassumption.
    + unfold Genai.main. rewrite (bind_done _ _ _ _ _ H).
      apply keeps_heap_bind;
        [apply genai_retrieve_keeps_heap | intros s; apply genai_score_and_rank_keeps_heap].
  - split; [exact adk_run_agent_safe_keeps_heap|].
    split; [exact adk_print_structured_requirements_keeps_heap|].
    split; [exact adk_retrieve_keeps_heap|].
    split; [exact adk_score_and_rank_keeps_heap|].
    intros w w0 user_reqs H. split.
    + destruct (adk_collect_returns _ _ _ H) as (line & a1 & a2 & a3 & a4 & _ & Hr & Hh).
      eexists. split; eassumption.
    + unfold Adk.main. rewrite (bind_done _ _ _ _ _ H).
      apply keeps_heap_bind;
        [apply adk_retrieve_keeps_heap | intros s; apply adk_score_and_rank_keeps_heap].
Qed.

(** Two whole runs with a backend that is busy once: at the end the heap
    holds the dict as it was collected. *)
Lemma requirements_read_only_witness :
  Rt.heap (snd (Genai.main (Samples.genai_world Samples.player_lines Samples.genai_busy_once)))
  = [[("type", "player"); ("position", "Forward"); ("age_range", "20-25");
      ("experience", "3+ years"); ("style", "Attacking, fast")]]
  /\ Rt.heap (snd (Adk.main (Samples.adk_world Samples.coach_lines Samples.adk_busy_once)))
     = [[("type", "coach"); ("style", "Defensive"); ("experience", "5+ years");
         ("age_range", "40-50"); ("focus", "Youth Dev")]].
Proof.
  split.
  - rewrite (proj2 (proj2 (proj2 (proj2 (proj1 requirements_read_only)))
                      (Samples.genai_world Samples.player_lines Samples.genai_busy_once)
                      (snd (Genai.collect_user_requirements
                              (Samples.genai_world Samples.player_lines
                                 Samples.genai_busy_once)))
                      0%nat ltac:(vm_compute; reflexivity))).
    vm_compute. reflexivity.
  - rewrite (proj2 (proj2 (proj2 (proj2 (proj2 (proj2 requirements_read_only))))
                      (Samples.adk_world Samples.coach_lines Samples.adk_busy_once)
                      (snd (Adk.collect_user_requirements
                              (Samples.adk_world Samples.coach_lines Samples.adk_busy_once)))
                      0%nat ltac:(vm_compute; reflexivity))).
    vm_compute. reflexivity.
Defined.

(** ** Further properties of the scripts

    *** The three stages in a row *)

Lemma requests_print {Rq : Type} text (tr : list (Rt.action Rq)) :
  Obs.requests (Rt.Print text :: tr) = Obs.requests tr.
Proof. reflexivity. Qed.

Lemma sleeps_print {Rq : Type} text (tr : list (Rt.action Rq)) :
  Obs.sleeps (Rt.Print text :: tr) = Obs.sleeps tr.
Proof. reflexivity. Qed.

Lemma prints_print {Rq : Type} text (tr : list (Rt.action Rq)) :
  Obs.prints (Rt.Print text :: tr) = text :: Obs.prints tr.
Proof. reflexivity. Qed.

Lemma getitem_run {Rq Resp} r k (w : Rt.world Rq Resp) d v :
  Rt.heap w !! r = Some d -> Py.dict_get k d = Some v ->
  Rt.getitem r k w = (Rt.Done v, w).
Proof.
  intros Hd Hk. unfold Rt.getitem.
  rewrite (bind_done _ _ _ _ _ (deref_run r w d Hd)), Hk. reflexivity.
Qed.

(** What a retry loop does to the trace is to add to it. *)
Lemma genai_attempts_extends step_name prompt model_name tools todo :
  forall w : Rt.world Genai.request Genai.response,
    exists tr, Rt.trace (snd (Genai.attempts step_name prompt model_name tools todo w))
               = (Rt.trace w ++ tr)%list.
Proof.
  induction todo as [|a rest IH]; intros w.
  - rewrite genai_attempts_nil. eexists. reflexivity.
  - destruct (Obs.throttled w (Obs.genai_request prompt model_name tools) 0) eqn:E.
    + rewrite genai_attempt_throttled by exact E.
      destruct (IH (Obs.advance w (Rt.stdin w) 1
                      (Obs.throttled_attempt (Obs.genai_request prompt model_name tools) a)))
        as (tr & ->).
      cbn [Obs.advance Rt.trace]. rewrite <- app_assoc. eexists. reflexivity.
    + destruct (genai_attempt_settles step_name prompt model_name tools a rest w E)
        as (s & extra & -> & _). eexists. reflexivity.
Qed.

Lemma adk_attempts_extends a prompt step_name todo :
  forall w : Rt.world Adk.request (list Adk.event),
    exists tr, Rt.trace (snd (Adk.attempts (a, "football_app_" ++ Adk.name a)
                                prompt step_name todo w))
               = (Rt.trace w ++ tr)%list.
Proof.
  induction todo as [|att rest IH]; intros w.
  - rewrite adk_attempts_nil. eexists. reflexivity.
  - destruct (Obs.throttled w (Obs.adk_request a prompt) 0) eqn:E.
    + rewrite adk_attempt_throttled by exact E.
      destruct (IH (Obs.advance w (Rt.stdin w) 1
                      (Obs.throttled_attempt (Obs.adk_request a prompt) att)))
        as (tr & ->).
      cbn [Obs.advance Rt.trace]. rewrite <- app_assoc. eexists. reflexivity.
    + destruct (adk_attempt_settles a prompt step_name att rest w E)
        as (s & extra & -> & _). eexists. reflexivity.
Qed.

(** A stage executor, by the number [k] of throttled attempts it starts
    with; the first thing it does is to print its banner. *)
Lemma genai_stage_run step_name prompt model_name tools
    (w : Rt.world Genai.request Genai.response) :
  exists s k tr,
    (k <= 5)%nat
    /\ Genai.run_step step_name prompt model_name tools w
       = (Rt.Done s, Obs.advance w (Rt.stdin w) (Nat.min (S k) 5)
                       (Rt.Print (Py.nl ++ "--- " ++ step_name ++ " ---") :: tr))
    /\ Obs.requests tr
       = replicate (Nat.min (S k) 5) (Obs.genai_request prompt model_name tools)
    /\ Obs.sleeps tr = take k Obs.schedule
    /\ Obs.prompts tr = [].
Proof.
  destruct (genai_run_step_run step_name prompt model_name tools w)
    as (s & tr & Hrun & Hreq & Hsl & Hp & _).
  pose proof (genai_run_step_after step_name prompt model_name tools w 0
                ltac:(lia) ltac:(intros i Hi; lia)) as Hafter.
  rewrite drop_0, take_0 in Hafter. cbn [map concat] in Hafter.
  destruct (genai_attempts_extends step_name prompt model_name tools (map Z.of_nat (seq 0 5))
              (Obs.advance w (Rt.stdin w) 0 [Rt.Print (Py.nl ++ "--- " ++ step_name ++ " ---")]))
    as (tr2 & Htr2).
  rewrite <- Hafter, Hrun in Htr2. cbn [snd Obs.advance Rt.trace] in Htr2.
  rewrite <- app_assoc in Htr2. apply app_inv_head in Htr2. subst tr.
  exists s, (Obs.streak w (Obs.genai_request prompt model_name tools) 0 5), tr2.
  split; [apply streak_le|]. repeat split; assumption.
Qed.

Lemma adk_stage_run a prompt step_name (w : Rt.world Adk.request (list Adk.event)) :
  exists s k tr,
    (k <= 5)%nat
    /\ Adk.run_agent_safe a prompt step_name w
       = (Rt.Done s, Obs.advance w (Rt.stdin w) (Nat.min (S k) 5)
                       (Rt.Print (Py.nl ++ "--- " ++ step_name ++ " ---") :: tr))
    /\ Obs.requests tr = replicate (Nat.min (S k) 5) (Obs.adk_request a prompt)
    /\ Obs.sleeps tr = take k Obs.schedule
    /\ Obs.prompts tr = [].
Proof.
  destruct (adk_run_agent_safe_run a prompt step_name w)
    as (s & tr & Hrun & Hreq & Hsl & Hp & _).
  pose proof (adk_run_agent_safe_after a prompt step_name w 0
                ltac:(lia) ltac:(intros i Hi; lia)) as Hafter.
  rewrite drop_0, take_0 in Hafter. cbn [map concat] in Hafter.
  destruct (adk_attempts_extends a prompt step_name (map Z.of_nat (seq 0 5))
              (Obs.advance w (Rt.stdin w) 0 [Rt.Print (Py.nl ++ "--- " ++ step_name ++ " ---")]))
    as (tr2 & Htr2).
  rewrite <- Hafter, Hrun in Htr2. cbn [snd Obs.advance Rt.trace] in Htr2.
  rewrite <- app_assoc in Htr2. apply app_inv_head in Htr2. subst tr.
  exists s, (Obs.streak w (Obs.adk_request a prompt) 0 5), tr2.
  split; [apply streak_le|]. repeat split; assumption.
Qed.

(** Stage 1 of football_system.py on the dict a collector has built. *)
Lemma genai_retrieve_run user_reqs choice a1 a2 a3 a4
    (w : Rt.world Genai.request Genai.response) :
  choice = "player" \/ choice = "coach" ->
  Rt.heap w !! user_reqs = Some (Obs.requirements_of choice a1 a2 a3 a4) ->
  exists data k tr,
    (k <= 5)%nat
    /\ Genai.retrieve user_reqs w
       = (Rt.Done data, Obs.advance w (Rt.stdin w) (Nat.min (S k) 5) tr)
    /\ Obs.requests tr
       = replicate (Nat.min (S k) 5)
           (Obs.genai_request (Flow.genai_search_prompt choice a1 a2 a3 a4)
              Genai.default_model (Some Genai.google_search_tool))
    /\ Obs.sleeps tr = take k Obs.schedule
    /\ Obs.prompts tr = [].
Proof.
  intros Hc Hd. unfold Genai.retrieve.
  rewrite (bind_done _ _ _ _ _ (deref_run _ _ _ Hd)).
  rewrite (bind_done _ _ _ _ _ (print_run _ _)).
  set (w1 := Obs.advance w _ _ _).
  assert (Hd1 : Rt.heap w1 !! user_reqs = Some (Obs.requirements_of choice a1 a2 a3 a4))
    by exact Hd.
  assert (Hget : forall k v,
             Py.dict_get k (Obs.requirements_of choice a1 a2 a3 a4) = Some v ->
             Rt.getitem user_reqs k w1 = (Rt.Done v, w1))
    by (intros k v; apply getitem_run; exact Hd1).
  destruct Hc as [-> | ->].
  - rewrite (bind_done _ _ _ _ _ (Hget "type" "player" eq_refl)).
    take_branch.
    erewrite bind_done.
    2:{ rewrite (bind_done _ _ _ _ _ (Hget "position" _ eq_refl)).
        rewrite (bind_done _ _ _ _ _ (Hget "age_range" _ eq_refl)).
        rewrite (bind_done _ _ _ _ _ (Hget "experience" _ eq_refl)).
        rewrite (bind_done _ _ _ _ _ (Hget "style" _ eq_refl)). reflexivity. }
    destruct (genai_stage_run "Step 2: Retrieving Data"
                (Genai.player_search_prompt (Py.strip a1) (Py.strip a2) (Py.strip a3)
                   (Py.strip a4))
                Genai.default_model (Some Genai.google_search_tool) w1)
      as (data & k & tr & Hk & -> & Hreq & Hsl & Hp).
    exists data, k. eexists. split; [exact Hk|].
    split; [subst w1; rewrite advance_advance; reflexivity|].
    rewrite requests_app, sleeps_app, prompts_app.
    repeat split; assumption.
  - rewrite (bind_done _ _ _ _ _ (Hget "type" "coach" eq_refl)).
    take_branch.
    erewrite bind_done.
    2:{ rewrite (bind_done _ _ _ _ _ (Hget "style" _ eq_refl)).
        rewrite (bind_done _ _ _ _ _ (Hget "experience" _ eq_refl)).
        rewrite (bind_done _ _ _ _ _ (Hget "age_range" _ eq_refl)).
        rewrite (bind_done _ _ _ _ _ (Hget "focus" _ eq_refl)). reflexivity. }
    destruct (genai_stage_run "Step 2: Retrieving Data"
                (Genai.coach_search_prompt (Py.strip a1) (Py.strip a2) (Py.strip a3)
                   (Py.strip a4))
                Genai.default_model (Some Genai.google_search_tool) w1)
      as (data & k & tr & Hk & -> & Hreq & Hsl & Hp).
    exists data, k. eexists. split; [exact Hk|].
    split; [subst w1; rewrite advance_advance; reflexivity|].
    rewrite requests_app, sleeps_app, prompts_app.
    repeat split; assumption.
Qed.

(** The rest of [main] in football_system.py, for any [data_output]. *)
Lemma genai_score_and_rank_run user_reqs d data
    (w1 : Rt.world Genai.request Genai.response) :
  Rt.heap w1 !! user_reqs = Some d ->
  exists scored final k2 k3 tr,
    (k2 <= 5)%nat /\ (k3 <= 5)%nat
    /\ Genai.score_and_rank user_reqs data w1
       = (Rt.Done tt,
          Obs.advance w1 (Rt.stdin w1) (Nat.min (S k2) 5 + Nat.min (S k3) 5) tr)
    /\ Obs.requests tr
       = (replicate (Nat.min (S k2) 5)
            (Obs.genai_request (Genai.scoring_prompt_text d data) Genai.default_model None)
          ++ replicate (Nat.min (S k3) 5)
               (Obs.genai_request (Genai.ranking_prompt_text scored)
                  Genai.default_model None))%list
    /\ Obs.sleeps tr = (take k2 Obs.schedule ++ take k3 Obs.schedule)%list
    /\ Obs.prompts tr = []
    /\ take 2 (Obs.prints tr)
       = ["search result received";
          if negb (Py.truthy data) || Py.contains "No text response" data
          then "Warning: Search failed to return useful text. The system might hallucinate or fail."
          else Py.nl ++ "--- Step 3: Scoring Candidates ---"]
    /\ last tr = Some (Rt.Print final)
    /\ let wa := Obs.advance w1 (Rt.stdin w1) 0
                   (Rt.Print "search result received"
                    :: (if negb (Py.truthy data) || Py.contains "No text response" data
                        then [Rt.Print "Warning: Search failed to return useful text. The system might hallucinate or fail."]
                        else [])) in
       let s2 := Genai.run_step "Step 3: Scoring Candidates" (Genai.scoring_prompt_text d data)
                   Genai.default_model None wa in
       let wb := Obs.advance (snd s2) (Rt.stdin (snd s2)) 0 [Rt.Print scored] in
       let s3 := Genai.run_step "Step 4: Final Recommendations"
                   (Genai.ranking_prompt_text scored) Genai.default_model None wb in
       fst s2 = Rt.Done scored /\ fst s3 = Rt.Done final
       /\ Genai.score_and_rank user_reqs data w1
          = (Rt.Done tt,
             Obs.advance (snd s3) (Rt.stdin (snd s3)) 0
               [Rt.Print (Py.nl ++ Py.repeat_str "=" 30); Rt.Print "FINAL RECOMMENDATIONS";
                Rt.Print (Py.repeat_str "=" 30); Rt.Print final]).
Proof.
  intros Hd.
  destruct (genai_stage_run "Step 3: Scoring Candidates" (Genai.scoring_prompt_text d data)
              Genai.default_model None
              (Obs.advance w1 (Rt.stdin w1) 0
                 (Rt.Print "search result received"
                  :: (if negb (Py.truthy data) || Py.contains "No text response" data
                      then [Rt.Print "Warning: Search failed to return useful text. The system might hallucinate or fail."]
                      else []))))
    as (scored & k2 & tr2 & Hk2 & Hrun2 & Hreq2 & Hsl2 & Hp2).
  match type of Hrun2 with _ = (_, ?w2) =>
    destruct (genai_stage_run "Step 4: Final Recommendations"
                (Genai.ranking_prompt_text scored) Genai.default_model None
                (Obs.advance w2 (Rt.stdin w2) 0 [Rt.Print scored]))
      as (final & k3 & tr3 & Hk3 & Hrun3 & Hreq3 & Hsl3 & Hp3)
  end.
  pose proof (genai_score_and_rank_chain user_reqs d data _ _ _ scored final Hd Hrun2 Hrun3)
    as Hchain.
  exists scored, final, k2, k3. eexists.
  split; [exact Hk2|]. split; [exact Hk3|].
  split.
  { rewrite Hchain. cbn [Obs.advance Rt.stdin]. rewrite !advance_advance.
    f_equal. f_equal. lia. }
  assert (Hstages :
    fst (Genai.run_step "Step 3: Scoring Candidates" (Genai.scoring_prompt_text d data)
           Genai.default_model None
           (Obs.advance w1 (Rt.stdin w1) 0
              (Rt.Print "search result received"
               :: (if negb (Py.truthy data) || Py.contains "No text response" data
                   then [Rt.Print "Warning: Search failed to return useful text. The system might hallucinate or fail."]
                   else [])))) = Rt.Done scored) by now rewrite Hrun2.
  split; [|split; [|split; [|split; [|split]]]].
  6:{ cbn zeta. rewrite Hrun2. cbn [fst snd]. rewrite Hrun3. cbn [fst snd].
      split; [reflexivity|]. split; [reflexivity|]. exact Hchain. }
  all: clear Hstages Hchain Hrun2 Hrun3.
  all: set (cond := negb (Py.truthy data) || Py.contains "No text response" data).
  all: rewrite ?last_app;
    repeat (rewrite ?requests_app, ?sleeps_app, ?prompts_app, ?prints_app,
              ?requests_print, ?sleeps_print, ?prompts_print, ?prints_print);
    rewrite ?Hreq2, ?Hsl2, ?Hp2, ?Hreq3, ?Hsl3, ?Hp3;
    destruct cond;
    cbn [Obs.requests Obs.sleeps Obs.prompts Obs.prints omap list_omap app take last];
    rewrite ?app_nil_r; reflexivity.
Qed.

(** X1.  football_system.py, once the requirements are collected: [main]
    always returns.  What it sends is, in this order, the Stage 1 request
    (search tool on, prompt built from the stripped answers), the Stage 2
    request, whose prompt holds the dict and what Stage 1 returned, and
    the Stage 3 request, whose prompt holds what Stage 2 returned; each
    between one and five times, with the waits of the schedule in
    between.  It asks the operator nothing more, and the last thing it
    prints is what Stage 3 returned.  [data], [scored] and [final] are
    the values that the three stages of this very run return: Stage 2 is
    [run_step] in the world Stage 1 and the two lines after it left,
    Stage 3 is [run_step] in the world Stage 2 and the print of its
    result left, and [main] ends in the world Stage 3 left, after the
    four closing lines. *)
Theorem genai_stages_in_order :
  forall (w w0 : Rt.world Genai.request Genai.response) user_reqs,
    Genai.collect_user_requirements w = (Rt.Done user_reqs, w0) ->
    exists line a1 a2 a3 a4 data scored final k1 k2 k3 tr,
      let d := Obs.requirements_of (Obs.normalize line) a1 a2 a3 a4 in
      Obs.accepted line = true
      /\ Rt.heap w0 !! user_reqs = Some d
      /\ (k1 <= 5)%nat /\ (k2 <= 5)%nat /\ (k3 <= 5)%nat
      /\ fst (Genai.retrieve user_reqs w0) = Rt.Done data
      /\ Genai.main w
         = (Rt.Done tt,
            Obs.advance w0 (Rt.stdin w0)
              (Nat.min (S k1) 5 + Nat.min (S k2) 5 + Nat.min (S k3) 5) tr)
      /\ Obs.requests tr
         = (replicate (Nat.min (S k1) 5)
              (Obs.genai_request (Flow.genai_search_prompt (Obs.normalize line) a1 a2 a3 a4)
                 Genai.default_model (Some Genai.google_search_tool))
            ++ replicate (Nat.min (S k2) 5)
                 (Obs.genai_request (Genai.scoring_prompt_text d data)
                    Genai.default_model None)
            ++ replicate (Nat.min (S k3) 5)
                 (Obs.genai_request (Genai.ranking_prompt_text scored)
                    Genai.default_model None))%list
      /\ Obs.sleeps tr
         = (take k1 Obs.schedule ++ take k2 Obs.schedule ++ take k3 Obs.schedule)%list
      /\ Obs.prompts tr = []
      /\ last tr = Some (Rt.Print final)
      /\ let w1 := snd (Genai.retrieve user_reqs w0) in
         let wa := Obs.advance w1 (Rt.stdin w1) 0
                     (Rt.Print "search result received"
                      :: (if negb (Py.truthy data) || Py.contains "No text response" data
                          then [Rt.Print "Warning: Search failed to return useful text. The system might hallucinate or fail."]
                          else [])) in
         let s2 := Genai.run_step "Step 3: Scoring Candidates"
                     (Genai.scoring_prompt_text d data) Genai.default_model None wa in
         let wb := Obs.advance (snd s2) (Rt.stdin (snd s2)) 0 [Rt.Print scored] in
         let s3 := Genai.run_step "Step 4: Final Recommendations"
                     (Genai.ranking_prompt_text scored) Genai.default_model None wb in
         fst s2 = Rt.Done scored /\ fst s3 = Rt.Done final
         /\ Genai.main w
            = (Rt.Done tt,
               Obs.advance (snd s3) (Rt.stdin (snd s3)) 0
                 [Rt.Print (Py.nl ++ Py.repeat_str "=" 30); Rt.Print "FINAL RECOMMENDATIONS";
                  Rt.Print (Py.repeat_str "=" 30); Rt.Print final]).
Proof.
  intros w w0 user_reqs Hc.
  destruct (genai_collect_returns _ _ _ Hc) as (line & a1 & a2 & a3 & a4 & Ha & Hr & Hh).
  assert (Hd : Rt.heap w0 !! user_reqs
               = Some (Obs.requirements_of (Obs.normalize line) a1 a2 a3 a4))
    by (rewrite Hh, Hr; apply list_lookup_middle; reflexivity).
  destruct (genai_retrieve_run user_reqs (Obs.normalize line) a1 a2 a3 a4 w0
              (member_choice _ Ha) Hd)
    as (data & k1 & tr1 & Hk1 & Hrun1 & Hreq1 & Hsl1 & Hp1).
  destruct (genai_score_and_rank_run user_reqs _ data
              (Obs.advance w0 (Rt.stdin w0) (Nat.min (S k1) 5) tr1) Hd)
    as (scored & final & k2 & k3 & tr2 & Hk2 & Hk3 & Hrun2 & Hreq2 & Hsl2 & Hp2 & _
        & Hlast & Hstages).
  exists line, a1, a2, a3, a4, data, scored, final, k1, k2, k3, (tr1 ++ tr2)%list.
  cbn zeta. split; [exact Ha|]. split; [exact Hd|].
  split; [exact Hk1|]. split; [exact Hk2|]. split; [exact Hk3|].
  split; [now rewrite Hrun1|].
  assert (Hmain : Genai.main w
                  = Genai.score_and_rank user_reqs data
                      (Obs.advance w0 (Rt.stdin w0) (Nat.min (S k1) 5) tr1))
    by (unfold Genai.main;
        now rewrite (bind_done _ _ _ _ _ Hc), (bind_done _ _ _ _ _ Hrun1)).
  split.
  { rewrite Hmain, Hrun2.
    cbn [Obs.advance Rt.stdin]. rewrite advance_advance. f_equal. f_equal. lia. }
  rewrite requests_app, sleeps_app, prompts_app, last_app, Hlast.
  rewrite Hreq1, Hreq2, Hsl1, Hsl2, Hp1, Hp2.
  split; [reflexivity|]. split; [reflexivity|]. split; [reflexivity|].
  split; [reflexivity|].
  rewrite Hrun1, Hmain. cbn [snd]. exact Hstages.
Qed.

(** A player run against a backend that is busy once: four requests, one
    wait, and [main] returns. *)
Lemma genai_stages_in_order_witness :
  exists tr,
    fst (Genai.main (Samples.genai_world Samples.player_lines Samples.genai_busy_once))
    = Rt.Done tt
    /\ Rt.trace (snd (Genai.main
         (Samples.genai_world Samples.player_lines Samples.genai_busy_once)))
       = (Rt.trace (snd (Genai.collect_user_requirements
            (Samples.genai_world Samples.player_lines Samples.genai_busy_once))) ++ tr)%list
    /\ Obs.prompts tr = [].
Proof.
  destruct (genai_stages_in_order
              (Samples.genai_world Samples.player_lines Samples.genai_busy_once)
              (snd (Genai.collect_user_requirements
                      (Samples.genai_world Samples.player_lines Samples.genai_busy_once)))
              0%nat ltac:(vm_compute; reflexivity))
    as (line & a1 & a2 & a3 & a4 & data & scored & final & k1 & k2 & k3 & tr
        & _ & _ & _ & _ & _ & _ & -> & _ & _ & Hp & _).
  exists tr. split; [reflexivity|]. split; [reflexivity | exact Hp].
Defined.

(** X2.  football_system.py after Stage 1, whatever Stage 1 returned:
    "search result received" is printed, then the warning exactly when the
    result is empty or holds "No text response" (so also for the sentinel
    of [run_step]), and in either case Stage 2 and Stage 3 are run, Stage 2
    on that very result. *)
Theorem genai_search_warning :
  forall (w1 : Rt.world Genai.request Genai.response) user_reqs d data,
    Rt.heap w1 !! user_reqs = Some d ->
    exists scored n2 n3 tr,
      Genai.score_and_rank user_reqs data w1
      = (Rt.Done tt, Obs.advance w1 (Rt.stdin w1) (n2 + n3) tr)
      /\ (1 <= n2 <= 5)%nat /\ (1 <= n3 <= 5)%nat
      /\ Obs.requests tr
         = (replicate n2
              (Obs.genai_request (Genai.scoring_prompt_text d data) Genai.default_model None)
            ++ replicate n3
                 (Obs.genai_request (Genai.ranking_prompt_text scored)
                    Genai.default_model None))%list
      /\ take 2 (Obs.prints tr)
         = ["search result received";
            if negb (Py.truthy data) || Py.contains "No text response" data
            then "Warning: Search failed to return useful text. The system might hallucinate or fail."
            else Py.nl ++ "--- Step 3: Scoring Candidates ---"].
Proof.
  intros w1 user_reqs d data Hd.
  destruct (genai_score_and_rank_run user_reqs d data w1 Hd)
    as (scored & final & k2 & k3 & tr & Hk2 & Hk3 & Hrun & Hreq & _ & _ & Hpr & _).
  exists scored, (Nat.min (S k2) 5), (Nat.min (S k3) 5), tr.
  repeat split; try assumption; lia.
Qed.

(** The sentinel draws the warning; a real answer does not. *)
Lemma genai_search_warning_witness :
  (exists (scored : string) n2 n3 tr,
     Genai.score_and_rank 0 "No text response generated."
       (Rt.World [] [Obs.requirements_of "coach" "a" "b" "c" "d"]
          Samples.genai_always_broken 1 [])
     = (Rt.Done tt,
        Obs.advance (Rt.World [] [Obs.requirements_of "coach" "a" "b" "c" "d"]
                       Samples.genai_always_broken 1 []) [] (n2 + n3) tr)
     /\ Obs.requests tr
        = (replicate n2
             (Obs.genai_request
                (Genai.scoring_prompt_text (Obs.requirements_of "coach" "a" "b" "c" "d")
                   "No text response generated.") Genai.default_model None)
           ++ replicate n3
                (Obs.genai_request (Genai.ranking_prompt_text scored)
                   Genai.default_model None))%list
     /\ take 2 (Obs.prints tr)
        = ["search result received";
           "Warning: Search failed to return useful text. The system might hallucinate or fail."])
  /\ (exists (scored : string) n2 n3 tr,
     Genai.score_and_rank 0 "Candidates: A, B, C"
       (Rt.World [] [Obs.requirements_of "coach" "a" "b" "c" "d"]
          Samples.genai_always_broken 1 [])
     = (Rt.Done tt,
        Obs.advance (Rt.World [] [Obs.requirements_of "coach" "a" "b" "c" "d"]
                       Samples.genai_always_broken 1 []) [] (n2 + n3) tr)
     /\ take 2 (Obs.prints tr)
        = ["search result received"; Py.nl ++ "--- Step 3: Scoring Candidates ---"]).
Proof.
  split.
  - destruct (genai_search_warning
                (Rt.World [] [Obs.requirements_of "coach" "a" "b" "c" "d"]
                   Samples.genai_always_broken 1 [])
                0%nat _ "No text response generated." eq_refl)
      as (scored & n2 & n3 & tr & Hrun & _ & _ & Hreq & Hpr).
    exists scored, n2, n3, tr. split; [exact Hrun|]. split; [exact Hreq | exact Hpr].
  - destruct (genai_search_warning
                (Rt.World [] [Obs.requirements_of "coach" "a" "b" "c" "d"]
                   Samples.genai_always_broken 1 [])
                0%nat _ "Candidates: A, B, C" eq_refl)
      as (scored & n2 & n3 & tr & Hrun & _ & _ & _ & Hpr).
    exists scored, n2, n3, tr. split; [exact Hrun | exact Hpr].
Defined.

Lemma flush_run {Rq Resp} (w : Rt.world Rq Resp) :
  Rt.flush w = (Rt.Done tt, Obs.advance w (Rt.stdin w) 0 [Rt.Flush]).
Proof. unfold Rt.flush, Rt.emit. f_equal. same_world. Qed.

Lemma adk_print_items_run items : forall w : Rt.world Adk.request (list Adk.event),
  Adk.print_items items w
  = (Rt.Done tt,
     Obs.advance w (Rt.stdin w) 0 (map (fun kv => Rt.Print (Flow.item_line kv)) items)).
Proof.
  induction items as [|[key value] rest IH]; intros w; cbn [Adk.print_items map].
  - unfold Rt.ret. now rewrite advance_id.
  - rewrite (bind_done _ _ _ _ _ (print_run _ _)), IH.
    cbn [Obs.advance Rt.stdin]. rewrite advance_advance. reflexivity.
Qed.

Lemma adk_print_structured_requirements_run reqs d
    (w : Rt.world Adk.request (list Adk.event)) :
  Rt.heap w !! reqs = Some d ->
  Adk.print_structured_requirements reqs w
  = (Rt.Done tt,
     Obs.advance w (Rt.stdin w) 0
       ([Rt.Print (Py.nl ++ Py.repeat_str "=" 40)%string;
         Rt.Print " PLAYER / COACH REQUIREMENTS"; Rt.Print (Py.repeat_str "=" 40)]
        ++ map (fun kv => Rt.Print (Flow.item_line kv)) d
        ++ [Rt.Print (Py.repeat_str "=" 40 ++ Py.nl)%string; Rt.Flush])%list).
Proof.
  intros Hd. unfold Adk.print_structured_requirements.
  rewrite (bind_done _ _ _ _ _ (print_run _ _)).
  rewrite (bind_done _ _ _ _ _ (print_run _ _)).
  rewrite (bind_done _ _ _ _ _ (print_run _ _)).
  rewrite !advance_advance.
  rewrite (bind_done _ _ _ _ _ (deref_run reqs (Obs.advance w _ _ _) d Hd)).
  rewrite (bind_done _ _ _ _ _ (adk_print_items_run _ _)).
  rewrite (bind_done _ _ _ _ _ (print_run _ _)).
  rewrite flush_run.
  cbn [Obs.advance Rt.stdin]. rewrite !advance_advance.
  rewrite <- ?app_assoc. reflexivity.
Qed.

Lemma length_map_chars f s : String.length (Py.map_chars f s) = String.length s.
Proof. induction s as [|c s IH]; cbn; [reflexivity | now rewrite IH]. Qed.

Lemma length_capitalize s : String.length (Py.capitalize s) = String.length s.
Proof.
  destruct s as [|c r]; [reflexivity|].
  unfold Py.capitalize, Py.lower. cbn [String.length]. now rewrite length_map_chars.
Qed.

Lemma length_append s t : String.length (s ++ t) = (String.length s + String.length t)%nat.
Proof.
  induction s as [|c s IH]; [reflexivity|].
  change (String c s ++ t) with (String c (s ++ t)). cbn [String.length Nat.add].
  now rewrite IH.
Qed.

Lemma length_repeat_space n : String.length (Py.repeat_str " " n) = n.
Proof.
  induction n as [|n IH]; [reflexivity|].
  change (Py.repeat_str " " (S n)) with (String " " (Py.repeat_str " " n)).
  cbn [String.length]. now rewrite IH.
Qed.

Lemma length_ljust width s :
  String.length (Py.ljust width s) = Nat.max width (String.length s).
Proof.
  unfold Py.ljust. rewrite length_append, length_repeat_space. lia.
Qed.

(** X3.  [print_structured_requirements] on a dict prints three header
    lines, one line per item in the order of insertion, a closing line,
    and flushes.  The line of an item is its key, capitalised and padded
    with spaces to 15 characters (longer keys are kept whole), then a
    colon, a space and the value as it is. *)
Theorem structured_requirements_lines :
  forall (w : Rt.world Adk.request (list Adk.event)) reqs d,
    Rt.heap w !! reqs = Some d ->
    exists tr,
      Adk.print_structured_requirements reqs w
      = (Rt.Done tt, Obs.advance w (Rt.stdin w) 0 tr)
      /\ Obs.prints tr
         = ([(Py.nl ++ Py.repeat_str "=" 40)%string; " PLAYER / COACH REQUIREMENTS";
             Py.repeat_str "=" 40]
            ++ map Flow.item_line d ++ [(Py.repeat_str "=" 40 ++ Py.nl)%string])%list
      /\ last tr = Some Rt.Flush
      /\ Obs.prompts tr = [] /\ Obs.requests tr = []
      /\ (forall key value,
            exists padded,
              Flow.item_line (key, value) = padded ++ ": " ++ value
              /\ String.length padded = Nat.max 15 (String.length key)).
Proof.
  intros w reqs d Hd. rewrite (adk_print_structured_requirements_run reqs d w Hd).
  eexists. split; [reflexivity|].
  assert (Hpr : forall items : Py.dict,
             Obs.prints (Rq := Adk.request) (map (fun kv => Rt.Print (Flow.item_line kv)) items)
             = map Flow.item_line items)
    by (induction items as [|kv items IH]; cbn; [reflexivity | now f_equal]).
  assert (Hno : forall items : Py.dict,
             Obs.prompts (Rq := Adk.request) (map (fun kv => Rt.Print (Flow.item_line kv)) items) = []
             /\ Obs.requests (Rq := Adk.request)
                  (map (fun kv => Rt.Print (Flow.item_line kv)) items) = [])
    by (induction items as [|kv items [IH1 IH2]]; cbn; auto).
  destruct (Hno d) as [Hn1 Hn2].
  rewrite !prints_app, !prompts_app, !requests_app, Hpr, Hn1, Hn2, !last_app.
  repeat split.
  intros key value. exists (Py.ljust 15 (Py.capitalize key)).
  split; [reflexivity|]. now rewrite length_ljust, length_capitalize.
Qed.

(** The dict of the sample coach run: five aligned lines. *)
Lemma structured_requirements_lines_witness :
  exists tr,
    Adk.print_structured_requirements 0
      (snd (Adk.collect_user_requirements
              (Samples.adk_world Samples.coach_lines Samples.adk_always_busy)))
    = (Rt.Done tt,
       Obs.advance (snd (Adk.collect_user_requirements
                           (Samples.adk_world Samples.coach_lines Samples.adk_always_busy)))
         [] 0 tr)
    /\ Obs.prints tr
       = [Py.nl ++ Py.repeat_str "=" 40; " PLAYER / COACH REQUIREMENTS"; Py.repeat_str "=" 40;
          "Type           : coach"; "Style          : Defensive";
          "Experience     : 5+ years"; "Age_range      : 40-50";
          "Focus          : Youth Dev"; Py.repeat_str "=" 40 ++ Py.nl].
Proof.
  destruct (structured_requirements_lines
              (snd (Adk.collect_user_requirements
                      (Samples.adk_world Samples.coach_lines Samples.adk_always_busy)))
              0%nat _ ltac:(vm_compute; reflexivity))
    as (tr & Hrun & Hpr & _).
  exists tr. split; [exact Hrun|]. rewrite Hpr. vm_compute. reflexivity.
Defined.

Lemma item_lines_silent {Rq : Type} (items : Py.dict) :
  Obs.requests (Rq := Rq) (map (fun kv => Rt.Print (Flow.item_line kv)) items) = []
  /\ Obs.sleeps (Rq := Rq) (map (fun kv => Rt.Print (Flow.item_line kv)) items) = []
  /\ Obs.prompts (Rq := Rq) (map (fun kv => Rt.Print (Flow.item_line kv)) items) = [].
Proof. induction items as [|kv items IH]; [done | exact IH]. Qed.

(** Stage 1 of football_system_adk.py on the dict a collector has built. *)
Lemma adk_retrieve_run user_reqs choice a1 a2 a3 a4
    (w : Rt.world Adk.request (list Adk.event)) :
  choice = "player" \/ choice = "coach" ->
  Rt.heap w !! user_reqs = Some (Obs.requirements_of choice a1 a2 a3 a4) ->
  exists data k tr,
    (k <= 5)%nat
    /\ Adk.retrieve user_reqs w
       = (Rt.Done data, Obs.advance w (Rt.stdin w) (Nat.min (S k) 5) tr)
    /\ Obs.requests tr
       = replicate (Nat.min (S k) 5)
           (Obs.adk_request Adk.data_agent (Flow.adk_search_prompt choice a1 a2 a3 a4))
    /\ Obs.sleeps tr = take k Obs.schedule
    /\ Obs.prompts tr = [].
Proof.
  intros Hc Hd. unfold Adk.retrieve.
  rewrite (bind_done _ _ _ _ _ (adk_print_structured_requirements_run user_reqs _ w Hd)).
  set (tr0 := (_ ++ _ ++ _)%list).
  assert (H0 : Obs.requests tr0 = [] /\ Obs.sleeps tr0 = [] /\ Obs.prompts tr0 = []).
  { subst tr0. rewrite !requests_app, !sleeps_app, !prompts_app.
    destruct (item_lines_silent (Rq := Adk.request) (Obs.requirements_of choice a1 a2 a3 a4))
      as (-> & -> & ->). done. }
  destruct H0 as (Hrq0 & Hsl0 & Hp0). clearbody tr0.
  set (w1 := Obs.advance w _ _ _).
  assert (Hget : forall k v,
             Py.dict_get k (Obs.requirements_of choice a1 a2 a3 a4) = Some v ->
             Rt.getitem user_reqs k w1 = (Rt.Done v, w1))
    by (intros k v; apply getitem_run; exact Hd).
  destruct Hc as [-> | ->].
  - rewrite (bind_done _ _ _ _ _ (Hget "type" "player" eq_refl)).
    take_branch.
    erewrite bind_done.
    2:{ rewrite (bind_done _ _ _ _ _ (Hget "position" _ eq_refl)).
        rewrite (bind_done _ _ _ _ _ (Hget "age_range" _ eq_refl)).
        rewrite (bind_done _ _ _ _ _ (Hget "experience" _ eq_refl)).
        rewrite (bind_done _ _ _ _ _ (Hget "style" _ eq_refl)). reflexivity. }
    destruct (adk_stage_run Adk.data_agent
                (Flow.adk_search_prompt "player" a1 a2 a3 a4) "Retrieving Data" w1)
      as (data & k & tr & Hk & Hrun & Hreq & Hsl & Hp).
    unfold Flow.adk_search_prompt in Hrun at 1. cbn [String.eqb Ascii.eqb Bool.eqb] in Hrun.
    rewrite Hrun.
    exists data, k. eexists. split; [exact Hk|].
    split; [subst w1; rewrite advance_advance; reflexivity|].
    rewrite requests_app, sleeps_app, prompts_app, requests_print, sleeps_print, prompts_print.
    rewrite Hrq0, Hsl0, Hp0. repeat split; assumption.
  - rewrite (bind_done _ _ _ _ _ (Hget "type" "coach" eq_refl)).
    take_branch.
    erewrite bind_done.
    2:{ rewrite (bind_done _ _ _ _ _ (Hget "style" _ eq_refl)).
        rewrite (bind_done _ _ _ _ _ (Hget "experience" _ eq_refl)).
        rewrite (bind_done _ _ _ _ _ (Hget "age_range" _ eq_refl)).
        rewrite (bind_done _ _ _ _ _ (Hget "focus" _ eq_refl)). reflexivity. }
    destruct (adk_stage_run Adk.data_agent
                (Flow.adk_search_prompt "coach" a1 a2 a3 a4) "Retrieving Data" w1)
      as (data & k & tr & Hk & Hrun & Hreq & Hsl & Hp).
    unfold Flow.adk_search_prompt in Hrun at 1. cbn [String.eqb Ascii.eqb Bool.eqb] in Hrun.
    rewrite Hrun.
    exists data, k. eexists. split; [exact Hk|].
    split; [subst w1; rewrite advance_advance; reflexivity|].
    rewrite requests_app, sleeps_app, prompts_app, requests_print, sleeps_print, prompts_print.
    rewrite Hrq0, Hsl0, Hp0. repeat split; assumption.
Qed.

Lemma truthy_empty s : Py.truthy s = false -> s = "".
Proof. unfold Py.truthy. intros H. apply negb_false_iff in H. now apply String.eqb_eq. Qed.

(** The rest of [main] in football_system_adk.py, for any [data_out]. *)
Lemma adk_score_and_rank_run user_reqs d data
    (w1 : Rt.world Adk.request (list Adk.event)) :
  Rt.heap w1 !! user_reqs = Some d ->
  exists score final k2 k3 tr,
    (k2 <= 5)%nat /\ (k3 <= 5)%nat
    /\ Adk.score_and_rank user_reqs data w1
       = (Rt.Done tt, Obs.advance w1 (Rt.stdin w1) (length (Obs.requests tr)) tr)
    /\ Obs.requests tr
       = (if Py.truthy data then
            replicate (Nat.min (S k2) 5)
              (Obs.adk_request Adk.scoring_agent (Flow.adk_scoring_prompt d data))
            ++ (if Py.truthy score then
                  replicate (Nat.min (S k3) 5)
                    (Obs.adk_request Adk.ranking_agent (Flow.adk_ranking_prompt score))
                else [])
          else [])%list
    /\ Obs.sleeps tr
       = (if Py.truthy data then
            take k2 Obs.schedule ++ (if Py.truthy score then take k3 Obs.schedule else [])
          else [])%list
    /\ Obs.prompts tr = []
    /\ (Py.truthy data && Py.truthy score = true -> last tr = Some (Rt.Print final))
    /\ (Py.truthy data = false -> tr = [])
    /\ (Py.truthy data = true ->
        let s2 := Adk.run_agent_safe Adk.scoring_agent (Flow.adk_scoring_prompt d data)
                    "Scoring Candidates" w1 in
        fst s2 = Rt.Done score
        /\ (Py.truthy score = true ->
            fst (Adk.run_agent_safe Adk.ranking_agent (Flow.adk_ranking_prompt score)
                   "Ranking & Recommendations" (snd s2)) = Rt.Done final)).
Proof.
  intros Hd. unfold Adk.score_and_rank.
  destruct (Py.truthy data) eqn:Hdata; cbn [negb].
  2:{ exists "", "", 0%nat, 0%nat, []. cbn. unfold Rt.ret.
      rewrite advance_id. repeat split; (lia || discriminate). }
  rewrite (bind_done _ _ _ _ _ (deref_run user_reqs w1 d Hd)).
  destruct (adk_stage_run Adk.scoring_agent (Flow.adk_scoring_prompt d data)
              "Scoring Candidates" w1)
    as (score & k2 & tr2 & Hk2 & Hrun2 & Hreq2 & Hsl2 & Hp2).
  pose proof Hrun2 as Hval2.
  unfold Flow.adk_scoring_prompt in Hrun2 at 1. rewrite (bind_done _ _ _ _ _ Hrun2).
  destruct (Py.truthy score) eqn:Hscore; cbn [negb].
  2:{ exists score, "", k2, 0%nat,
        (Rt.Print (Py.nl ++ "--- " ++ "Scoring Candidates" ++ " ---") :: tr2).
      split; [exact Hk2|]. split; [lia|].
      rewrite requests_print, sleeps_print, prompts_print, Hreq2, Hsl2, Hp2, Hscore.
      rewrite !app_nil_r, length_replicate. unfold Rt.ret.
      cbn zeta. rewrite Hval2. cbn [fst snd].
      repeat split; discriminate. }
  set (w2 := Obs.advance w1 _ _ _) in *.
  destruct (adk_stage_run Adk.ranking_agent (Flow.adk_ranking_prompt score)
              "Ranking & Recommendations" w2)
    as (final & k3 & tr3 & Hk3 & Hrun3 & Hreq3 & Hsl3 & Hp3).
  assert (Hvals :
    let s2 := Adk.run_agent_safe Adk.scoring_agent (Flow.adk_scoring_prompt d data)
                "Scoring Candidates" w1 in
    fst s2 = Rt.Done score
    /\ (Py.truthy score = true ->
        fst (Adk.run_agent_safe Adk.ranking_agent (Flow.adk_ranking_prompt score)
               "Ranking & Recommendations" (snd s2)) = Rt.Done final)).
  { cbn zeta. rewrite Hval2. cbn [fst snd]. split; [reflexivity|].
    intros _. now rewrite Hrun3. }
  clear Hval2.
  unfold Flow.adk_ranking_prompt in Hrun3 at 1. rewrite (bind_done _ _ _ _ _ Hrun3).
  rewrite (bind_done _ _ _ _ _ (print_run _ _)).
  rewrite (bind_done _ _ _ _ _ (print_run _ _)).
  rewrite (bind_done _ _ _ _ _ (print_run _ _)).
  rewrite print_run.
  subst w2. cbn [Obs.advance Rt.stdin]. rewrite !advance_advance.
  exists score, final, k2, k3.
  match goal with |- context [Obs.advance w1 (Rt.stdin w1) _ ?T] => exists T end.
  split; [exact Hk2|]. split; [exact Hk3|].
  rewrite !last_app.
  repeat (rewrite ?requests_app, ?sleeps_app, ?prompts_app,
            ?requests_print, ?sleeps_print, ?prompts_print).
  rewrite Hreq2, Hsl2, Hp2, Hreq3, Hsl3, Hp3.
  cbn [Obs.requests Obs.sleeps Obs.prompts omap list_omap app].
  rewrite !app_nil_r, length_app, !length_replicate.
  rewrite Hscore.
  split; [f_equal; f_equal; lia|].
  split; [reflexivity|]. split; [reflexivity|]. split; [reflexivity|].
  split; [reflexivity|]. split; [discriminate|].
  intros _. cbn zeta. split; [apply Hvals | intros _; apply Hvals; exact Hscore].
Qed.

(** [score_and_rank] is its stages and the closing lines. *)
Lemma adk_score_and_rank_chain user_reqs d data
    (w1 : Rt.world Adk.request (list Adk.event)) score :
  Rt.heap w1 !! user_reqs = Some d ->
  Py.truthy data = true ->
  let s2 := Adk.run_agent_safe Adk.scoring_agent (Flow.adk_scoring_prompt d data)
              "Scoring Candidates" w1 in
  fst s2 = Rt.Done score ->
  (Py.truthy score = false -> Adk.score_and_rank user_reqs data w1 = (Rt.Done tt, snd s2))
  /\ (forall final,
        Py.truthy score = true ->
        let s3 := Adk.run_agent_safe Adk.ranking_agent (Flow.adk_ranking_prompt score)
                    "Ranking & Recommendations" (snd s2) in
        fst s3 = Rt.Done final ->
        Adk.score_and_rank user_reqs data w1
        = (Rt.Done tt,
           Obs.advance (snd s3) (Rt.stdin (snd s3)) 0
             [Rt.Print (Py.nl ++ Py.repeat_str "=" 40); Rt.Print " FINAL RECOMMENDATIONS";
              Rt.Print (Py.repeat_str "=" 40); Rt.Print final])).
Proof.
  intros Hd Hdata s2 H2. subst s2.
  destruct (Adk.run_agent_safe Adk.scoring_agent (Flow.adk_scoring_prompt d data)
              "Scoring Candidates" w1) as [o2 w2] eqn:Hrun2.
  cbn [fst snd] in *. subst o2.
  unfold Adk.score_and_rank. rewrite Hdata. cbn [negb].
  rewrite (bind_done _ _ _ _ _ (deref_run user_reqs w1 d Hd)).
  unfold Flow.adk_scoring_prompt in Hrun2. rewrite (bind_done _ _ _ _ _ Hrun2).
  split.
  - intros ->. reflexivity.
  - intros final -> H3. cbn [negb].
    destruct (Adk.run_agent_safe Adk.ranking_agent (Flow.adk_ranking_prompt score)
                "Ranking & Recommendations" w2) as [o3 w3] eqn:Hrun3.
    cbn [fst snd] in *. subst o3.
    unfold Flow.adk_ranking_prompt in Hrun3. rewrite (bind_done _ _ _ _ _ Hrun3).
    rewrite (bind_done _ _ _ _ _ (print_run _ _)).
    rewrite (bind_done _ _ _ _ _ (print_run _ _)).
    rewrite (bind_done _ _ _ _ _ (print_run _ _)).
    rewrite print_run. cbn [Obs.advance Rt.stdin]. now rewrite !advance_advance.
Qed.

(** X4.  football_system_adk.py, once the requirements are collected:
    [main] always returns.  It sends the Stage 1 request one to five
    times; if Stage 1 returned text, the Stage 2 request, whose prompt
    holds the dict and that text, one to five times; and if Stage 2
    returned text too, the Stage 3 request, whose prompt holds that text,
    one to five times; nothing else, and in this order.  It asks the
    operator nothing more, and when all three stages have run, the last
    thing it prints is what Stage 3 returned.  [data], [score] and
    [final] are the values that the stages of this very run return:
    Stage 2 is [run_agent_safe] in the world Stage 1 left, Stage 3 is
    [run_agent_safe] in the world Stage 2 left, and [main] ends in the
    world Stage 1 left, or in the world Stage 2 left, or in the world
    Stage 3 left after the four closing lines. *)
Theorem adk_stages_in_order :
  forall (w w0 : Rt.world Adk.request (list Adk.event)) user_reqs,
    Adk.collect_user_requirements w = (Rt.Done user_reqs, w0) ->
    exists line a1 a2 a3 a4 data score final k1 k2 k3 tr,
      let d := Obs.requirements_of (Obs.normalize line) a1 a2 a3 a4 in
      Obs.accepted line = true
      /\ Rt.heap w0 !! user_reqs = Some d
      /\ (k1 <= 5)%nat /\ (k2 <= 5)%nat /\ (k3 <= 5)%nat
      /\ fst (Adk.retrieve user_reqs w0) = Rt.Done data
      /\ Adk.main w
         = (Rt.Done tt, Obs.advance w0 (Rt.stdin w0) (length (Obs.requests tr)) tr)
      /\ Obs.requests tr
         = (replicate (Nat.min (S k1) 5)
              (Obs.adk_request Adk.data_agent
                 (Flow.adk_search_prompt (Obs.normalize line) a1 a2 a3 a4))
            ++ (if Py.truthy data then
                  replicate (Nat.min (S k2) 5)
                    (Obs.adk_request Adk.scoring_agent (Flow.adk_scoring_prompt d data))
                  ++ (if Py.truthy score then
                        replicate (Nat.min (S k3) 5)
                          (Obs.adk_request Adk.ranking_agent (Flow.adk_ranking_prompt score))
                      else [])
                else []))%list
      /\ Obs.sleeps tr
         = (take k1 Obs.schedule
            ++ (if Py.truthy data then
                  take k2 Obs.schedule
                  ++ (if Py.truthy score then take k3 Obs.schedule else [])
                else []))%list
      /\ Obs.prompts tr = []
      /\ (Py.truthy data && Py.truthy score = true -> last tr = Some (Rt.Print final))
      /\ let w1 := snd (Adk.retrieve user_reqs w0) in
         (Py.truthy data = false -> Adk.main w = (Rt.Done tt, w1))
         /\ (Py.truthy data = true ->
             let s2 := Adk.run_agent_safe Adk.scoring_agent (Flow.adk_scoring_prompt d data)
                         "Scoring Candidates" w1 in
             fst s2 = Rt.Done score
             /\ (Py.truthy score = false -> Adk.main w = (Rt.Done tt, snd s2))
             /\ (Py.truthy score = true ->
                 let s3 := Adk.run_agent_safe Adk.ranking_agent
                             (Flow.adk_ranking_prompt score)
                             "Ranking & Recommendations" (snd s2) in
                 fst s3 = Rt.Done final
                 /\ Adk.main w
                    = (Rt.Done tt,
                       Obs.advance (snd s3) (Rt.stdin (snd s3)) 0
                         [Rt.Print (Py.nl ++ Py.repeat_str "=" 40);
                          Rt.Print " FINAL RECOMMENDATIONS";
                          Rt.Print (Py.repeat_str "=" 40); Rt.Print final]))).
Proof.
  intros w w0 user_reqs Hc.
  destruct (adk_collect_returns _ _ _ Hc) as (line & a1 & a2 & a3 & a4 & Ha & Hr & Hh).
  assert (Hd : Rt.heap w0 !! user_reqs
               = Some (Obs.requirements_of (Obs.normalize line) a1 a2 a3 a4))
    by (rewrite Hh, Hr; apply list_lookup_middle; reflexivity).
  destruct (adk_retrieve_run user_reqs (Obs.normalize line) a1 a2 a3 a4 w0
              (member_choice _ Ha) Hd)
    as (data & k1 & tr1 & Hk1 & Hrun1 & Hreq1 & Hsl1 & Hp1).
  destruct (adk_score_and_rank_run user_reqs _ data
              (Obs.advance w0 (Rt.stdin w0) (Nat.min (S k1) 5) tr1) Hd)
    as (score & final & k2 & k3 & tr2 & Hk2 & Hk3 & Hrun2 & Hreq2 & Hsl2 & Hp2 & Hlast
        & Hnil & Hvals).
  exists line, a1, a2, a3, a4, data, score, final, k1, k2, k3, (tr1 ++ tr2)%list.
  cbn zeta. split; [exact Ha|]. split; [exact Hd|].
  split; [exact Hk1|]. split; [exact Hk2|]. split; [exact Hk3|].
  split; [now rewrite Hrun1|].
  assert (Hmain : Adk.main w
                  = Adk.score_and_rank user_reqs data
                      (Obs.advance w0 (Rt.stdin w0) (Nat.min (S k1) 5) tr1))
    by (unfold Adk.main;
        now rewrite (bind_done _ _ _ _ _ Hc), (bind_done _ _ _ _ _ Hrun1)).
  rewrite requests_app, sleeps_app, prompts_app, Hreq1, Hsl1, Hp1, Hp2.
  split.
  { rewrite Hmain, Hrun2.
    cbn [Obs.advance Rt.stdin]. rewrite advance_advance.
    rewrite length_app, length_replicate. reflexivity. }
  rewrite Hreq2, Hsl2.
  split; [reflexivity|]. split; [reflexivity|]. split; [reflexivity|].
  split; [intros Hboth; rewrite last_app, (Hlast Hboth); reflexivity|].
  rewrite Hrun1, Hmain. cbn [snd]. split.
  - intros Hdata. rewrite Hrun2, (Hnil Hdata). cbn [Obs.requests omap list_omap length].
    now rewrite advance_id.
  - intros Hdata. destruct (Hvals Hdata) as [H2 H3]. cbn zeta in H2, H3.
    destruct (adk_score_and_rank_chain user_reqs _ data
                (Obs.advance w0 (Rt.stdin w0) (Nat.min (S k1) 5) tr1) score Hd Hdata H2)
      as [Hno Hyes].
    split; [exact H2|]. split; [exact Hno|].
    intros Hscore. split; [exact (H3 Hscore)|].
    exact (Hyes final Hscore (H3 Hscore)).
Qed.

(** A coach run against a backend that is busy once: four requests. *)
Lemma adk_stages_in_order_witness :
  exists tr,
    Adk.main (Samples.adk_world Samples.coach_lines Samples.adk_busy_once)
    = (Rt.Done tt,
       Obs.advance (snd (Adk.collect_user_requirements
                           (Samples.adk_world Samples.coach_lines Samples.adk_busy_once)))
         [] (length (Obs.requests tr)) tr)
    /\ Obs.prompts tr = [].
Proof.
  destruct (adk_stages_in_order
              (Samples.adk_world Samples.coach_lines Samples.adk_busy_once)
              (snd (Adk.collect_user_requirements
                      (Samples.adk_world Samples.coach_lines Samples.adk_busy_once)))
              0%nat ltac:(vm_compute; reflexivity))
    as (line & a1 & a2 & a3 & a4 & data & score & final & k1 & k2 & k3 & tr
        & _ & _ & _ & _ & _ & _ & Hrun & _ & _ & Hp & _).
  exists tr. split; [exact Hrun | exact Hp].
Defined.

(** X5.  football_system_adk.py: when Stage 2 returns the empty string,
    Stage 3 is not run and nothing more is printed; [main] is over in the
    state Stage 2 left. *)
Theorem adk_empty_scores_end_the_run :
  forall (w1 w2 : Rt.world Adk.request (list Adk.event)) user_reqs d data,
    Rt.heap w1 !! user_reqs = Some d ->
    data <> "" ->
    Adk.run_agent_safe Adk.scoring_agent (Flow.adk_scoring_prompt d data)
      "Scoring Candidates" w1 = (Rt.Done "", w2) ->
    Adk.score_and_rank user_reqs data w1 = (Rt.Done tt, w2).
Proof.
  intros w1 w2 user_reqs d data Hd Hdata Hrun. unfold Adk.score_and_rank.
  assert (Ht : Py.truthy data = true)
    by (unfold Py.truthy; apply negb_true_iff, String.eqb_neq, Hdata).
  rewrite Ht. cbn [negb].
  rewrite (bind_done _ _ _ _ _ (deref_run user_reqs w1 d Hd)).
  unfold Flow.adk_scoring_prompt in Hrun.
  rewrite (bind_done _ _ _ _ _ Hrun). reflexivity.
Qed.

(** Stage 1 answers, Stage 2 fails for good: two requests in all. *)
Lemma adk_empty_scores_end_the_run_witness :
  Rt.served (snd (Adk.score_and_rank 0 "Candidates: A, B, C"
                    (Rt.World [] [Obs.requirements_of "coach" "a" "b" "c" "d"]
                       Samples.adk_always_broken 1 []))) = 2%nat.
Proof.
  rewrite (adk_empty_scores_end_the_run
             (Rt.World [] [Obs.requirements_of "coach" "a" "b" "c" "d"]
                Samples.adk_always_broken 1 [])
             (snd (Adk.run_agent_safe Adk.scoring_agent
                     (Flow.adk_scoring_prompt (Obs.requirements_of "coach" "a" "b" "c" "d")
                        "Candidates: A, B, C")
                     "Scoring Candidates"
                     (Rt.World [] [Obs.requirements_of "coach" "a" "b" "c" "d"]
                        Samples.adk_always_broken 1 [])))
             0%nat _ "Candidates: A, B, C" eq_refl ltac:(discriminate)
             ltac:(vm_compute; reflexivity)).
  vm_compute. reflexivity.
Defined.

(** *** Programs that leave the backend alone *)

Section Offline.
Context {Rq Resp : Type}.
Local Abbreviation prog := (Rt.prog Rq Resp).

Lemma offline_here {A} (p : prog A) :
  (forall w, snd (p w) = w) -> Flow.offline p.
Proof. intros H w. exists []. rewrite H, app_nil_r. done. Qed.

Lemma offline_ret {A} (a : A) : Flow.offline (Rt.ret a : prog A).
Proof. now apply offline_here. Qed.

Lemma offline_raise {A} e : Flow.offline (Rt.raise e : prog A).
Proof. now apply offline_here. Qed.

Lemma offline_sys_exit {A} code : Flow.offline (Rt.sys_exit code : prog A).
Proof. now apply offline_here. Qed.

Lemma offline_out_of_fuel {A} : Flow.offline (Rt.out_of_fuel : prog A).
Proof. now apply offline_here. Qed.

Lemma offline_bind {A B} (m : prog A) (k : A -> prog B) :
  Flow.offline m -> (forall a, Flow.offline (k a)) -> Flow.offline (Rt.bind m k).
Proof.
  intros Hm Hk w. unfold Rt.bind. destruct (Hm w) as (tr & Htr & Hrq & Hsl).
  destruct (m w) as [[a| | |] w']; cbn in *; try (exists tr; done).
  destruct (Hk a w') as (tr' & Htr' & Hrq' & Hsl').
  exists (tr ++ tr')%list. rewrite Htr', Htr, requests_app, sleeps_app, Hrq, Hrq', Hsl, Hsl'.
  now rewrite app_assoc.
Qed.

Lemma offline_try_except {A} (m : prog A) (h : Rt.exn -> prog A) :
  Flow.offline m -> (forall e, Flow.offline (h e)) -> Flow.offline (Rt.try_except m h).
Proof.
  intros Hm Hh w. unfold Rt.try_except. destruct (Hm w) as (tr & Htr & Hrq & Hsl).
  destruct (m w) as [[a| e | |] w']; cbn in *; try (exists tr; done).
  destruct (Hh e w') as (tr' & Htr' & Hrq' & Hsl').
  exists (tr ++ tr')%list. rewrite Htr', Htr, requests_app, sleeps_app, Hrq, Hrq', Hsl, Hsl'.
  now rewrite app_assoc.
Qed.

Lemma offline_print text : Flow.offline (Rt.print text : prog unit).
Proof. intros w. exists [Rt.Print text]. done. Qed.

Lemma offline_input text : Flow.offline (Rt.input text : prog string).
Proof.
  intros w. exists [Rt.Prompt text]. unfold Rt.input. now destruct (Rt.stdin w).
Qed.

Lemma offline_new_dict d : Flow.offline (Rt.new_dict d : prog nat).
Proof. intros w. exists []. cbn. now rewrite app_nil_r. Qed.

Lemma offline_setitem r k v : Flow.offline (Rt.setitem r k v : prog unit).
Proof.
  intros w. exists []. unfold Rt.setitem.
  destruct (Rt.heap w !! r); cbn; now rewrite app_nil_r.
Qed.

End Offline.

Create HintDb offline.

#[export] Hint Resolve offline_ret offline_raise offline_sys_exit offline_out_of_fuel
  offline_print offline_input offline_new_dict offline_setitem : offline.

(** Walks down a program that is built from the steps above. *)
Ltac offline :=
  repeat first
    [ progress auto with offline
    | apply offline_bind; [| intros ?]
    | apply offline_try_except; [| intros ?]
    | match goal with
      | |- Flow.offline (if ?c then _ else _) => destruct c
      | |- Flow.offline (match ?x with _ => _ end) => destruct x
      end ].

Lemma genai_ask_choice_offline fuel : Flow.offline (Genai.ask_choice fuel).
Proof.
  induction fuel as [|fuel IH]; cbn [Genai.ask_choice]; [offline|].
  apply offline_bind; [offline | intros choice].
  destruct (Py.member choice ["player"; "coach"]); [offline|].
  destruct (String.eqb choice ""); [offline|].
  apply offline_bind; [offline | intros _; exact IH].
Qed.

Lemma adk_ask_choice_offline fuel : Flow.offline (Adk.ask_choice fuel).
Proof.
  induction fuel as [|fuel IH]; cbn [Adk.ask_choice]; [offline|].
  apply offline_bind; [offline | intros choice].
  destruct (Py.member choice ["player"; "coach"]); [offline|].
  apply offline_bind; [offline | intros _; exact IH].
Qed.

Lemma genai_collect_offline : Flow.offline Genai.collect_user_requirements.
Proof.
  unfold Genai.collect_user_requirements.
  apply offline_bind; [offline | intros _].
  apply offline_bind.
  - intros w. apply genai_ask_choice_offline.
  - intros choice. unfold Genai.fill_requirements, Genai.ask_field. offline.
Qed.

Lemma adk_collect_offline : Flow.offline Adk.collect_user_requirements.
Proof.
  unfold Adk.collect_user_requirements.
  apply offline_bind; [offline | intros _].
  apply offline_bind.
  - intros w. apply adk_ask_choice_offline.
  - intros choice. unfold Adk.fill_requirements, Adk.ask_field. offline.
Qed.

Lemma total_app l1 l2 : Flow.total (l1 ++ l2) = Flow.total l1 + Flow.total l2.
Proof.
  unfold Flow.total. induction l1 as [|x l1 IH]; cbn; [reflexivity | rewrite IH; lia].
Qed.

Lemma total_schedule k : (k <= 5)%nat -> Flow.total (take k Obs.schedule) = 10 * (2 ^ Z.of_nat k - 1).
Proof.
  intros Hk. do 6 (destruct k as [|k]; [reflexivity|]). lia.
Qed.

Lemma total_schedule_bound k : (k <= 5)%nat -> 0 <= Flow.total (take k Obs.schedule) <= 310.
Proof.
  intros Hk. do 6 (destruct k as [|k]; [cbn; lia|]). lia.
Qed.

Lemma genai_main_after_collect (w w0 : Rt.world Genai.request Genai.response) r :
  Genai.collect_user_requirements w = (Rt.Done r, w0) ->
  exists n tr,
    Genai.main w = (Rt.Done tt, Obs.advance w0 (Rt.stdin w0) n tr)
    /\ (length (Obs.requests tr) <= 15)%nat
    /\ 0 <= Flow.total (Obs.sleeps tr) <= 930.
Proof.
  intros Hc.
  destruct (genai_collect_returns _ _ _ Hc) as (line & a1 & a2 & a3 & a4 & Ha & Hr & Hh).
  assert (Hd : Rt.heap w0 !! r
               = Some (Obs.requirements_of (Obs.normalize line) a1 a2 a3 a4))
    by (rewrite Hh, Hr; apply list_lookup_middle; reflexivity).
  destruct (genai_retrieve_run r (Obs.normalize line) a1 a2 a3 a4 w0
              (member_choice _ Ha) Hd)
    as (data & k1 & tr1 & Hk1 & Hrun1 & Hreq1 & Hsl1 & _).
  destruct (genai_score_and_rank_run r _ data
              (Obs.advance w0 (Rt.stdin w0) (Nat.min (S k1) 5) tr1) Hd)
    as (scored & final & k2 & k3 & tr2 & Hk2 & Hk3 & Hrun2 & Hreq2 & Hsl2 & _).
  eexists _, (tr1 ++ tr2)%list. split.
  { unfold Genai.main. rewrite (bind_done _ _ _ _ _ Hc), (bind_done _ _ _ _ _ Hrun1), Hrun2.
    cbn [Obs.advance Rt.stdin]. rewrite advance_advance. reflexivity. }
  rewrite requests_app, sleeps_app, Hreq1, Hreq2, Hsl1, Hsl2.
  rewrite !length_app, !length_replicate, !total_app.
  pose proof (total_schedule_bound k1 Hk1). pose proof (total_schedule_bound k2 Hk2).
  pose proof (total_schedule_bound k3 Hk3). split; lia.
Qed.

Lemma adk_main_after_collect (w w0 : Rt.world Adk.request (list Adk.event)) r :
  Adk.collect_user_requirements w = (Rt.Done r, w0) ->
  exists n tr,
    Adk.main w = (Rt.Done tt, Obs.advance w0 (Rt.stdin w0) n tr)
    /\ (length (Obs.requests tr) <= 15)%nat
    /\ 0 <= Flow.total (Obs.sleeps tr) <= 930.
Proof.
  intros Hc.
  destruct (adk_collect_returns _ _ _ Hc) as (line & a1 & a2 & a3 & a4 & Ha & Hr & Hh).
  assert (Hd : Rt.heap w0 !! r
               = Some (Obs.requirements_of (Obs.normalize line) a1 a2 a3 a4))
    by (rewrite Hh, Hr; apply list_lookup_middle; reflexivity).
  destruct (adk_retrieve_run r (Obs.normalize line) a1 a2 a3 a4 w0
              (member_choice _ Ha) Hd)
    as (data & k1 & tr1 & Hk1 & Hrun1 & Hreq1 & Hsl1 & _).
  destruct (adk_score_and_rank_run r _ data
              (Obs.advance w0 (Rt.stdin w0) (Nat.min (S k1) 5) tr1) Hd)
    as (score & final & k2 & k3 & tr2 & Hk2 & Hk3 & Hrun2 & Hreq2 & Hsl2 & _).
  eexists _, (tr1 ++ tr2)%list. split.
  { unfold Adk.main. rewrite (bind_done _ _ _ _ _ Hc), (bind_done _ _ _ _ _ Hrun1), Hrun2.
    cbn [Obs.advance Rt.stdin]. rewrite advance_advance. reflexivity. }
  rewrite requests_app, sleeps_app, Hreq1, Hreq2, Hsl1, Hsl2.
  pose proof (total_schedule_bound k1 Hk1). pose proof (total_schedule_bound k2 Hk2).
  pose proof (total_schedule_bound k3 Hk3).
  destruct (Py.truthy data), (Py.truthy score);
    rewrite ?length_app, ?length_replicate, ?total_app, ?app_nil_r;
    cbn [length Flow.total foldr]; split; lia.
Qed.

(** X6.  Neither script lets an exception out of [main], and the prompt
    loop never runs out of budget: on every input and with every backend,
    [main] returns or the process exits with status 1. *)
Theorem main_returns_or_exits :
  (forall w : Rt.world Genai.request Genai.response,
     fst (Genai.main w) = Rt.Done tt \/ fst (Genai.main w) = Rt.Exited 1)
  /\ (forall w : Rt.world Adk.request (list Adk.event),
     fst (Adk.main w) = Rt.Done tt \/ fst (Adk.main w) = Rt.Exited 1).
Proof.
  split; intros w.
  - destruct (genai_collect_ends w) as [(r & w0 & Hc) | He].
    + destruct (genai_main_after_collect w w0 r Hc) as (n & tr & -> & _). now left.
    + right. destruct (Genai.collect_user_requirements w) as [o w'] eqn:Hc.
      cbn in He. subst o. now rewrite (genai_main_exits _ _ _ Hc).
  - destruct (adk_collect_ends w) as [(r & w0 & Hc) | He].
    + destruct (adk_main_after_collect w w0 r Hc) as (n & tr & -> & _). now left.
    + right. destruct (Adk.collect_user_requirements w) as [o w'] eqn:Hc.
      cbn in He. subst o. now rewrite (adk_main_exits _ _ _ Hc).
Qed.

(** X7.  A run of [main] sends at most 15 requests and sleeps at most 930
    seconds in all (three stages of at most five attempts and 310 seconds
    each), in both scripts and whatever the input and the backend. *)
Theorem main_cost_is_bounded :
  (forall w : Rt.world Genai.request Genai.response,
     exists tr,
       Rt.trace (snd (Genai.main w)) = (Rt.trace w ++ tr)%list
       /\ (length (Obs.requests tr) <= 15)%nat
       /\ 0 <= Flow.total (Obs.sleeps tr) <= 930)
  /\ (forall w : Rt.world Adk.request (list Adk.event),
     exists tr,
       Rt.trace (snd (Adk.main w)) = (Rt.trace w ++ tr)%list
       /\ (length (Obs.requests tr) <= 15)%nat
       /\ 0 <= Flow.total (Obs.sleeps tr) <= 930).
Proof.
  split; intros w.
  - destruct (genai_collect_offline w) as (tr0 & Htr0 & Hrq0 & Hsl0).
    destruct (genai_collect_ends w) as [(r & w0 & Hc) | He].
    + destruct (genai_main_after_collect w w0 r Hc) as (n & tr & Hrun & Hreq & Hsl).
      rewrite Hc in Htr0. cbn [snd] in Htr0.
      exists (tr0 ++ tr)%list. rewrite Hrun. cbn [snd Obs.advance Rt.trace].
      rewrite Htr0, requests_app, sleeps_app, Hrq0, Hsl0, app_assoc.
      split; [reflexivity|]. cbn [app]. split; [exact Hreq | exact Hsl].
    + destruct (Genai.collect_user_requirements w) as [o w'] eqn:Hc.
      cbn in He. subst o. rewrite (genai_main_exits _ _ _ Hc).
      exists tr0. cbn [snd] in *. rewrite Htr0, Hrq0, Hsl0. cbn. repeat split; lia.
  - destruct (adk_collect_offline w) as (tr0 & Htr0 & Hrq0 & Hsl0).
    destruct (adk_collect_ends w) as [(r & w0 & Hc) | He].
    + destruct (adk_main_after_collect w w0 r Hc) as (n & tr & Hrun & Hreq & Hsl).
      rewrite Hc in Htr0. cbn [snd] in Htr0.
      exists (tr0 ++ tr)%list. rewrite Hrun. cbn [snd Obs.advance Rt.trace].
      rewrite Htr0, requests_app, sleeps_app, Hrq0, Hsl0, app_assoc.
      split; [reflexivity|]. cbn [app]. split; [exact Hreq | exact Hsl].
    + destruct (Adk.collect_user_requirements w) as [o w'] eqn:Hc.
      cbn in He. subst o. rewrite (adk_main_exits _ _ _ Hc).
      exists tr0. cbn [snd] in *. rewrite Htr0, Hrq0, Hsl0. cbn. repeat split; lia.
Qed.

(** *** More on the stage executors *)

Lemma truthy_nonempty s : s <> "" -> Py.truthy s = true.
Proof. intros H. unfold Py.truthy. apply negb_true_iff, String.eqb_neq, H. Qed.

(** X8.  A stage that meets [k] throttled attempts (k below 5) and then a
    response with the text [T] returns [T]: it has sent [k + 1] requests,
    all alike, and slept the first [k] waits of the schedule, which add up
    to [10 * (2 ^ k - 1)] seconds. *)
Theorem success_after_throttling :
  (forall step_name prompt model_name tools (w : Rt.world Genai.request Genai.response)
          k r T,
     let rq := Obs.genai_request prompt model_name tools in
     (k < 5)%nat ->
     (forall i, (i < k)%nat -> Obs.throttled w rq i = true) ->
     Rt.backend w (Rt.served w + k) rq = inl r ->
     Genai.text r = Some T ->
     T <> "" ->
     exists tr,
       Genai.run_step step_name prompt model_name tools w
       = (Rt.Done T, Obs.advance w (Rt.stdin w) (S k) tr)
       /\ Obs.requests tr = replicate (S k) rq
       /\ Obs.sleeps tr = take k Obs.schedule
       /\ Flow.total (Obs.sleeps tr) = 10 * (2 ^ Z.of_nat k - 1))
  /\ (forall a prompt step_name (w : Rt.world Adk.request (list Adk.event)) k events T,
     let rq := Obs.adk_request a prompt in
     (k < 5)%nat ->
     (forall i, (i < k)%nat -> Obs.throttled w rq i = true) ->
     Rt.backend w (Rt.served w + k) rq = inl events ->
     Py.join "" (Adk.full_response events) = T ->
     T <> "" ->
     exists tr,
       Adk.run_agent_safe a prompt step_name w
       = (Rt.Done T, Obs.advance w (Rt.stdin w) (S k) tr)
       /\ Obs.requests tr = replicate (S k) rq
       /\ Obs.sleeps tr = take k Obs.schedule
       /\ Flow.total (Obs.sleeps tr) = 10 * (2 ^ Z.of_nat k - 1)).
Proof.
  split.
  - intros step_name prompt model_name tools w k r T rq Hk Hthr Hr Ht HT.
    rewrite (genai_run_step_after _ _ _ _ w k) by (try lia; exact Hthr).
    rewrite drop_range by exact Hk.
    rewrite (genai_attempt_text _ _ _ _ _ _ _ r);
      [| exact Hr | rewrite Ht; cbn; now apply truthy_nonempty].
    rewrite Ht. cbn [default option.default Obs.advance Rt.stdin]. rewrite advance_advance.
    eexists. split; [f_equal; f_equal; lia|].
    rewrite requests_app, sleeps_app, requests_print, sleeps_print.
    rewrite throttled_requests, throttled_sleeps by lia.
    cbn [Obs.requests Obs.sleeps omap list_omap]. rewrite app_nil_r.
    split; [now rewrite replicate_S_end|]. split; [reflexivity|].
    apply total_schedule. lia.
  - intros a prompt step_name w k events T rq Hk Hthr Hr Ht HT.
    rewrite (adk_run_agent_safe_after _ _ _ w k) by (try lia; exact Hthr).
    rewrite drop_range by exact Hk.
    rewrite (adk_attempt_ok _ _ _ _ _ _ events) by exact Hr.
    rewrite Ht, (truthy_nonempty T HT).
    cbn [Obs.advance Rt.stdin]. rewrite advance_advance.
    eexists. split; [f_equal; f_equal; lia|].
    rewrite requests_app, sleeps_app, requests_print, sleeps_print.
    rewrite throttled_requests, throttled_sleeps by lia.
    cbn [Obs.requests Obs.sleeps omap list_omap]. rewrite app_nil_r.
    split; [now rewrite replicate_S_end|]. split; [reflexivity|].
    apply total_schedule. lia.
Qed.

(** Backends that are busy twice: three requests, 30 seconds of waiting,
    and the text. *)
Lemma success_after_throttling_witness :
  (exists tr,
     Genai.run_step "Step 3: Scoring Candidates" "Score them" Genai.default_model None
       (Samples.genai_world [] Flow.genai_busy_twice)
     = (Rt.Done "Candidates: A, B, C",
        Obs.advance (Samples.genai_world [] Flow.genai_busy_twice) [] 3 tr)
     /\ Obs.sleeps tr = [10; 20])
  /\ (exists tr,
     Adk.run_agent_safe Adk.scoring_agent "Score them" "Scoring Candidates"
       (Samples.adk_world [] Flow.adk_busy_twice)
     = (Rt.Done "Candidates: A, B, C",
        Obs.advance (Samples.adk_world [] Flow.adk_busy_twice) [] 3 tr)
     /\ Obs.sleeps tr = [10; 20]).
Proof.
  split.
  - destruct (proj1 success_after_throttling "Step 3: Scoring Candidates" "Score them"
                Genai.default_model None (Samples.genai_world [] Flow.genai_busy_twice)
                2%nat (Samples.genai_says "Candidates: A, B, C") "Candidates: A, B, C")
      as (tr & Hrun & _ & Hsl & _);
      [lia | | reflexivity | reflexivity | discriminate |].
    + intros i Hi. destruct i as [|[|i]]; [reflexivity | reflexivity | lia].
    + exists tr. split; [exact Hrun | exact Hsl].
  - destruct (proj2 success_after_throttling Adk.scoring_agent "Score them"
                "Scoring Candidates" (Samples.adk_world [] Flow.adk_busy_twice)
                2%nat (Samples.adk_says "Candidates: A, B, C") "Candidates: A, B, C")
      as (tr & Hrun & _ & Hsl & _);
      [lia | | reflexivity | reflexivity | discriminate |].
    + intros i Hi. destruct i as [|[|i]]; [reflexivity | reflexivity | lia].
    + exists tr. split; [exact Hrun | exact Hsl].
Defined.

(** The first attempt of [run_step] on a response. *)
Lemma genai_first_response step_name prompt model_name tools
    (w : Rt.world Genai.request Genai.response) r :
  let rq := Obs.genai_request prompt model_name tools in
  let w' := Obs.advance w (Rt.stdin w) 1
              [Rt.Print (Py.nl ++ "--- " ++ step_name ++ " ---"); Rt.Request rq] in
  Rt.backend w (Rt.served w) rq = inl r ->
  Genai.run_step step_name prompt model_name tools w
  = match Genai.response_result r w' with
    | (Rt.Raised e, _) =>
        (Rt.Done "",
         Obs.advance w' (Rt.stdin w) 0
           [Rt.Print ("Error during " ++ step_name ++ ": " ++ Rt.str_exn e)])
    | other => other
    end.
Proof.
  intros rq w' Hr.
  rewrite (genai_run_step_after _ _ _ _ w 0) by (try lia; intros i Hi; lia).
  rewrite drop_range by lia. rewrite take_0. cbn [map concat].
  rewrite genai_attempt_unfold.
  unfold Rt.try_except at 1, Rt.bind at 1, Rt.send.
  cbn [Obs.advance Rt.backend Rt.served Rt.stdin Rt.heap Rt.trace].
  rewrite Nat.add_0_r. fold rq. rewrite Hr.
  replace (Rt.World _ _ _ _ _) with w' by (subst w'; same_world).
  destruct (genai_response_result_pure r w') as [[s ->] | ->]; [reflexivity|].
  cbn [Rt.str_exn]. take_branch.
  rewrite (bind_done _ _ _ _ _ (print_run _ _)). reflexivity.
Qed.

(** X9.  [run_step] on a first response whose [text] is missing or
    empty.  Without candidates, or with a first candidate that has no
    parts, the stage returns "No text response generated.".  With parts in
    the first candidate it returns the texts of those parts joined, and
    reads no other candidate.  With a first candidate that has no content
    it prints "Error during ..." with the text of the AttributeError and
    returns the empty string.  One request is sent in each case. *)
Theorem genai_response_without_text :
  forall step_name prompt model_name tools (w : Rt.world Genai.request Genai.response) r,
    let rq := Obs.genai_request prompt model_name tools in
    let w' := Obs.advance w (Rt.stdin w) 1
                [Rt.Print (Py.nl ++ "--- " ++ step_name ++ " ---"); Rt.Request rq] in
    Rt.backend w (Rt.served w) rq = inl r ->
    Py.truthy_opt (Genai.text r) = false ->
    (Genai.candidates r = None \/ Genai.candidates r = Some [] ->
     Genai.run_step step_name prompt model_name tools w
     = (Rt.Done "No text response generated.", w'))
    /\ (forall first others c,
          Genai.candidates r = Some (first :: others) ->
          Genai.candidate_content first = Some c ->
          Genai.parts c = None \/ Genai.parts c = Some [] ->
          Genai.run_step step_name prompt model_name tools w
          = (Rt.Done "No text response generated.", w'))
    /\ (forall first others c p ps,
          Genai.candidates r = Some (first :: others) ->
          Genai.candidate_content first = Some c ->
          Genai.parts c = Some (p :: ps) ->
          Genai.run_step step_name prompt model_name tools w
          = (Rt.Done (Py.join ""
                        (omap (fun q => if Py.truthy_opt (Genai.part_text q)
                                        then Genai.part_text q else None) (p :: ps))),
             w'))
    /\ (forall first others,
          Genai.candidates r = Some (first :: others) ->
          Genai.candidate_content first = None ->
          Genai.run_step step_name prompt model_name tools w
          = (Rt.Done "",
             Obs.advance w' (Rt.stdin w) 0
               [Rt.Print ("Error during " ++ step_name
                          ++ ": 'NoneType' object has no attribute 'parts'")])).
Proof.
  intros step_name prompt model_name tools w r rq w' Hr Ht.
  pose proof (genai_first_response step_name prompt model_name tools w r Hr) as Hrun.
  cbn zeta in Hrun. fold rq in Hrun. fold w' in Hrun.
  unfold Genai.response_result in Hrun. rewrite Ht in Hrun.
  repeat split.
  - intros [Hc | Hc]; rewrite Hc in Hrun; exact Hrun.
  - intros first others c Hc Hf [Hp | Hp]; rewrite Hc, Hf, Hp in Hrun; exact Hrun.
  - intros first others c p ps Hc Hf Hp. rewrite Hc, Hf, Hp in Hrun. exact Hrun.
  - intros first others Hc Hf. rewrite Hc, Hf in Hrun. exact Hrun.
Qed.

(** No candidates; a second candidate with text behind a first one
    without parts; parts with and without text; a first candidate without
    content. *)
Lemma genai_response_without_text_witness :
  fst (Genai.run_step "Step 2: Retrieving Data" "Find players" Genai.default_model None
         (Samples.genai_world [] (Flow.genai_answers Flow.no_candidates)))
  = Rt.Done "No text response generated."
  /\ fst (Genai.run_step "Step 2: Retrieving Data" "Find players" Genai.default_model None
            (Samples.genai_world [] (Flow.genai_answers Flow.text_in_second_candidate)))
     = Rt.Done "No text response generated."
  /\ fst (Genai.run_step "Step 2: Retrieving Data" "Find players" Genai.default_model None
            (Samples.genai_world [] (Flow.genai_answers Flow.mixed_parts)))
     = Rt.Done "AC"
  /\ fst (Genai.run_step "Step 2: Retrieving Data" "Find players" Genai.default_model None
            (Samples.genai_world [] (Flow.genai_answers Flow.no_content)))
     = Rt.Done "".
Proof.
  split; [|split; [|split]].
  - rewrite (proj1 (genai_response_without_text "Step 2: Retrieving Data" "Find players"
                      Genai.default_model None
                      (Samples.genai_world [] (Flow.genai_answers Flow.no_candidates))
                      Flow.no_candidates eq_refl eq_refl) (or_introl eq_refl)).
    reflexivity.
  - rewrite (proj1 (proj2 (genai_response_without_text "Step 2: Retrieving Data"
                             "Find players" Genai.default_model None
                             (Samples.genai_world []
                                (Flow.genai_answers Flow.text_in_second_candidate))
                             Flow.text_in_second_candidate eq_refl eq_refl))
               _ _ _ eq_refl eq_refl (or_intror eq_refl)).
    reflexivity.
  - rewrite (proj1 (proj2 (proj2 (genai_response_without_text "Step 2: Retrieving Data"
                             "Find players" Genai.default_model None
                             (Samples.genai_world [] (Flow.genai_answers Flow.mixed_parts))
                             Flow.mixed_parts eq_refl eq_refl)))
               _ _ _ _ _ eq_refl eq_refl eq_refl).
    reflexivity.
  - rewrite (proj2 (proj2 (proj2 (genai_response_without_text "Step 2: Retrieving Data"
                             "Find players" Genai.default_model None
                             (Samples.genai_world [] (Flow.genai_answers Flow.no_content))
                             Flow.no_content eq_refl eq_refl)))
               _ _ eq_refl eq_refl).
    reflexivity.
Defined.

Lemma append_empty_r s : s ++ "" = s.
Proof.
  induction s as [|c s IH]; [reflexivity|].
  change (String c s ++ "") with (String c (s ++ "")). now rewrite IH.
Qed.

Lemma append_assoc s t u : (s ++ t) ++ u = s ++ (t ++ u).
Proof.
  induction s as [|c s IH]; [reflexivity|].
  change ((String c s ++ t) ++ u) with (String c ((s ++ t) ++ u)).
  change (String c s ++ (t ++ u)) with (String c (s ++ (t ++ u))). now rewrite IH.
Qed.

Lemma join_cons x xs : Py.join "" (x :: xs) = x ++ Py.join "" xs.
Proof.
  unfold Py.join. destruct xs as [|y ys]; cbn [String.concat].
  - now rewrite append_empty_r.
  - reflexivity.
Qed.

Lemma join_app xs ys : Py.join "" (xs ++ ys) = Py.join "" xs ++ Py.join "" ys.
Proof.
  induction xs as [|x xs IH]; [reflexivity|].
  change ((x :: xs) ++ ys)%list with (x :: (xs ++ ys)%list).
  now rewrite !join_cons, IH, append_assoc.
Qed.

(** X10.  What [run_agent_safe] makes of the events of a run is the text
    of their parts in the order of arrival, with nothing in between: the
    text of two runs of events one after the other is the text of the
    first followed by the text of the second; an event without content,
    without parts or with parts that carry no text adds nothing; a part
    with text adds just that text. *)
Theorem adk_text_in_order :
  (forall events1 events2,
     Py.join "" (Adk.full_response (events1 ++ events2))
     = Py.join "" (Adk.full_response events1) ++ Py.join "" (Adk.full_response events2))
  /\ (forall ev events,
        Adk.event_content ev = None
        \/ Adk.event_content ev = Some (Adk.Content None)
        \/ Adk.event_content ev = Some (Adk.Content (Some []))
        \/ (exists ps, Adk.event_content ev = Some (Adk.Content (Some ps))
                       /\ Forall (fun p => Py.truthy_opt (Adk.part_text p) = false) ps) ->
        Py.join "" (Adk.full_response (ev :: events))
        = Py.join "" (Adk.full_response events))
  /\ (forall t ps events,
        t <> "" ->
        Py.join "" (Adk.full_response
                      (Adk.Event (Some (Adk.Content (Some (Adk.Part (Some t) :: ps))))
                       :: events))
        = t ++ Py.join "" (Adk.full_response
                             (Adk.Event (Some (Adk.Content (Some ps))) :: events))).
Proof.
  split; [|split].
  - intros events1 events2. unfold Adk.full_response.
    now rewrite map_app, concat_app, join_app.
  - intros ev events H. unfold Adk.full_response. cbn [map concat].
    rewrite join_app.
    assert (Hev : Adk.event_texts ev = []).
    { unfold Adk.event_texts.
      destruct H as [-> | [-> | [-> | (ps & -> & Hps)]]]; try reflexivity.
      assert (Hno : omap (fun q => if Py.truthy_opt (Adk.part_text q)
                                   then Adk.part_text q else None) ps = []).
      { induction Hps as [|q qs Hq Hqs IH]; [reflexivity|].
        cbn [omap list_omap]. rewrite Hq. exact IH. }
      cbn. destruct ps as [|p ps]; [reflexivity | exact Hno]. }
    now rewrite Hev.
  - intros t ps events Ht. unfold Adk.full_response. cbn [map concat].
    rewrite !join_app, <- append_assoc. f_equal.
    unfold Adk.event_texts. cbn [Adk.event_content Adk.parts omap list_omap Adk.part_text].
    cbn [Py.truthy_opt]. rewrite (truthy_nonempty t Ht).
    rewrite join_cons. now destruct ps.
Qed.

(** An event without content before one with two parts. *)
Lemma adk_text_in_order_witness :
  Py.join "" (Adk.full_response
                [Adk.Event None;
                 Adk.Event (Some (Adk.Content (Some [Adk.Part (Some "A, ");
                                                     Adk.Part (Some "B")])))])
  = "A, " ++ "B".
Proof.
  rewrite (proj1 (proj2 adk_text_in_order) (Adk.Event None) _ (or_introl eq_refl)).
  rewrite (proj2 (proj2 adk_text_in_order) "A, " _ _ ltac:(discriminate)).
  reflexivity.
Defined.

(** *** The input ends among the fields *)

Lemma genai_fill_requirements_cut choice answers h b n tr :
  (length answers < 4)%nat ->
  exists d tr',
    Genai.fill_requirements choice (Rt.World answers h b n tr)
    = (Rt.Exited 1, Rt.World [] (h ++ [d])%list b n (tr ++ tr')%list)
    /\ length (Obs.prompts tr') = S (length answers)
    /\ last tr' = Some (Rt.Print "Input interrupted.")
    /\ Obs.requests tr' = [].
Proof.
  intros Hlen.
  unfold Genai.fill_requirements, Genai.ask_field.
  unfold Rt.bind at 1, Rt.new_dict. cbn [Rt.heap Rt.stdin Rt.backend Rt.served Rt.trace].
  unfold Rt.bind at 1, Rt.try_except.
  destruct (String.eqb choice "player");
    do 4 (destruct answers as [|? answers];
          [ repeat (unfold Rt.bind at 1; rewrite ?ask_field_line, ?ask_field_eof);
            rewrite ?ask_field_eof;
            unfold Rt.bind, Rt.print, Rt.emit, Rt.sys_exit;
            cbn [Rt.heap Rt.stdin Rt.backend Rt.served Rt.trace];
            rewrite <- ?app_assoc; cbn [app];
            eexists _, _; split; [reflexivity | done] | ]);
    cbn in Hlen; lia.
Qed.

Lemma adk_fill_requirements_cut choice answers h b n tr :
  (length answers < 4)%nat ->
  exists d tr',
    Adk.fill_requirements choice (Rt.World answers h b n tr)
    = (Rt.Exited 1, Rt.World [] (h ++ [d])%list b n (tr ++ tr')%list)
    /\ length (Obs.prompts tr') = S (length answers)
    /\ Obs.prints tr' = []
    /\ Obs.requests tr' = [].
Proof.
  intros Hlen.
  unfold Adk.fill_requirements, Adk.ask_field.
  unfold Rt.bind at 1, Rt.new_dict. cbn [Rt.heap Rt.stdin Rt.backend Rt.served Rt.trace].
  unfold Rt.bind at 1, Rt.try_except.
  destruct (String.eqb choice "player");
    do 4 (destruct answers as [|? answers];
          [ repeat (unfold Rt.bind at 1; rewrite ?ask_field_line, ?ask_field_eof);
            rewrite ?ask_field_eof;
            unfold Rt.bind, Rt.sys_exit;
            cbn [Rt.heap Rt.stdin Rt.backend Rt.served Rt.trace];
            rewrite <- ?app_assoc; cbn [app];
            eexists _, _; split; [reflexivity | done] | ]);
    cbn in Hlen; lia.
Qed.

(** X11.  An accepted discriminant followed by fewer than four answers
    and the end of input: the process exits with status 1 in both scripts.
    All lines have been read, no request has been sent, and one prompt has
    been issued per line read plus the one that met the end of input.
    football_system.py says "Input interrupted." before it exits;
    football_system_adk.py prints nothing after the discriminant was
    accepted. *)
Theorem input_ends_among_fields :
  (forall (w : Rt.world Genai.request Genai.response) bad line answers,
     Rt.stdin w = (bad ++ line :: answers)%list ->
     Forall (fun l => Obs.rejected l = true) bad ->
     Obs.accepted line = true ->
     (length answers < 4)%nat ->
     exists tr w',
       Genai.main w = (Rt.Exited 1, w')
       /\ Rt.trace w' = (Rt.trace w ++ tr)%list
       /\ Rt.stdin w' = []
       /\ length (Obs.prompts tr) = (length bad + length answers + 2)%nat
       /\ Obs.requests tr = []
       /\ last tr = Some (Rt.Print "Input interrupted."))
  /\ (forall (w : Rt.world Adk.request (list Adk.event)) bad line answers,
     Rt.stdin w = (bad ++ line :: answers)%list ->
     Forall (fun l => Obs.accepted l = false) bad ->
     Obs.accepted line = true ->
     (length answers < 4)%nat ->
     exists tr w',
       Adk.main w = (Rt.Exited 1, w')
       /\ Rt.trace w' = (Rt.trace w ++ tr)%list
       /\ Rt.stdin w' = []
       /\ length (Obs.prompts tr) = (length bad + length answers + 2)%nat
       /\ Obs.requests tr = []
       /\ length (Obs.prints tr) = S (length bad)).
Proof.
  split.
  - intros w bad line answers Hin Hbad Ha Hlen.
    assert (Hc : exists tr w',
               Genai.collect_user_requirements w = (Rt.Exited 1, w')
               /\ Rt.trace w' = (Rt.trace w ++ tr)%list /\ Rt.stdin w' = []
               /\ length (Obs.prompts tr) = (length bad + length answers + 2)%nat
               /\ Obs.requests tr = []
               /\ last tr = Some (Rt.Print "Input interrupted.")).
    { rewrite genai_collect_unfold, Hin, fuel_split. unfold Rt.bind.
      rewrite (genai_ask_choice_skip bad _ (line :: answers)) by easy.
      rewrite (genai_ask_choice_accept _ _ line answers) by easy.
      rewrite !advance_advance. unfold Obs.advance.
      destruct (genai_fill_requirements_cut (Obs.normalize line) answers (Rt.heap w)
                  (Rt.backend w) (Rt.served w + (0 + (0 + 0)))
                  (Rt.trace w ++ [Rt.Print (Py.nl ++ "--- Football Player & Coach Recommendation System ---" ++ Py.nl)]
                   ++ concat (map (fun _ => [Rt.Prompt Obs.choice_prompt;
                                             Rt.Print Obs.invalid_choice]) bad)
                   ++ [Rt.Prompt Obs.choice_prompt])%list Hlen)
        as (d & tr' & -> & Hp & Hlast & Hrq).
      eexists _, _. split; [reflexivity|]. cbn [Rt.trace Rt.stdin].
      split; [rewrite <- !app_assoc; reflexivity|]. split; [reflexivity|].
      rewrite !requests_app, !prompts_app, !last_app, Hlast, Hrq, rejected_prompts.
      rewrite !length_app, Hp, length_replicate.
      assert (Hq : forall l : list string,
                 Obs.requests (Rq := Genai.request)
                   (concat (map (fun _ => [Rt.Prompt Obs.choice_prompt;
                                           Rt.Print Obs.invalid_choice]) l)) = [])
        by (induction l; [reflexivity | assumption]).
      rewrite Hq. cbn. repeat split. lia. }
    destruct Hc as (tr & w' & Hc & H). exists tr, w'.
    split; [now apply genai_main_exits | exact H].
  - intros w bad line answers Hin Hbad Ha Hlen.
    assert (Hc : exists tr w',
               Adk.collect_user_requirements w = (Rt.Exited 1, w')
               /\ Rt.trace w' = (Rt.trace w ++ tr)%list /\ Rt.stdin w' = []
               /\ length (Obs.prompts tr) = (length bad + length answers + 2)%nat
               /\ Obs.requests tr = []
               /\ length (Obs.prints tr) = S (length bad)).
    { rewrite adk_collect_unfold, Hin, fuel_split. unfold Rt.bind.
      rewrite (adk_ask_choice_skip bad _ (line :: answers)) by easy.
      rewrite (adk_ask_choice_accept _ _ line answers) by easy.
      rewrite !advance_advance. unfold Obs.advance.
      destruct (adk_fill_requirements_cut (Obs.normalize line) answers (Rt.heap w)
                  (Rt.backend w) (Rt.served w + (0 + (0 + 0)))
                  (Rt.trace w ++ [Rt.Print (Py.nl ++ "--- Football Player & Coach Recommendation System (ADK) ---" ++ Py.nl)]
                   ++ concat (map (fun _ => [Rt.Prompt Obs.choice_prompt;
                                             Rt.Print Obs.invalid_choice]) bad)
                   ++ [Rt.Prompt Obs.choice_prompt])%list Hlen)
        as (d & tr' & -> & Hp & Hpr & Hrq).
      eexists _, _. split; [reflexivity|]. cbn [Rt.trace Rt.stdin].
      split; [rewrite <- !app_assoc; reflexivity|]. split; [reflexivity|].
      rewrite !requests_app, !prompts_app, !prints_app, Hpr, Hrq, rejected_prompts.
      rewrite !length_app, Hp, length_replicate.
      assert (Hq : forall l : list string,
                 Obs.requests (Rq := Adk.request)
                   (concat (map (fun _ => [Rt.Prompt Obs.choice_prompt;
                                           Rt.Print Obs.invalid_choice]) l)) = []
                 /\ length (Obs.prints (Rq := Adk.request)
                      (concat (map (fun _ => [Rt.Prompt Obs.choice_prompt;
                                              Rt.Print Obs.invalid_choice]) l)))
                    = length l).
      { induction l as [|x l [IH1 IH2]]; [done|]. split; [exact IH1|].
        cbn [map concat]. rewrite prints_app, length_app, IH2. reflexivity. }
      destruct (Hq bad) as [-> ->]. cbn. repeat split; lia. }
    destruct Hc as (tr & w' & Hc & H). exists tr, w'.
    split; [now apply adk_main_exits | exact H].
Qed.

(** "coach" and two answers, then the end of input. *)
Lemma input_ends_among_fields_witness :
  fst (Genai.main (Samples.genai_world ["coach"; "Defensive"; "5+ years"]
                     Samples.genai_always_busy)) = Rt.Exited 1
  /\ fst (Adk.main (Samples.adk_world ["coach"; "Defensive"; "5+ years"]
                      Samples.adk_always_busy)) = Rt.Exited 1.
Proof.
  split.
  - destruct (proj1 input_ends_among_fields
                (Samples.genai_world ["coach"; "Defensive"; "5+ years"]
                   Samples.genai_always_busy)
                [] "coach" ["Defensive"; "5+ years"] eq_refl (List.Forall_nil _) eq_refl
                ltac:(cbn; lia)) as (tr & w' & -> & _).
    reflexivity.
  - destruct (proj2 input_ends_among_fields
                (Samples.adk_world ["coach"; "Defensive"; "5+ years"]
                   Samples.adk_always_busy)
                [] "coach" ["Defensive"; "5+ years"] eq_refl (List.Forall_nil _) eq_refl
                ltac:(cbn; lia)) as (tr & w' & -> & _).
    reflexivity.
Defined.

(** *** The verification script *)

Section Mirrors.
Context {Rq Resp : Type}.
Implicit Types (w : Rt.world Rq Resp).

Lemma alike_refl w : Flow.alike w w.
Proof. repeat split. Qed.

Lemma mirrors_ret {A} (a : A) : Flow.mirrors (Rq := Rq) (Resp := Resp) (Rt.ret a) (Rt.ret a).
Proof. intros w1 w2 H. split; [reflexivity | exact H]. Qed.

Lemma mirrors_raise {A} e :
  Flow.mirrors (Rq := Rq) (Resp := Resp) (A := A) (Rt.raise e) (Rt.raise e).
Proof. intros w1 w2 H. split; [reflexivity | exact H]. Qed.

Lemma mirrors_sys_exit {A} c :
  Flow.mirrors (Rq := Rq) (Resp := Resp) (A := A) (Rt.sys_exit c) (Rt.sys_exit c).
Proof. intros w1 w2 H. split; [reflexivity | exact H]. Qed.

Lemma mirrors_out_of_fuel {A} :
  Flow.mirrors (Rq := Rq) (Resp := Resp) (A := A) Rt.out_of_fuel Rt.out_of_fuel.
Proof. intros w1 w2 H. split; [reflexivity | exact H]. Qed.

Lemma mirrors_bind {A B} (m m' : Rt.prog Rq Resp A) (k k' : A -> Rt.prog Rq Resp B) :
  Flow.mirrors m m' -> (forall a, Flow.mirrors (k a) (k' a)) ->
  Flow.mirrors (Rt.bind m k) (Rt.bind m' k').
Proof.
  intros Hm Hk w1 w2 H. unfold Rt.bind.
  destruct (Hm w1 w2 H) as [Ho Hw].
  destruct (m w1) as [o1 v1], (m' w2) as [o2 v2]. cbn in Ho, Hw. subst o2.
  destruct o1; [now apply Hk | now split ..].
Qed.

Lemma mirrors_try_except {A} (m m' : Rt.prog Rq Resp A) h h' :
  Flow.mirrors m m' -> (forall e, Flow.mirrors (h e) (h' e)) ->
  Flow.mirrors (Rt.try_except m h) (Rt.try_except m' h').
Proof.
  intros Hm Hh w1 w2 H. unfold Rt.try_except.
  destruct (Hm w1 w2 H) as [Ho Hw].
  destruct (m w1) as [o1 v1], (m' w2) as [o2 v2]. cbn in Ho, Hw. subst o2.
  destruct o1; [now split | now apply Hh | now split ..].
Qed.

Lemma mirrors_print text : Flow.mirrors (Rq := Rq) (Resp := Resp) (Rt.print text) (Rt.print text).
Proof.
  intros w1 w2 (H1 & H2 & H3 & H4 & H5 & H6). split; [reflexivity|].
  unfold Rt.print, Rt.emit, Flow.alike. cbn [Rt.stdin Rt.heap Rt.backend Rt.served Rt.trace snd fst].
  rewrite !requests_app, !sleeps_app, H5, H6. repeat split; assumption.
Qed.

Lemma mirrors_sleep secs : Flow.mirrors (Rq := Rq) (Resp := Resp) (Rt.sleep secs) (Rt.sleep secs).
Proof.
  intros w1 w2 (H1 & H2 & H3 & H4 & H5 & H6). split; [reflexivity|].
  unfold Rt.sleep, Rt.emit, Flow.alike. cbn [Rt.stdin Rt.heap Rt.backend Rt.served Rt.trace snd fst].
  rewrite !requests_app, !sleeps_app, H5, H6. repeat split; assumption.
Qed.

Lemma mirrors_send rq : Flow.mirrors (Rq := Rq) (Resp := Resp) (Rt.send rq) (Rt.send rq).
Proof.
  intros w1 w2 (H1 & H2 & H3 & H4 & H5 & H6). unfold Rt.send. rewrite H3, H4.
  destruct (Rt.backend w2 (Rt.served w2) rq); cbn [fst snd];
    (split; [reflexivity|]); unfold Flow.alike;
    cbn [Rt.stdin Rt.heap Rt.backend Rt.served Rt.trace snd fst];
    rewrite !requests_app, !sleeps_app, H5, H6; repeat split; try assumption;
    now rewrite H4.
Qed.

Lemma mirrors_new_dict d : Flow.mirrors (Rq := Rq) (Resp := Resp) (Rt.new_dict d) (Rt.new_dict d).
Proof.
  intros w1 w2 (H1 & H2 & H3 & H4 & H5 & H6). unfold Rt.new_dict, Flow.alike.
  cbn [Rt.stdin Rt.heap Rt.backend Rt.served Rt.trace snd fst].
  rewrite H2. repeat split; assumption.
Qed.

Lemma mirrors_deref r : Flow.mirrors (Rq := Rq) (Resp := Resp) (Rt.deref r) (Rt.deref r).
Proof.
  intros w1 w2 H. assert (H2 := proj1 (proj2 H)). unfold Rt.deref. rewrite H2.
  destruct (Rt.heap w2 !! r); now split.
Qed.

Lemma mirrors_setitem r k v :
  Flow.mirrors (Rq := Rq) (Resp := Resp) (Rt.setitem r k v) (Rt.setitem r k v).
Proof.
  intros w1 w2 H. assert (H2 := proj1 (proj2 H)). unfold Rt.setitem. rewrite H2.
  destruct (Rt.heap w2 !! r); [|now split].
  destruct H as (H1 & _ & H3 & H4 & H5 & H6).
  split; [reflexivity|]. unfold Flow.alike.
  cbn [Rt.stdin Rt.heap Rt.backend Rt.served Rt.trace snd fst].
  repeat split; assumption.
Qed.

Lemma mirrors_getitem r k :
  Flow.mirrors (Rq := Rq) (Resp := Resp) (Rt.getitem r k) (Rt.getitem r k).
Proof.
  unfold Rt.getitem. apply mirrors_bind; [apply mirrors_deref|].
  intros d. destruct (Py.dict_get k d); [apply mirrors_ret | apply mirrors_raise].
Qed.

End Mirrors.

Create HintDb mirrors.
#[export] Hint Resolve mirrors_ret mirrors_raise mirrors_sys_exit mirrors_out_of_fuel
  mirrors_print mirrors_sleep mirrors_send mirrors_new_dict mirrors_deref
  mirrors_setitem mirrors_getitem : mirrors.

Ltac mirrors :=
  repeat first
    [ progress auto with mirrors
    | apply mirrors_bind; [| intros ?]
    | apply mirrors_try_except; [| intros ?]
    | match goal with
      | |- Flow.mirrors (if ?b then _ else _) _ => destruct b
      | |- Flow.mirrors (match ?x with _ => _ end) _ => destruct x
      end ].

Lemma mirrors_response_result r :
  Flow.mirrors (Rq := Genai.request) (Resp := Genai.response)
    (Genai.response_result r) (Genai.response_result r).
Proof. unfold Genai.response_result. mirrors. Qed.

Lemma mirrors_attempts step_name prompt model_name tools todo :
  Flow.mirrors (Genai.attempts step_name prompt model_name tools todo)
    (Genai.attempts step_name prompt model_name tools todo).
Proof.
  induction todo as [|attempt rest IH]; cbn [Genai.attempts].
  - mirrors.
  - apply mirrors_try_except.
    + apply mirrors_bind; [|intros; apply mirrors_response_result].
      destruct tools as [[|]|]; mirrors.
    + intros e. cbn zeta. destruct (Genai.rate_limited (Rt.str_exn e)); mirrors.
Qed.

Lemma mirrors_run_step step_name prompt model_name tools :
  Flow.mirrors (Genai.run_step step_name prompt model_name tools)
    (Genai.run_step step_name prompt model_name tools).
Proof. unfold Genai.run_step. apply mirrors_bind; [mirrors | intros; apply mirrors_attempts]. Qed.

Lemma mirrors_retrieve user_reqs :
  Flow.mirrors (Genai.retrieve user_reqs) (Genai.retrieve user_reqs).
Proof.
  unfold Genai.retrieve.
  repeat first [ apply mirrors_run_step | apply mirrors_getitem
               | apply mirrors_bind; [| intros ?]
               | progress auto with mirrors
               | match goal with
                 | |- Flow.mirrors (if ?b then _ else _) _ => destruct b
                 end ].
Qed.

Lemma mirrors_score_and_rank user_reqs data :
  Flow.mirrors (Genai.score_and_rank user_reqs data) (Genai.score_and_rank user_reqs data).
Proof.
  unfold Genai.score_and_rank.
  repeat first [ apply mirrors_run_step | apply mirrors_getitem
               | apply mirrors_bind; [| intros ?]
               | progress auto with mirrors
               | match goal with
                 | |- Flow.mirrors (if ?b then _ else _) _ => destruct b
                 end ].
Qed.

(** What [mock_input] does in place of [input]. *)
Lemma mirrors_mock_input text :
  Flow.mirrors (Rt.input text) (Verify.mock_input text).
Proof.
  intros w1 w2 (H1 & H2 & H3 & H4 & H5 & H6).
  unfold Verify.mock_input, Rt.input, Rt.bind, Rt.print, Rt.emit.
  cbn [fst snd Rt.stdin Rt.heap Rt.backend Rt.served Rt.trace]. rewrite H1.
  destruct (Rt.stdin w2); cbn [fst snd Rt.stdin Rt.heap Rt.backend Rt.served Rt.trace];
    (split; [reflexivity|]); unfold Flow.alike;
    cbn [Rt.stdin Rt.heap Rt.backend Rt.served Rt.trace snd fst];
    rewrite ?requests_app, ?sleeps_app, H5, H6; repeat split; try assumption;
    cbn; now rewrite ?app_nil_r.
Qed.

Section Patched.
Variables input1 input2 : string -> Verify.prog string.
Hypothesis Hinput : forall text, Flow.mirrors (input1 text) (input2 text).

Lemma mirrors_ask_choice fuel :
  Flow.mirrors (Verify.ask_choice input1 fuel) (Verify.ask_choice input2 fuel).
Proof.
  induction fuel as [|fuel IH]; cbn [Verify.ask_choice]; [mirrors|].
  apply mirrors_bind.
  - apply mirrors_try_except; [|intros []; mirrors].
    apply mirrors_bind; [apply Hinput | intros; mirrors].
  - intros choice. destruct (Py.member choice ["player"; "coach"]); [mirrors|].
    destruct (String.eqb choice ""); [mirrors|].
    apply mirrors_bind; [mirrors | intros; apply IH].
Qed.

Lemma mirrors_ask_field r key text :
  Flow.mirrors (Verify.ask_field input1 r key text) (Verify.ask_field input2 r key text).
Proof. unfold Verify.ask_field. apply mirrors_bind; [apply Hinput | intros; mirrors]. Qed.

Lemma mirrors_fill_requirements choice :
  Flow.mirrors (Verify.fill_requirements input1 choice)
    (Verify.fill_requirements input2 choice).
Proof.
  unfold Verify.fill_requirements.
  apply mirrors_bind; [mirrors|]. intros r.
  apply mirrors_bind; [|intros; mirrors].
  apply mirrors_try_except; [|intros []; mirrors].
  destruct (String.eqb choice "player");
    repeat first [ apply mirrors_ask_field | apply mirrors_bind; [| intros ?] ].
Qed.

Lemma mirrors_collect :
  Flow.mirrors (Verify.collect_user_requirements input1)
    (Verify.collect_user_requirements input2).
Proof.
  unfold Verify.collect_user_requirements.
  apply mirrors_bind; [mirrors|]. intros _.
  apply mirrors_bind; [|intros; apply mirrors_fill_requirements].
  intros w1 w2 H. rewrite (proj1 H). now apply mirrors_ask_choice.
Qed.

Lemma mirrors_main : Flow.mirrors (Verify.main input1) (Verify.main input2).
Proof.
  unfold Verify.main.
  apply mirrors_bind; [apply mirrors_collect|]. intros r.
  apply mirrors_bind; [apply mirrors_retrieve|]. intros d.
  apply mirrors_score_and_rank.
Qed.

End Patched.

(** With [input] itself the patched script is football_system.py. *)
Lemma verify_main_unpatched : Verify.main Rt.input = Genai.main.
Proof. reflexivity. Qed.

(** X12.  Under [mock_input], [football_system.main] ends the way it ends
    when the same answers are typed in: the same outcome, the same answers
    left over, the same dict objects, and the same requests and waits in
    the same order.  Only what is shown to the operator differs. *)
Theorem mock_input_mirrors_input :
  forall w : Rt.world Genai.request Genai.response,
    fst (Verify.main Verify.mock_input w) = fst (Genai.main w)
    /\ Flow.alike (snd (Genai.main w)) (snd (Verify.main Verify.mock_input w)).
Proof.
  intros w. rewrite <- verify_main_unpatched.
  destruct (mirrors_main Rt.input Verify.mock_input mirrors_mock_input w w (alike_refl w))
    as [H1 H2].
  split; [symmetry; exact H1 | exact H2].
Qed.

(** X13.  [run_test] cannot fail once football_system has been imported:
    whatever the backend answers, and even when every request is refused,
    it takes the five answers of [inputs], sends between three and fifteen
    requests and ends by printing that the test completed successfully. *)
Theorem verification_always_succeeds :
  forall h (b : nat -> Genai.request -> Genai.response + string) n t,
  exists w',
    Verify.run_test (Rt.World Verify.inputs h b n t) = (Rt.Done tt, w')
    /\ Rt.stdin w' = []
    /\ (n + 3 <= Rt.served w' <= n + 15)%nat
    /\ last (Rt.trace w') = Some (Rt.Print "Verification Test Completed Successfully.").
Proof.
  intros h b n t.
  set (w0 := Rt.World Verify.inputs h b n (t ++ [Rt.Print "Starting Verification Test..."])%list).
  assert (Hg : exists w1, Genai.main w0 = (Rt.Done tt, w1) /\ Rt.stdin w1 = []
                          /\ (n + 3 <= Rt.served w1 <= n + 15)%nat).
  { destruct (genai_collect_at_once "player" "Forward" "20-25" "3+ years" "Attacking, fast"
                [] h b n (t ++ [Rt.Print "Starting Verification Test..."])%list eq_refl)
      as (tr0 & Hc).
    set (w1 := Rt.World [] (h ++ [Obs.requirements_of (Obs.normalize "player") "Forward"
                                    "20-25" "3+ years" "Attacking, fast"])%list b n
                 ((t ++ [Rt.Print "Starting Verification Test..."]) ++ tr0)%list) in Hc.
    assert (Hd : Rt.heap w1 !! length h
                 = Some (Obs.requirements_of (Obs.normalize "player") "Forward"
                           "20-25" "3+ years" "Attacking, fast"))
      by (apply list_lookup_middle; reflexivity).
    destruct (genai_retrieve_run (length h) _ _ _ _ _ w1 (or_introl eq_refl) Hd)
      as (data & k1 & tr1 & Hk1 & Hrun1 & _).
    destruct (genai_score_and_rank_run (length h) _ data
                (Obs.advance w1 (Rt.stdin w1) (Nat.min (S k1) 5) tr1) Hd)
      as (scored & final & k2 & k3 & tr2 & Hk2 & Hk3 & Hrun2 & _).
    eexists. split.
    { unfold Genai.main. fold w0.
      rewrite (bind_done _ _ _ _ _ Hc), (bind_done _ _ _ _ _ Hrun1). exact Hrun2. }
    cbn [Obs.advance Rt.stdin Rt.served w1]. split; [reflexivity | lia]. }
  destruct Hg as (w1 & Hmain & Hin & Hserved).
  destruct (mirrors_main Rt.input Verify.mock_input mirrors_mock_input w0 w0 (alike_refl w0))
    as [Ho (H1 & _ & _ & H4 & _)].
  rewrite verify_main_unpatched, Hmain in Ho, H1, H4. cbn [fst snd] in Ho, H1, H4.
  destruct (Verify.main Verify.mock_input w0) as [o w2] eqn:Hv. cbn [fst snd] in Ho, H1, H4.
  subst o.
  eexists. split.
  { unfold Verify.run_test, Rt.bind at 1, Rt.print at 1, Rt.emit.
    cbn [Rt.stdin Rt.heap Rt.backend Rt.served Rt.trace]. fold w0.
    unfold Rt.bind at 1. rewrite Hv. reflexivity. }
  cbn [Rt.stdin Rt.served Rt.trace]. rewrite last_snoc, <- H1, <- H4. repeat split; tauto || lia.
Qed.

(** *** Loading the scripts *)

Lemma truthy_true s : Py.truthy s = true <-> s <> "".
Proof.
  unfold Py.truthy. destruct (String.eqb_spec s ""); cbn; split; congruence.
Qed.

Lemma find_api_key_usable environ k :
  Flow.usable environ k -> Startup.find_api_key environ = Some k.
Proof.
  intros [Hk [Hg | [[Hg | Hg] Hm]]]; unfold Startup.find_api_key; rewrite Hg; cbn.
  - apply truthy_true in Hk. now rewrite Hk.
  - exact Hm.
  - exact Hm.
Qed.

Lemma find_api_key_found environ k :
  Startup.find_api_key environ = Some k -> k <> "" -> Flow.usable environ k.
Proof.
  unfold Startup.find_api_key. intros H Hk. split; [exact Hk|].
  destruct (environ !! "GOOGLE_API_KEY") as [g|] eqn:Hg; cbn in H.
  - destruct (Py.truthy g) eqn:Ht; cbn in H; [left; exact H|].
    right. split; [|exact H]. right. f_equal.
    unfold Py.truthy in Ht. destruct (String.eqb_spec g ""); [assumption | discriminate].
  - right. split; [left; reflexivity | exact H].
Qed.

Lemma find_api_key_unusable environ :
  (forall k, ~ Flow.usable environ k)
  <-> Py.truthy_opt (Startup.find_api_key environ) = false.
Proof.
  split.
  - intros H. destruct (Startup.find_api_key environ) as [k|] eqn:Hf; [|reflexivity].
    cbn. destruct (Py.truthy k) eqn:Hk; [|reflexivity].
    destruct (H k). apply find_api_key_found; [exact Hf | now apply truthy_true].
  - intros H k Hu. rewrite (find_api_key_usable _ _ Hu) in H. cbn in H.
    destruct Hu as [Hk _]. apply truthy_true in Hk. congruence.
Qed.

Lemma drop_gemini_lookup environ v :
  Startup.drop_gemini environ !! v
  = if decide (v = "GEMINI_API_KEY") then None else environ !! v.
Proof.
  unfold Startup.drop_gemini.
  destruct (environ !! "GEMINI_API_KEY") eqn:Hm, (decide (v = "GEMINI_API_KEY")) as [->|Hv].
  - apply lookup_delete_eq.
  - now apply lookup_delete_ne.
  - exact Hm.
  - reflexivity.
Qed.

Lemma startup_same_environ environ new_client adk_installed :
  Startup.environ_of (Startup.football_system environ new_client)
  = Startup.environ_of (Startup.football_system_adk environ adk_installed).
Proof.
  unfold Startup.football_system, Startup.football_system_adk.
  destruct (negb (Py.truthy_opt (Startup.find_api_key environ))); [reflexivity|].
  cbn zeta. destruct (new_client _), adk_installed; reflexivity.
Qed.

Lemma adk_environ_usable environ adk_installed k :
  Flow.usable environ k ->
  Startup.environ_of (Startup.football_system_adk environ adk_installed)
  = Startup.drop_gemini (<["GOOGLE_API_KEY" := Py.strip k]> environ).
Proof.
  intros Hu. unfold Startup.football_system_adk.
  rewrite (find_api_key_usable _ _ Hu). cbn.
  destruct Hu as [Hk _]. apply truthy_true in Hk. rewrite Hk. cbn.
  destruct adk_installed; reflexivity.
Qed.

Lemma adk_environ_unusable environ adk_installed :
  (forall k, ~ Flow.usable environ k) ->
  Startup.football_system_adk environ adk_installed
  = Startup.Stopped 1 environ
      ["ERROR: GOOGLE_API_KEY not found. Please check your .env file."].
Proof.
  intros Hu. unfold Startup.football_system_adk.
  apply find_api_key_unusable in Hu. now rewrite Hu.
Qed.

(** X14.  When the environment offers a key, both scripts leave the same
    environment behind, whether or not the client or the ADK could be
    set up: [GOOGLE_API_KEY] holds the key without the blanks around it,
    [GEMINI_API_KEY] is gone and no other variable has changed. *)
Theorem startup_environment :
  forall environ new_client adk_installed k,
    Flow.usable environ k ->
    let e := Startup.environ_of (Startup.football_system environ new_client) in
    e = Startup.environ_of (Startup.football_system_adk environ adk_installed)
    /\ e !! "GOOGLE_API_KEY" = Some (Py.strip k)
    /\ e !! "GEMINI_API_KEY" = None
    /\ forall v, v <> "GOOGLE_API_KEY" -> v <> "GEMINI_API_KEY" -> e !! v = environ !! v.
Proof.
  intros environ new_client adk_installed k Hu e. subst e.
  rewrite (startup_same_environ environ new_client adk_installed).
  rewrite (adk_environ_usable _ _ _ Hu).
  split; [reflexivity|]. split; [|split].
  - rewrite drop_gemini_lookup. destruct (decide _) as [H|_]; [discriminate H|].
    apply lookup_insert_eq.
  - rewrite drop_gemini_lookup. now destruct (decide _).
  - intros v Hg Hm. rewrite drop_gemini_lookup. destruct (decide _) as [H|_]; [contradiction|].
    now apply lookup_insert_ne.
Qed.

Lemma startup_environment_witness :
  Startup.environ_of (Startup.football_system Flow.both_keys (fun _ => None)) !! "GOOGLE_API_KEY"
  = Some "g-key"
  /\ Startup.environ_of (Startup.football_system Flow.gemini_only (fun _ => None))
     !! "GOOGLE_API_KEY" = Some "m-key".
Proof.
  split.
  - refine (proj1 (proj2 (startup_environment Flow.both_keys (fun _ => None) true
                            "  g-key " _))).
    split; [discriminate | left; vm_compute; reflexivity].
  - refine (proj1 (proj2 (startup_environment Flow.gemini_only (fun _ => None) true
                            "m-key" _))).
    split; [discriminate | right; split; [right|]; vm_compute; reflexivity].
Defined.

(** X15.  The scripts give up with the not-found message exactly when the
    environment offers no key: both variables unset or empty.  They exit
    with status 1 then, have printed nothing else and leave the environment
    as it was. *)
Theorem startup_without_key :
  forall environ new_client adk_installed,
    let not_found :=
      Startup.Stopped 1 environ
        ["ERROR: GOOGLE_API_KEY not found. Please check your .env file."] in
    ((forall k, ~ Flow.usable environ k)
     <-> Startup.football_system environ new_client = not_found)
    /\ ((forall k, ~ Flow.usable environ k)
        <-> Startup.football_system_adk environ adk_installed = not_found).
Proof.
  intros environ new_client adk_installed not_found. subst not_found. split; split.
  - intros Hu. unfold Startup.football_system.
    apply find_api_key_unusable in Hu. now rewrite Hu.
  - intros H. apply find_api_key_unusable. revert H. unfold Startup.football_system.
    destruct (Py.truthy_opt (Startup.find_api_key environ)); [|reflexivity].
    cbn. destruct (new_client _); discriminate.
  - apply adk_environ_unusable.
  - intros H. apply find_api_key_unusable. revert H. unfold Startup.football_system_adk.
    destruct (Py.truthy_opt (Startup.find_api_key environ)); [|reflexivity].
    cbn. destruct adk_installed; discriminate.
Qed.

(** An environment without either variable. *)
Lemma startup_without_key_witness :
  Startup.football_system Flow.no_key (fun _ => None)
  = Startup.Stopped 1 Flow.no_key
      ["ERROR: GOOGLE_API_KEY not found. Please check your .env file."].
Proof.
  apply (proj1 (proj1 (startup_without_key Flow.no_key (fun _ => None) true))).
  intros k [_ [H | [_ H]]]; vm_compute in H; discriminate H.
Defined.

(** X16.  football_system.py shows the key it uses and its length before
    it makes the client, and reports a client that could not be made on a
    third line; football_system_adk.py prints nothing about the key.  The
    key is checked before the blanks are taken off: a key of blanks only
    is not reported as missing and is used as the empty key. *)
Theorem startup_shows_the_key :
  forall environ new_client k,
    Flow.usable environ k ->
    let shown := "DEBUG: Using API Key: " ++ Py.repr (Py.strip k) in
    let counted := "DEBUG: Key length: " ++ Py.str_int (Z.of_nat (String.length (Py.strip k))) in
    exists rest,
      Startup.printed (Startup.football_system environ new_client) = shown :: counted :: rest
      /\ (rest = [] <-> new_client (Py.strip k) = None)
      /\ (rest = [] <->
          exists e, Startup.football_system environ new_client = Startup.Ready e
            (Startup.printed (Startup.football_system environ new_client)))
      /\ Startup.printed (Startup.football_system_adk environ true) = [].
Proof.
  intros environ new_client k Hu shown counted. subst shown counted.
  unfold Startup.football_system, Startup.football_system_adk.
  rewrite (find_api_key_usable _ _ Hu). cbn [Py.truthy_opt].
  change (default "" (Some k)) with k.
  destruct Hu as [Hk _]. apply truthy_true in Hk. rewrite Hk. cbn [negb].
  cbn zeta. destruct (new_client (Py.strip k)) as [err|] eqn:Hn.
  - eexists. split; [reflexivity|]. cbn [Startup.printed].
    split; [split; discriminate|]. split; [|reflexivity].
    split; [discriminate|]. intros [e He]. discriminate He.
  - exists []. split; [reflexivity|]. cbn [Startup.printed].
    split; [split; reflexivity|]. split; [|reflexivity].
    split; [|reflexivity]. intros _. eexists. reflexivity.
Qed.

Lemma startup_shows_the_key_witness :
  exists rest,
    Startup.printed (Startup.football_system Flow.blank_key (fun _ => None))
    = ("DEBUG: Using API Key: ''" :: "DEBUG: Key length: 0" :: rest)%list.
Proof.
  assert (Hu : Flow.usable Flow.blank_key "   ")
    by (split; [discriminate | left; vm_compute; reflexivity]).
  destruct (startup_shows_the_key Flow.blank_key (fun _ => None) "   " Hu) as (rest & H & _).
  exists rest. exact H.
Defined.

Lemma rstrip_rstrip s : Py.rstrip (Py.rstrip s) = Py.rstrip s.
Proof.
  induction s as [|c r IH]; [reflexivity|]. cbn [Py.rstrip].
  destruct (Py.rstrip r) as [|c' r'] eqn:Hr.
  - destruct (Py.isspace c) eqn:Hc; [reflexivity|]. cbn [Py.rstrip]. now rewrite Hc.
  - cbn [Py.rstrip]. cbn [Py.rstrip] in IH. now rewrite IH.
Qed.

Lemma lstrip_head s :
  Py.lstrip s = "" \/ exists c r, Py.lstrip s = String c r /\ Py.isspace c = false.
Proof.
  induction s as [|c r IH]; [left; reflexivity|]. cbn [Py.lstrip].
  destruct (Py.isspace c) eqn:Hc; [exact IH|]. right. now exists c, r.
Qed.

Lemma rstrip_head c r :
  Py.isspace c = false -> exists r', Py.rstrip (String c r) = String c r'.
Proof.
  intros Hc. cbn [Py.rstrip]. destruct (Py.rstrip r); [rewrite Hc|]; eauto.
Qed.

Lemma strip_strip s : Py.strip (Py.strip s) = Py.strip s.
Proof.
  unfold Py.strip. destruct (lstrip_head s) as [-> | (c & r & -> & Hc)]; [reflexivity|].
  destruct (rstrip_head c r Hc) as (r' & Hr). rewrite Hr.
  cbn [Py.lstrip]. rewrite Hc, <- Hr. apply rstrip_rstrip.
Qed.

Lemma drop_gemini_absent environ :
  environ !! "GEMINI_API_KEY" = None -> Startup.drop_gemini environ = environ.
Proof. unfold Startup.drop_gemini. now intros ->. Qed.

Lemma adk_environ_again environ adk_installed adk_installed' :
  let e := Startup.environ_of (Startup.football_system_adk environ adk_installed) in
  Startup.environ_of (Startup.football_system_adk e adk_installed') = e.
Proof.
  cbn zeta.
  destruct (Py.truthy_opt (Startup.find_api_key environ)) eqn:Hf.
  - destruct (Startup.find_api_key environ) as [k|] eqn:Hk; [|discriminate]. cbn in Hf.
    assert (Hu : Flow.usable environ k)
      by (apply find_api_key_found; [exact Hk | now apply truthy_true]).
    rewrite (adk_environ_usable _ adk_installed _ Hu).
    set (e := Startup.drop_gemini (<["GOOGLE_API_KEY" := Py.strip k]> environ)).
    assert (Hg : e !! "GOOGLE_API_KEY" = Some (Py.strip k)).
    { unfold e. rewrite drop_gemini_lookup. destruct (decide _) as [H|_]; [discriminate H|].
      apply lookup_insert_eq. }
    assert (Hm : e !! "GEMINI_API_KEY" = None)
      by (unfold e; rewrite drop_gemini_lookup; now destruct (decide _)).
    destruct (Py.truthy (Py.strip k)) eqn:Hs.
    + assert (Hu' : Flow.usable e (Py.strip k))
        by (split; [now apply truthy_true | left; exact Hg]).
      rewrite (adk_environ_usable _ adk_installed' _ Hu'), strip_strip.
      rewrite (insert_id _ _ _ Hg). now apply drop_gemini_absent.
    + rewrite adk_environ_unusable; [reflexivity|].
      apply find_api_key_unusable. unfold Startup.find_api_key. rewrite Hg. cbn.
      now rewrite Hs, Hm.
  - assert (Hu := proj2 (find_api_key_unusable environ) Hf). clear Hf. rename Hu into Hf.
    rewrite (adk_environ_unusable _ adk_installed Hf). cbn.
    now rewrite (adk_environ_unusable _ adk_installed' Hf).
Qed.

(** X17.  Loading a script a second time, or the other script after it,
    changes the environment no further: whatever the first load left
    behind, also when it stopped, is what the next one leaves. *)
Theorem startup_twice :
  forall environ new_client new_client' adk_installed adk_installed',
    let e := Startup.environ_of (Startup.football_system environ new_client) in
    Startup.environ_of (Startup.football_system e new_client') = e
    /\ Startup.environ_of (Startup.football_system_adk e adk_installed') = e
    /\ Startup.environ_of (Startup.football_system_adk environ adk_installed) = e.
Proof.
  intros environ new_client new_client' adk_installed adk_installed' e. subst e.
  rewrite (startup_same_environ _ new_client' adk_installed').
  rewrite (startup_same_environ environ new_client adk_installed).
  split; [|split]; [apply adk_environ_again .. | reflexivity].
Qed.
